(** * Outfit recommendation core of the fashion-ai backend

    A shallow embedding of the recommendation services
    ([app/services/outfit_service.py], [app/services/personalized_ai_service.py],
    [app/services/fashion_ai_service.py], [app/services/clip_service.py],
    [app/services/weather_service.py] and the route
    [app/routes/ai_recommendations.py]) together with the properties the
    design document states about them.

    Conventions of the embedding.
    - Python [str] values are [string]s of 8-bit characters; [Py.lower] and
      [Py.strip] act on the ASCII range and leave other bytes alone.  Where
      the case mapping of the other letters matters, [str.lower] is an
      argument of the function ([_standardize_color_with]).
    - Python [float]s are exact rationals ([Q]); equality of scores is
      [Qeq].  Sums and quotients are exact here and rounded in the program,
      so a property of a computed score is stated with the room
      [Py.float_slack] where the rounding shows, and the similarity search is
      stated for the similarity as the service computes it.  Temperatures,
      which reach the weather service from outside, may be infinite or
      [nan].
    - A dictionary with a fixed set of keys is a record.  A textual key that
      is absent is the empty string, which is what [d.get(k, "")] yields;
      fields that the code tests against [None] are [option]s.
    - Dictionaries whose iteration order is observable ([defaultdict]s that
      are sorted afterwards) are association lists in insertion order.
    - [random] is an explicit generator state threaded through the code.
    - Exceptions are the [Raise] constructor of [result]; a [try/except]
      is [try_except].
    - A [while] loop takes the number of iterations it may run as an
      argument and answers [None] when that does not suffice. *)

From Stdlib Require Import String Ascii List ZArith QArith Qround Qabs Lia Bool.
From Stdlib Require Import Permutation Sorted DecimalString Lqa.
From stdpp Require Import gmap strings.
Import ListNotations.

Local Open Scope string_scope.
Local Open Scope list_scope.

(* ================================================================== *)
(** * Python built-ins used by the services *)
(* ================================================================== *)

Module Py.

(** ** Strings *)

Definition is_upper (c : ascii) : bool :=
  (65 <=? nat_of_ascii c)%nat && (nat_of_ascii c <=? 90)%nat.

Definition lower_char (c : ascii) : ascii :=
  if is_upper c then ascii_of_nat (nat_of_ascii c + 32) else c.

(** [s.lower()] *)
Fixpoint lower (s : string) : string :=
  match s with
  | EmptyString => EmptyString
  | String c r => String (lower_char c) (lower r)
  end.

(** [needle in hay] on strings: [needle] occurs as a contiguous slice. *)
Fixpoint contains (needle hay : string) : bool :=
  String.prefix needle hay ||
  match hay with
  | EmptyString => false
  | String _ r => contains needle r
  end.

(** [any(word in s for word in words)] *)
Definition any_in (words : list string) (s : string) : bool :=
  List.existsb (fun w => contains w s) words.

(** [any(word in a or word in b for word in words)] *)
Definition any_in2 (words : list string) (a b : string) : bool :=
  List.existsb (fun w => contains w a || contains w b) words.

(** [x in xs] on a list of strings *)
Definition mem (x : string) (xs : list string) : bool :=
  List.existsb (String.eqb x) xs.

(** Characters removed by [s.strip()]. *)
Definition is_space (c : ascii) : bool :=
  let n := nat_of_ascii c in
  ((9 <=? n)%nat && (n <=? 13)%nat) || ((28 <=? n)%nat && (n <=? 32)%nat).

Fixpoint lstrip (s : string) : string :=
  match s with
  | EmptyString => EmptyString
  | String c r => if is_space c then lstrip r else s
  end.

Fixpoint rstrip (s : string) : string :=
  match s with
  | EmptyString => EmptyString
  | String c r =>
      match rstrip r with
      | EmptyString => if is_space c then EmptyString else String c EmptyString
      | r' => String c r'
      end
  end.

(** [s.strip()] *)
Definition strip (s : string) : string := rstrip (lstrip s).

(** [sep.join(parts)] *)
Fixpoint join (sep : string) (parts : list string) : string :=
  match parts with
  | [] => EmptyString
  | [p] => p
  | p :: rest => String.append p (String.append sep (join sep rest))
  end.

(** Truthiness of a string: [bool(s)]. *)
Definition truthy (s : string) : bool :=
  match s with EmptyString => false | _ => true end.

(** [str(x)] of an optional string value: [str(None)] is ["None"]. *)
Definition str_opt (o : option string) : string :=
  match o with Some s => s | None => "None" end.

Definition is_lower (c : ascii) : bool :=
  (97 <=? nat_of_ascii c)%nat && (nat_of_ascii c <=? 122)%nat.

Definition upper_char (c : ascii) : ascii :=
  if is_lower c then ascii_of_nat (nat_of_ascii c - 32) else c.

(** [s.capitalize()] *)
Definition capitalize (s : string) : string :=
  match s with
  | EmptyString => EmptyString
  | String c r => String (upper_char c) (lower r)
  end.

Fixpoint take_word (s : string) : string :=
  match s with
  | EmptyString => EmptyString
  | String c r => if is_space c then EmptyString else String c (take_word r)
  end.

(** [s.split()[0]]; [None] when [s.split()] is empty ([IndexError]). *)
Definition first_word (s : string) : option string :=
  match take_word (lstrip s) with
  | EmptyString => None
  | w => Some w
  end.

(** [str(n)] for a non-negative integer. *)
Definition str_nat (n : nat) : string :=
  NilZero.string_of_uint (Nat.to_uint n).

(** ** Lists *)

(** [sorted(xs)] on strings (insertion into an ascending list). *)
Fixpoint insert_str (x : string) (xs : list string) : list string :=
  match xs with
  | [] => [x]
  | y :: ys => if String.leb x y then x :: xs else y :: insert_str x ys
  end.

Definition sorted_str (xs : list string) : list string :=
  List.fold_right insert_str [] xs.

(** [list(dict.fromkeys(xs))]: first occurrences, in order. *)
Fixpoint dedup (xs : list string) : list string :=
  match xs with
  | [] => []
  | x :: r => x :: List.filter (fun y => negb (String.eqb x y)) (dedup r)
  end.

(** [sorted(set(xs))] *)
Definition sorted_set (xs : list string) : list string :=
  sorted_str (dedup xs).

Section SortDesc.
Context {A : Type} (key : A -> Q).

(** Place [x] in front of the first element whose key does not exceed
    the key of [x]. *)
Fixpoint insert_desc (x : A) (xs : list A) : list A :=
  match xs with
  | [] => [x]
  | y :: ys =>
      if Qle_bool (key y) (key x) then x :: xs else y :: insert_desc x ys
  end.

(** [xs.sort(key=key, reverse=True)] and [sorted(xs, key=key,
    reverse=True)]: descending and stable (elements with equal keys keep
    their original order). *)
Definition sort_desc (xs : list A) : list A :=
  List.fold_right insert_desc [] xs.
(** The order in which [sort_desc] leaves its result. *)
Definition desc (a b : A) : Prop := (key b <= key a)%Q.

End SortDesc.

(** [xs[:k]] for an arbitrary integer [k]: a negative bound counts from
    the end of the list. *)
Definition slice_to {A : Type} (k : Z) (xs : list A) : list A :=
  if (0 <=? k)%Z then List.firstn (Z.to_nat k) xs
  else List.firstn (Z.to_nat (Z.of_nat (List.length xs) + k)) xs.

(** ** Numbers *)

Definition Qlt_bool (x y : Q) : bool := negb (Qle_bool y x).

(** Round to the nearest integer, ties to the even neighbour. *)
Definition round_half_even (x : Q) : Z :=
  let f := Qfloor x in
  let r := (x - inject_Z f)%Q in
  if Qlt_bool r (1 # 2) then f
  else if Qlt_bool (1 # 2) r then (f + 1)%Z
  else if Z.even f then f else (f + 1)%Z.

(** [round(x, ndigits)] *)
Definition round (x : Q) (ndigits : nat) : Q :=
  let scale := (10 ^ Z.of_nat ndigits)%Z in
  Qmake (round_half_even (x * inject_Z scale)) (Z.to_pos scale).

(** [min(max(x, lo), hi)] *)
Definition clamp (lo hi x : Q) : Q :=
  let m := if Qle_bool lo x then x else lo in
  if Qle_bool m hi then m else hi.

(** [sum(xs)] *)
Definition sum (xs : list Q) : Q := List.fold_left Qplus xs 0%Q.

(** The room that statements about sums and quotients of [float]s leave
    for their rounding: a millionth, far above what the rounding of the
    sums of the services amounts to. *)
Definition float_slack : Q := 1 # 1000000.

(** ** Dictionaries in insertion order *)

Section Dict.
Context {K V : Type} (eqb : K -> K -> bool).

(** [d.get(k)] *)
Fixpoint dict_get (k : K) (d : list (K * V)) : option V :=
  match d with
  | [] => None
  | (k', v) :: r => if eqb k k' then Some v else dict_get k r
  end.

(** [d[k] = f(d.get(k))]: an existing key keeps its position, a new key
    goes to the end. *)
Fixpoint dict_update (k : K) (f : option V -> V) (d : list (K * V)) : list (K * V) :=
  match d with
  | [] => [(k, f None)]
  | (k', v) :: r =>
      if eqb k k' then (k', f (Some v)) :: r else (k', v) :: dict_update k f r
  end.
End Dict.

(** ** Exceptions *)

Inductive exn : Type :=
| HTTPException (detail : string)
| Exception (message : string).

Inductive result (A : Type) : Type :=
| Return (a : A)
| Raise (e : exn).
Arguments Return {A} a.
Arguments Raise {A} e.

Definition rbind {A B} (r : result A) (k : A -> result B) : result B :=
  match r with Return a => k a | Raise e => Raise e end.

(** [try: body  except Exception as e: handler(e)]; every exception of the
    model derives from [Exception]. *)
Definition try_except {A} (body : result A) (handler : exn -> result A)
  : result A :=
  match body with Return a => Return a | Raise e => handler e end.

(** A [while] loop run for at most [fuel] iterations; [None] when the
    condition still holds after that. *)
Fixpoint while_loop {S : Type} (fuel : nat) (cond : S -> bool)
         (body : S -> S) (s : S) : option S :=
  if cond s then
    match fuel with
    | O => None
    | Datatypes.S n => while_loop n cond body (body s)
    end
  else Some s.

End Py.

(* ================================================================== *)
(** * Data model *)
(* ================================================================== *)

(** A wardrobe document, [app/models/clothing.py] ([ClothingInDB]) with the
    keys the services read. *)
Record Item : Type := mkItem {
  item_id      : string;            (* 'id'  *)
  item__id     : option string;     (* '_id' *)
  item_name    : string;
  description  : string;
  category     : string;
  subcategory  : string;
  color        : string;
  material     : string;
  formality    : string;
  season       : list string;
  item_type    : option string;
  embedding    : option (list Q)
}.

Definition blank_item : Item :=
  mkItem "" None "" "" "" "" "" "" "" [] None None.

(* ================================================================== *)
(** * [app/services/outfit_service.py] *)
(* ================================================================== *)

Module OutfitService.

(** ** [_detect_category] *)

Definition detect_table : list (list string * string) :=
  [ (["shirt"; "t-shirt"; "blouse"; "top"; "sweater"; "hoodie"; "jersey"; "polo"], "tops");
    (["jeans"; "pants"; "trousers"; "skirt"; "shorts"; "leggings"; "chinos"], "bottoms");
    (["dress"; "jumpsuit"; "romper"; "gown"], "dresses");
    (["jacket"; "coat"; "blazer"; "cardigan"; "vest"; "parka"], "outerwear");
    (["shoes"; "sneakers"; "boots"; "sandals"; "heels"; "flats"; "loafers"], "shoes");
    (["belt"; "scarf"; "hat"; "bag"; "wallet"; "watch"; "jewelry"], "accessories") ].

(** The chain of [if any(word in name ...): return ...] statements. *)
Fixpoint first_keyword_hit (table : list (list string * string)) (name : string)
  : option string :=
  match table with
  | [] => None
  | (words, label) :: rest =>
      if Py.any_in words name then Some label else first_keyword_hit rest name
  end.

Definition _detect_category (item : Item) : string :=
  let name := Py.lower (item_name item) in
  let description := Py.lower (description item) in
  match first_keyword_hit detect_table name with
  | Some label => label
  | None => "other"
  end.

(** ** [_standardize_color] *)

Definition color_map : list (string * list string) :=
  [ ("navy",   ["navy"; "dark blue"; "deep blue"]);
    ("blue",   ["blue"; "light blue"; "sky blue"]);
    ("black",  ["black"; "charcoal"; "dark"]);
    ("white",  ["white"; "ivory"; "cream"; "off-white"]);
    ("gray",   ["gray"; "grey"; "slate"]);
    ("red",    ["red"; "crimson"; "scarlet"]);
    ("green",  ["green"; "olive"; "emerald"]);
    ("brown",  ["brown"; "tan"; "beige"; "khaki"]);
    ("purple", ["purple"; "violet"; "lavender"]);
    ("yellow", ["yellow"; "gold"; "mustard"]);
    ("pink",   ["pink"; "rose"; "blush"]);
    ("orange", ["orange"; "rust"; "coral"]) ].

(** The twelve canonical colour names. *)
Definition canonical_colors : list string := List.map fst color_map.

(** [for standard_color, variants in color_map.items(): if any(...): return] *)
Fixpoint first_variant_hit (m : list (string * list string)) (color_lower : string)
  : option string :=
  match m with
  | [] => None
  | (standard_color, variants) :: rest =>
      if Py.any_in variants color_lower then Some standard_color
      else first_variant_hit rest color_lower
  end.

(** The function with [str.lower] as the argument [lower]: the case
    mapping of [str] covers every cased letter of Unicode, of which
    [Py.lower] maps the letters A to Z. *)
Definition _standardize_color_with (lower : string -> string) (color : string) : string :=
  let color_lower := lower color in
  match first_variant_hit color_map color_lower with
  | Some standard_color => standard_color
  | None => color_lower
  end.

Definition _standardize_color (color : string) : string :=
  _standardize_color_with Py.lower color.

(** ** [_detect_subcategory], [_detect_seasonality], [_detect_formality] *)

Definition _detect_subcategory (item : Item) : string :=
  let name := Py.lower (item_name item) in
  let category := Py.lower (category item) in
  if String.eqb category "tops" then
    if Py.contains "t-shirt" name || Py.contains "tee" name then "t-shirt"
    else if Py.contains "shirt" name then "shirt"
    else if Py.contains "sweater" name || Py.contains "jumper" name then "sweater"
    else if Py.contains "hoodie" name then "hoodie"
    else if Py.contains "blouse" name then "blouse"
    else "general"
  else if String.eqb category "bottoms" then
    if Py.contains "jeans" name then "jeans"
    else if Py.contains "pants" name || Py.contains "trousers" name then "pants"
    else if Py.contains "shorts" name then "shorts"
    else if Py.contains "skirt" name then "skirt"
    else "general"
  else "general".

Definition _detect_seasonality (item : Item) : list string :=
  let material := Py.lower (material item) in
  let seasons1 :=
    if Py.any_in ["wool"; "fleece"; "thermal"; "down"; "cashmere"; "knit"] material
    then ["winter"; "fall"] else [] in
  let seasons2 :=
    if Py.any_in ["linen"; "cotton"; "breathable"; "light"; "seersucker"] material
    then seasons1 ++ ["summer"; "spring"] else seasons1 in
  match seasons2 with
  | [] => ["spring"; "summer"; "fall"; "winter"]
  | _ => seasons2
  end.

Definition _detect_formality (item : Item) : string :=
  let name := Py.lower (item_name item) in
  if Py.any_in ["suit"; "blazer"; "tuxedo"; "dress shirt"; "tie"; "heels"; "loafers"] name
  then "formal"
  else if Py.any_in ["dress pants"; "button-down"; "blouse"; "slacks"; "oxfords"] name
  then "business"
  else if Py.any_in ["t-shirt"; "jeans"; "sneakers"; "hoodie"; "shorts"] name
  then "casual"
  else if Py.any_in ["activewear"; "joggers"; "tank"; "gym"; "sport"] name
  then "sport"
  else "casual".

(** ** [_process_clothing_item] *)

Definition _process_clothing_item (item : Item) : Item :=
  {| item_id := match item__id item with Some oid => oid | None => item_id item end;
     item__id := item__id item;
     item_name := item_name item;
     description := description item;
     category :=
       if Py.truthy (category item) then category item else _detect_category item;
     subcategory :=
       if Py.truthy (subcategory item) then subcategory item
       else _detect_subcategory item;
     color :=
       if Py.truthy (color item) then _standardize_color (color item) else color item;
     material :=
       if Py.truthy (material item) then Py.lower (material item) else material item;
     formality :=
       if Py.truthy (formality item) then formality item else _detect_formality item;
     season :=
       match season item with [] => _detect_seasonality item | s => s end;
     item_type := item_type item;
     embedding := embedding item |}.

(** ** [_categorize_items] *)

Record Categorized : Type := mkCategorized {
  tops : list Item;
  bottoms : list Item;
  dresses : list Item;
  outerwear : list Item;
  shoes : list Item;
  accessories : list Item;
(** the items reported through [logger.warning] *)
warnings : list Item
}.

Definition empty_categorized : Categorized := mkCategorized [] [] [] [] [] [] [].

Definition tops_words := ["shirt"; "top"; "blouse"; "t-shirt"; "tee"; "sweater"; "tank"; "polo"; "jersey"].
Definition bottoms_words := ["pant"; "jean"; "trouser"; "skirt"; "short"; "legging"; "chino"].
Definition dresses_words := ["dress"; "gown"; "jumpsuit"; "romper"].
Definition outerwear_words := ["jacket"; "coat"; "hoodie"; "blazer"; "cardigan"; "vest"; "parka"; "windbreaker"].
Definition shoes_words := ["shoe"; "boot"; "sandal"; "sneaker"; "heel"; "flat"; "loafer"; "slipper"].
Definition accessories_words := ["accessory"; "accessories"; "bag"; "hat"; "cap"; "scarf"; "belt"; "watch"; "jewelry"; "sunglass"].

(** One iteration of the [for item in items] loop. *)
Definition categorize_item (categorized : Categorized) (item : Item) : Categorized :=
  let category := Py.lower (category item) in
  let item_name := Py.lower (item_name item) in
  let c := categorized in
  if Py.any_in2 tops_words category item_name then
    mkCategorized (tops c ++ [item]) (bottoms c) (dresses c) (outerwear c) (shoes c) (accessories c) (warnings c)
  else if Py.any_in2 bottoms_words category item_name then
    mkCategorized (tops c) (bottoms c ++ [item]) (dresses c) (outerwear c) (shoes c) (accessories c) (warnings c)
  else if Py.any_in2 dresses_words category item_name then
    mkCategorized (tops c) (bottoms c) (dresses c ++ [item]) (outerwear c) (shoes c) (accessories c) (warnings c)
  else if Py.any_in2 outerwear_words category item_name then
    mkCategorized (tops c) (bottoms c) (dresses c) (outerwear c ++ [item]) (shoes c) (accessories c) (warnings c)
  else if Py.any_in2 shoes_words category item_name then
    mkCategorized (tops c) (bottoms c) (dresses c) (outerwear c) (shoes c ++ [item]) (accessories c) (warnings c)
  else if Py.any_in2 accessories_words category item_name then
    mkCategorized (tops c) (bottoms c) (dresses c) (outerwear c) (shoes c) (accessories c ++ [item]) (warnings c)
  else
    mkCategorized (tops c ++ [item]) (bottoms c) (dresses c) (outerwear c) (shoes c) (accessories c) (warnings c ++ [item]).

Definition _categorize_items (items : list Item) : Categorized :=
  List.fold_left categorize_item items empty_categorized.

(** No keyword of [_detect_category] occurs in the name or in the
    description of the item. *)
Definition undetected (item : Item) : bool :=
  match first_keyword_hit detect_table (Py.lower (item_name item)),
        first_keyword_hit detect_table (Py.lower (description item)) with
  | None, None => true
  | _, _ => false
  end.

(** No keyword of [_categorize_items] occurs in the category or in the name
    of the item. *)
Definition unbucketed (item : Item) : bool :=
  negb (Py.any_in2 (tops_words ++ bottoms_words ++ dresses_words ++ outerwear_words
                    ++ shoes_words ++ accessories_words)
                   (Py.lower (category item)) (Py.lower (item_name item))).

(** ** Outfits, weather and scores *)

Record Outfit : Type := mkOutfit {
  name : string;
  items : list Item;
  occasion : string
}.

Record Weather : Type := mkWeather {
  temperature : option Q;
  condition : string;
  weather_category : option string      (* 'category' *)
}.

Record Scores : Type := mkScores {
  style_score : Q;
  color_score : Q;
  occasion_score : Q;
  weather_score : Q;
  combined_score : Q
}.

Record Analysis : Type := mkAnalysis {
  color_coordination : string;
  style_coherence : string;
  occasion_appropriateness : string
}.

(** A suggestion as [generate_suggestions] returns it: the outfit, the
    nested ["scores"] dictionary, and the keys [generate_suggestions] adds
    next to it when weather data is at hand. *)
Record ScoredOutfit : Type := mkScoredOutfit {
  outfit : Outfit;
  scores : Scores;
  is_weather_appropriate : bool;
  analysis : Analysis;
  top_weather_score : option Q;         (* scored_outfit['weather_score'] *)
  top_combined_score : option Q;        (* scored_outfit['combined_score'] *)
  is_mock : bool
}.

(** [item.get('id') or str(item.get('_id'))] *)
Definition item_key (item : Item) : string :=
  if Py.truthy (item_id item) then item_id item else Py.str_opt (item__id item).

(** The signature [tuple(sorted([...]))] of an outfit. *)
Definition signature (items : list Item) : list string :=
  Py.sorted_str (List.map item_key items).

(** ** [_is_outfit_valid] *)

Definition has_dress (items : list Item) : bool :=
  List.existsb (fun item => String.eqb (Py.lower (category item)) "dresses") items.

Definition has_top (items : list Item) : bool :=
  List.existsb (fun item =>
    Py.mem (Py.lower (category item)) ["tops"; "shirt"; "blouse"; "t-shirt"; "sweater"]) items.

Definition has_bottom (items : list Item) : bool :=
  List.existsb (fun item =>
    Py.mem (Py.lower (category item)) ["bottoms"; "pants"; "jeans"; "skirt"; "shorts"]) items.

Definition _is_outfit_valid (outfit : Outfit) (occasion : string) : bool :=
  let items := items outfit in
  if (List.length items <? 2)%nat then false
  else if has_dress items then true
  else has_top items && has_bottom items.

(** ** [_calculate_weather_score] *)

Definition bump (c : bool) (d : Q) (score : Q) : Q :=
  if c then (score + d)%Q else score.

Definition weather_bonus (condition wcategory : string) (score : Q) (item : Item) : Q :=
  let material := Py.lower (material item) in
  let category_type := Py.lower (category item) in
  let score :=
    if Py.mem wcategory ["cold"; "freezing"] then
      bump (Py.mem (subcategory item) ["parka"; "puffer"; "winter coat"]) 0.2
        (bump (Py.mem category_type ["coat"; "jacket"; "sweater"; "hoodie"]) 0.1
           (bump (Py.any_in ["wool"; "fleece"; "thermal"; "down"; "cashmere"; "knit"] material) 0.15
              score))
    else if String.eqb wcategory "cool" then
      bump (Py.mem category_type ["jacket"; "cardigan"; "light sweater"]) 0.1
        (bump (Py.any_in ["cotton"; "denim"; "light wool"] material) 0.1 score)
    else if Py.mem wcategory ["hot"; "warm"] then
      bump (Py.contains "sleeveless" (Py.lower (item_name item))) 0.05
        (bump (Py.mem category_type ["t-shirt"; "shorts"; "dress"; "tank"; "skirt"]) 0.1
           (bump (Py.any_in ["cotton"; "linen"; "breathable"; "light"] material) 0.15 score))
    else score in
  let score :=
    if Py.contains "rain" condition then
      bump (String.eqb category_type "shoes" && Py.contains "waterproof" material) 0.2
        (bump (Py.contains "waterproof" material || Py.contains "rain" category_type) 0.25 score)
    else score in
  let score :=
    if Py.contains "snow" condition then
      bump (Py.mem (subcategory item) ["snow boots"; "winter boots"]) 0.2
        (bump (Py.any_in ["waterproof"; "insulated"; "thermal"] material) 0.3 score)
    else score in
  let score :=
    if Py.contains "wind" condition then
      bump (Py.mem category_type ["jacket"; "coat"] && Py.contains "wind" material) 0.15 score
    else score in
  if Py.contains "sun" condition || Py.contains "clear" condition then
    bump (Py.mem category_type ["hat"; "cap"]) 0.1 score
  else score.

Definition weather_penalty (wcategory : string) (score : Q) (item : Item) : Q :=
  let material := Py.lower (material item) in
  let category_type := Py.lower (category item) in
  let score :=
    if Py.mem wcategory ["hot"; "warm"] then
      bump (Py.mem category_type ["coat"; "heavy jacket"]) (- 0.15)
        (bump (Py.any_in ["wool"; "fleece"; "thermal"] material) (- 0.1) score)
    else score in
  if Py.mem wcategory ["cold"; "freezing"] then
    bump (Py.mem category_type ["shorts"; "tank"; "sleeveless"]) (- 0.2)
      (bump (Py.any_in ["linen"; "light cotton"] material) (- 0.1) score)
  else score.

Definition _calculate_weather_score (items : list Item) (weather_data : option Weather) : Q :=
  match items, weather_data with
  | [], _ | _, None => 0.5
  | _, Some w =>
      let condition := Py.lower (condition w) in
      let wcategory :=
        match weather_category w with Some c => c | None => "moderate" end in
      let score := List.fold_left (weather_bonus condition wcategory) items 0.5%Q in
      let score := List.fold_left (weather_penalty wcategory) items score in
      Py.clamp 0 1 score
  end.

(** ** [_calculate_color_score] and [_calculate_occasion_score] *)

Definition neutral_colors := ["black"; "white"; "gray"; "navy"; "beige"; "brown"].
Definition bright_colors := ["red"; "yellow"; "orange"; "pink"; "purple"].

Definition _calculate_color_score (items : list Item) : Q :=
  let colors :=
    List.map (fun item => Py.lower (color item))
             (List.filter (fun item => Py.truthy (color item)) items) in
  match colors with
  | [] => 0.5
  | _ =>
      let score := 0.5%Q in
      let score := bump (List.length (Py.dedup colors) =? 1)%nat 0.2 score in
      let score :=
        bump (List.existsb (fun c => Py.mem c neutral_colors) (List.firstn 2 colors))
             0.1 score in
      let bright_count :=
        List.length (List.filter (fun c => Py.mem c bright_colors) colors) in
      let score := bump (2 <? bright_count)%nat (- 0.1) score in
      Py.clamp 0 1 score
  end.

Definition formality_scores (formality : string) : Q :=
  if String.eqb formality "formal" then 0.9
  else if String.eqb formality "business" then 0.7
  else if String.eqb formality "casual" then 0.5
  else if String.eqb formality "sport" then 0.3
  else 0.5.

Definition occasion_targets (occasion : string) : Q :=
  if String.eqb occasion "formal" then 0.8
  else if String.eqb occasion "business" then 0.7
  else if String.eqb occasion "casual" then 0.5
  else if String.eqb occasion "sport" then 0.3
  else if String.eqb occasion "party" then 0.6
  else if String.eqb occasion "beach" then 0.4
  else if String.eqb occasion "date" then 0.6
  else 0.5.

Definition _calculate_occasion_score (items : list Item) (occasion : string) : Q :=
  match items with
  | [] => 0.5
  | _ =>
      let formalities := List.map (fun item => formality_scores (formality item)) items in
      let avg_formality := (Py.sum formalities / inject_Z (Z.of_nat (List.length formalities)))%Q in
      let target := occasion_targets (Py.lower occasion) in
      let score := (1 - Qabs (avg_formality - target))%Q in
      Py.clamp 0 1 score
  end.

(** [weather_service.get_temperature_category], [app/services/weather_service.py] *)
Definition get_temperature_category (temp_c : Q) : string :=
  if Py.Qlt_bool temp_c 0 then "freezing"
  else if Py.Qlt_bool temp_c 10 then "cold"
  else if Py.Qlt_bool temp_c 20 then "cool"
  else if Py.Qlt_bool temp_c 30 then "warm"
  else "hot".

(** ** The [random] module *)

Section Generation.

(** The generator state and the two primitives every call of the
    [random] module goes through. *)
Context {Rng : Type}.
Variable random : Rng -> Q * Rng.              (* random.random()      *)
Variable randbelow : Z -> Rng -> Z * Rng.      (* random._randbelow(n) *)

(** The wardrobe reader [db.clothing_items.find({"user_id": ...})] and
    the weather source [weather_service.get_current_weather]. *)
Variable find_clothing_items : string -> list Item.
Variable get_current_weather : string -> option Weather.

Definition M (A : Type) : Type := Rng -> A * Rng.
Definition ret {A} (a : A) : M A := fun g => (a, g).
Definition bind {A B} (m : M A) (k : A -> M B) : M B :=
  fun g => let (a, g') := m g in k a g'.

Notation "x <- m ;; k" := (bind m (fun x => k))
  (at level 100, m at next level, right associativity).

(** [random.uniform(a, b)] *)
Definition uniform (a b : Q) : M Q :=
  r <- random ;; ret (a + (b - a) * r)%Q.

(** [random.choice(seq)] for a non-empty [seq]. *)
Definition choice (seq : list Item) : M Item :=
  let n := Z.of_nat (List.length seq) in
  i <- randbelow n ;;
  ret (List.nth (Z.to_nat (i mod n)) seq blank_item).

(** [random.randint(a, b)] *)
Definition randint (a b : Z) : M Z :=
  i <- randbelow (b - a + 1)%Z ;; ret (a + i mod (b - a + 1))%Z.

(** [random.sample(population, k)], by the pool scheme: draw a position,
    take its element, move the last element into the hole. *)
Fixpoint sample (population : list Item) (k : nat) : M (list Item) :=
  match k with
  | O => ret []
  | S k' =>
      let n := List.length population in
      j <- randbelow (Z.of_nat n) ;;
      let j := Z.to_nat (j mod Z.of_nat n) in
      let pool :=
        match population !! (n - 1)%nat with
        | Some last => List.firstn (n - 1) (<[j := last]> population)
        | None => population
        end in
      rest <- sample pool k' ;;
      ret (match population !! j with Some x => x :: rest | None => rest end)
  end.

(** [seq and random.random() < p] *)
Definition coin (seq : list Item) (p : Q) : M bool :=
  match seq with
  | [] => ret false
  | _ => r <- random ;; ret (Py.Qlt_bool r p)
  end.

(** ** [_generate_outfit_name] *)

Definition name_step (acc : Py.result (list string * list string)) (item : Item)
  : Py.result (list string * list string) :=
  Py.rbind acc (fun '(colors, categories) =>
    let color := color item in
    Py.rbind
      (if Py.truthy (category item) then
         match Py.first_word (category item) with
         | Some w => Py.Return w
         | None => Py.Raise (Py.Exception "list index out of range")
         end
       else Py.Return "")
      (fun category =>
         let colors :=
           if Py.truthy color && negb (Py.mem color colors)
           then colors ++ [Py.capitalize color] else colors in
         let categories :=
           if Py.truthy category &&
              negb (Py.mem (Py.lower category) (List.map Py.lower categories))
           then categories ++ [category] else categories in
         Py.Return (colors, categories))).

Definition _generate_outfit_name (items : list Item) (occasion : string)
  : M (Py.result string) :=
  match List.fold_left name_step (List.firstn 3 items) (Py.Return ([], [])) with
  | Py.Raise e => ret (Py.Raise e)
  | Py.Return (colors, categories) =>
      match colors, categories with
      | [], _ =>
          n <- randint 1 100 ;;
          ret (Py.Return (String.append (Py.capitalize occasion)
                             (String.append " Outfit #" (Py.str_nat (Z.to_nat n)))))
      | _, [] =>
          ret (Py.Return (String.append (Py.join " & " (List.firstn 2 colors)) " Outfit"))
      | _, _ =>
          ret (Py.Return (String.append (Py.join " & " (List.firstn 2 colors))
                             (String.append " "
                                (String.append (Py.capitalize occasion) " Outfit"))))
      end
  end.

(** ** [_create_outfit_from_categories] *)

(** [x = random.choice(seq); items.append(x); used_item_ids.add(key(x))] *)
Definition choose_into (seq : list Item) (acc : list Item * gset string)
  : M (list Item * gset string) :=
  x <- choice seq ;;
  ret (fst acc ++ [x], {[ item_key x ]} ∪ snd acc).

Definition dress_strategy (categorized : Categorized) : M (list Item) :=
  acc <- choose_into (dresses categorized) ([], ∅) ;;
  acc <- match shoes categorized with
         | [] => ret acc
         | _ => choose_into (shoes categorized) acc
         end ;;
  c <- coin (outerwear categorized) 0.4 ;;
  acc <- (if c then choose_into (outerwear categorized) acc else ret acc) ;;
  c <- coin (accessories categorized) 0.5 ;;
  if c then accessory <- choice (accessories categorized) ;; ret (fst acc ++ [accessory])
  else ret (fst acc).

Definition separates_strategy (categorized : Categorized) (occasion : string)
  : M (list Item) :=
  acc <- match tops categorized with
         | [] => ret ([], ∅)
         | _ => choose_into (tops categorized) ([], ∅)
         end ;;
  acc <- match bottoms categorized with
         | [] => ret acc
         | _ => choose_into (bottoms categorized) acc
         end ;;
  c <- coin (shoes categorized) 0.8 ;;
  acc <- (if c then choose_into (shoes categorized) acc else ret acc) ;;
  let outerwear_chance :=
    if Py.mem occasion ["formal"; "business"; "winter"] then 0.7%Q else 0.4%Q in
  c <- coin (outerwear categorized) outerwear_chance ;;
  acc <- (if c then choose_into (outerwear categorized) acc else ret acc) ;;
  c <- coin (accessories categorized) 0.6 ;;
  if c then
    let num_accessories := Z.min 2 (Z.of_nat (List.length (accessories categorized))) in
    let available_accessories :=
      List.filter (fun acc' => negb (bool_decide (item_key acc' ∈ snd acc)))
                  (accessories categorized) in
    match available_accessories with
    | [] => ret (fst acc)
    | _ =>
        num_to_add <-
          randint 1 (Z.min num_accessories
                             (Z.of_nat (List.length available_accessories))) ;;
        chosen <- sample available_accessories (Z.to_nat num_to_add) ;;
        ret (fst acc ++ chosen)
    end
  else ret (fst acc).

(** The result is [None] when fewer than two items were picked and when
    naming the outfit raises (the function's own [except] clause).  The
    keys [outfit_id] and [created_at] hold a time stamp and are left out;
    the random suffix of [outfit_id] is still drawn. *)
Definition _create_outfit_from_categories (categorized : Categorized)
           (occasion : string) : M (option Outfit) :=
  dress <- coin (dresses categorized) 0.3 ;;
  items <- (if dress then dress_strategy categorized
            else separates_strategy categorized occasion) ;;
  if (List.length items <? 2)%nat then ret None
  else
    outfit_name <- _generate_outfit_name items occasion ;;
    match outfit_name with
    | Py.Raise _ => ret None
    | Py.Return outfit_name =>
        _ <- randint 1000 9999 ;;
        ret (Some (mkOutfit outfit_name items occasion))
    end.

(** ** [score_outfit] *)

(** [user_id] is not used by the scores.  The [except] clause of the
    function is out of reach for records typed as [Item]. *)
Definition score_outfit (outfit : Outfit) (user_id occasion : string)
           (weather_data : option Weather) : M ScoredOutfit :=
  let items := items outfit in
  style_score <- uniform 0.6 0.95 ;;
  let color_score := _calculate_color_score items in
  let occasion_score := _calculate_occasion_score items occasion in
  let weather_score :=
    match weather_data with
    | Some _ => _calculate_weather_score items weather_data
    | None => 1.0%Q
    end in
  let combined_score :=
    (style_score * 0.3 + color_score * 0.25 + occasion_score * 0.25
     + weather_score * 0.2)%Q in
  ret {| outfit := outfit;
         scores := {| style_score := Py.round style_score 2;
                      color_score := Py.round color_score 2;
                      occasion_score := Py.round occasion_score 2;
                      weather_score := Py.round weather_score 2;
                      combined_score := Py.round combined_score 2 |};
         is_weather_appropriate := Qle_bool 0.6 weather_score;
         analysis :=
           {| color_coordination :=
                if Py.Qlt_bool 0.7 color_score then "Good" else "Needs improvement";
              style_coherence :=
                if Py.Qlt_bool 0.8 style_score then "Excellent" else "Good";
              occasion_appropriateness :=
                if Py.Qlt_bool 0.8 occasion_score then "Perfect" else "Appropriate" |};
         top_weather_score := None;
         top_combined_score := None;
         is_mock := false |}.

(** ** [_get_mock_outfits] *)

Definition mock_item (id name category color : string) : Item :=
  mkItem id None name "" category "" color "" "" [] None None.

Definition mock_1 := mock_item "mock_1" "White Cotton T-Shirt" "tops" "white".
Definition mock_2 := mock_item "mock_2" "Blue Denim Jeans" "bottoms" "blue".
Definition mock_3 := mock_item "mock_3" "Black Leather Jacket" "outerwear" "black".
Definition mock_4 := mock_item "mock_4" "White Sneakers" "shoes" "white".
Definition mock_5 := mock_item "mock_5" "Beige Chinos" "bottoms" "brown".
Definition mock_6 := mock_item "mock_6" "Gray Hoodie" "tops" "gray".

(** The items and the name of the [i]-th mock outfit. *)
Definition mock_combination (i : nat) : list Item * string :=
  match i with
  | 0%nat => ([mock_1; mock_2; mock_4], "Casual Streetwear")
  | 1%nat => ([mock_1; mock_5; mock_4], "Smart Casual")
  | _ => ([mock_6; mock_2; mock_3; mock_4], "Urban Style")
  end.

Definition mock_outfit (i : nat) (occasion : string) : M ScoredOutfit :=
  let '(items, name) := mock_combination i in
  s <- uniform 0.7 0.9 ;; let style_score := Py.round s 2 in
  c <- uniform 0.6 0.8 ;; let color_score := Py.round c 2 in
  o <- uniform 0.7 0.9 ;; let occasion_score := Py.round o 2 in
  w <- uniform 0.8 1.0 ;; let weather_score := Py.round w 2 in
  let combined_score :=
    Py.round ((style_score + color_score + occasion_score + weather_score) / 4)%Q 2 in
  ret {| outfit :=
           mkOutfit (String.append name (String.append " - " (Py.capitalize occasion)))
                    items occasion;
         scores := mkScores style_score color_score occasion_score weather_score
                            combined_score;
         is_weather_appropriate := true;
         analysis := mkAnalysis "Good" "Excellent" "Perfect";
         top_weather_score := None;
         top_combined_score := None;
         is_mock := true |}.

Fixpoint mock_outfits_from (i n : nat) (occasion : string) : M (list ScoredOutfit) :=
  match n with
  | O => ret []
  | S n' =>
      o <- mock_outfit i occasion ;;
      rest <- mock_outfits_from (S i) n' occasion ;;
      ret (o :: rest)
  end.

(** [for i in range(min(count, 3))] *)
Definition _get_mock_outfits (occasion location : string) (count : Z)
  : M (list ScoredOutfit) :=
  mock_outfits_from 0 (Z.to_nat (Z.min count 3)) occasion.

(** ** [get_user_wardrobe] *)

Definition get_user_wardrobe (user_id : string) : list Item :=
  List.map _process_clothing_item (find_clothing_items user_id).

(** ** [generate_suggestions] *)

Record GenState : Type := mkGenState {
  outfits : list ScoredOutfit;
  seen_combinations : gset (list string);
  attempts : Z;
  rng : Rng
}.

(** The keys added to a scored outfit when weather data is at hand.
    [scored_outfit.get('style_score', 0.7)] and its two neighbours read
    keys of the top level, where [score_outfit] has put none. *)
Definition add_weather_keys (scored_outfit : ScoredOutfit)
           (weather_data : option Weather) : ScoredOutfit :=
  match weather_data with
  | None => scored_outfit
  | Some _ =>
      let weather_score :=
        _calculate_weather_score (items (outfit scored_outfit)) weather_data in
      {| outfit := outfit scored_outfit;
         scores := scores scored_outfit;
         is_weather_appropriate := Qle_bool 0.6 weather_score;
         analysis := analysis scored_outfit;
         top_weather_score := Some weather_score;
         top_combined_score :=
           Some (0.7 * 0.3 + 0.7 * 0.25 + 0.7 * 0.25 + weather_score * 0.2)%Q;
         is_mock := is_mock scored_outfit |}
  end.

(** The condition and the body of the [while] loop. *)
Definition generation_cond (count max_attempts : Z) (st : GenState) : bool :=
  (Z.of_nat (List.length (outfits st)) <? count)%Z && (attempts st <? max_attempts)%Z.

Definition generation_body (categorized : Categorized) (user_id occasion : string)
           (weather_data : option Weather) (st : GenState) : GenState :=
  let (candidate, g) := _create_outfit_from_categories categorized occasion (rng st) in
  let skip := mkGenState (outfits st) (seen_combinations st) (attempts st + 1) g in
  match candidate with
  | None => skip
  | Some o =>
      if _is_outfit_valid o occasion then
        let item_ids := signature (items o) in
        if bool_decide (item_ids ∈ seen_combinations st) then skip
        else
          let (scored_outfit, g') := score_outfit o user_id occasion weather_data g in
          mkGenState (outfits st ++ [add_weather_keys scored_outfit weather_data])
                     ({[ item_ids ]} ∪ seen_combinations st)
                     (attempts st + 1) g'
      else skip
  end.

Definition sort_key (o : ScoredOutfit) : Q :=
  match top_combined_score o with Some s => s | None => 0 end.

(** The weather record the generator works with. *)
Definition resolve_weather (location : string) (weather_data : option Weather)
  : option Weather :=
  match weather_data with
  | Some _ => weather_data
  | None =>
      if Py.truthy location then
        match get_current_weather location with
        | Some w =>
            Some (mkWeather (temperature w) (condition w)
                    (Some (get_temperature_category
                             (match temperature w with Some t => t | None => 20 end))))
        | None => None
        end
      else None
  end.

(** The state in which the [while] loop stops ([None]: not within [fuel]
    iterations). *)
Definition generation_loop (fuel : nat) (user_id occasion : string) (count : Z)
           (location : string) (weather_data : option Weather) (g : Rng)
  : option GenState :=
  let wardrobe := get_user_wardrobe user_id in
  let weather_data := resolve_weather location weather_data in
  let categorized := _categorize_items wardrobe in
  let max_attempts := (count * 20)%Z in
  Py.while_loop fuel (generation_cond count max_attempts)
                (generation_body categorized user_id occasion weather_data)
                (mkGenState [] ∅ 0 g).

(** The list returned and the generator state left behind; [None] when the
    loop was not given enough iterations.  On records typed as [Item] no
    statement of the [try] body raises, so the [except] clause, which
    answers with the mock outfits as well, has no counterpart here. *)
Definition generate_suggestions (fuel : nat) (user_id occasion : string) (count : Z)
           (location : string) (weather_data : option Weather) (g : Rng)
  : option (list ScoredOutfit * Rng) :=
  match get_user_wardrobe user_id with
  | [] => Some (_get_mock_outfits occasion location count g)
  | _ =>
      match generation_loop fuel user_id occasion count location weather_data g with
      | None => None
      | Some st =>
          Some (Py.slice_to count (Py.sort_desc sort_key (outfits st)), rng st)
      end
  end.

End Generation.

(** ** Vocabulary of the generator properties *)

(** The composition rule of [_is_outfit_valid]. *)
Definition well_formed (its : list Item) : Prop :=
  (2 <= List.length its)%nat
  /\ (has_dress its = true \/ (has_top its = true /\ has_bottom its = true)).

Definition signature_of (o : ScoredOutfit) : list string :=
  signature (items (outfit o)).

(** What the loop maintains: the accepted signatures are pairwise distinct
    and recorded in [seen_combinations], every accepted outfit passed
    [_is_outfit_valid], and neither counter overshoots its bound. *)
Definition gen_inv {Rng : Type} (count : Z) (st : GenState (Rng := Rng)) : Prop :=
  List.NoDup (List.map signature_of (outfits st))
  /\ List.Forall (fun o => signature_of o ∈ seen_combinations st) (outfits st)
  /\ List.Forall (fun o => well_formed (items (outfit o))) (outfits st)
  /\ (0 <= attempts st <= Z.max 0 (count * 20))%Z
  /\ (Z.of_nat (List.length (outfits st)) <= Z.max 0 count)%Z.

(** ** Vocabulary of the further properties *)

(** The six buckets of [_categorize_items], one after the other. *)
Definition all_buckets (c : Categorized) : list Item :=
  List.concat [tops c; bottoms c; dresses c; outerwear c; shoes c; accessories c].

(** [Q] holds for what a computation on the generator returns, whatever
    the state of the generator. *)
Definition always {Rng A : Type} (m : Rng -> A * Rng) (Q : A -> Prop) : Prop :=
  forall g, Q (fst (m g)).

(** Vocabulary for the two strategies of [_create_outfit_from_categories]:
    an item of one of the buckets, and an accumulator (the [outfit_items]
    list with its [used_ids] set) of such items of bounded length. *)
Definition from_buckets (categorized : Categorized) (x : Item) : Prop :=
  In x (all_buckets categorized).

Definition acc_ok (categorized : Categorized) (n : nat) (acc : list Item * gset string)
  : Prop :=
  List.Forall (from_buckets categorized) (fst acc) /\ (List.length (fst acc) <= n)%nat.

(** What [_create_outfit_from_categories] promises of an outfit it makes. *)
Definition created_from (categorized : Categorized) (occasion : string) (o : Outfit) : Prop :=
  (2 <= List.length (items o) <= 6)%nat
  /\ List.Forall (from_buckets categorized) (items o)
  /\ OutfitService.occasion o = occasion.

(** An item as [_process_clothing_item] leaves it: the inferred fields are
    filled in, the colour is standardized and the material is in lower
    case. *)
Definition enriched (item : Item) : Prop :=
  Py.truthy (category item) = true
  /\ Py.truthy (subcategory item) = true
  /\ Py.truthy (formality item) = true
  /\ season item <> []
  /\ _standardize_color (color item) = color item
  /\ Py.lower (material item) = material item.

(** A suggestion put together from the wardrobe for the occasion asked
    for. *)
Definition drawn_from (wardrobe : list Item) (occasion : string) (o : ScoredOutfit) : Prop :=
  is_mock o = false
  /\ OutfitService.occasion (outfit o) = occasion
  /\ (2 <= List.length (items (outfit o)) <= 6)%nat
  /\ List.Forall (fun x => In x wardrobe) (items (outfit o)).

(** The weather score of a suggestion, and the three top-level keys that
    [generate_suggestions] sets from it when it has weather data. *)
Definition weather_score_of (w : Weather) (o : ScoredOutfit) : Q :=
  _calculate_weather_score (items (outfit o)) (Some w).

Definition weather_keys (w : Weather) (o : ScoredOutfit) : Prop :=
  top_weather_score o = Some (weather_score_of w o)
  /\ top_combined_score o
     = Some (0.7 * 0.3 + 0.7 * 0.25 + 0.7 * 0.25 + weather_score_of w o * 0.2)%Q
  /\ is_weather_appropriate o = Qle_bool 0.6 (weather_score_of w o).

(** The weather score at the top level of a suggestion, 0 when there is
    none. *)
Definition top_weather_of (o : ScoredOutfit) : Q :=
  match top_weather_score o with Some s => s | None => 0 end.

(** What a suggestion shows when there is weather data: at its top level a
    weather score between 0 and 1, which is the weather score of its items,
    and a combined score, which is 0.56 plus a fifth of the weather score,
    both up to [Py.float_slack]; the flag is set from the weather score
    shown. *)
Definition shows_weather (w : Weather) (o : ScoredOutfit) : Prop :=
  exists weather_score combined_score,
    top_weather_score o = Some weather_score
    /\ top_combined_score o = Some combined_score
    /\ is_weather_appropriate o = Qle_bool 0.6 weather_score
    /\ (0 <= weather_score <= 1)%Q
    /\ (Qabs (weather_score - _calculate_weather_score (items (outfit o)) (Some w))
        <= Py.float_slack)%Q
    /\ (Qabs (combined_score - (0.56 + 0.2 * weather_score)) <= Py.float_slack)%Q.

(** The same keys when there is no weather data. *)
Definition no_weather_keys (o : ScoredOutfit) : Prop :=
  top_weather_score o = None
  /\ top_combined_score o = None
  /\ is_weather_appropriate o = true
  /\ weather_score (scores o) = Py.round 1.0 2.

(** ** [generate_outfit_combinations] *)

Section Combinations.
Context {Rng : Type}.
Variable random : Rng -> Q * Rng.
Variable randbelow : Z -> Rng -> Z * Rng.

(** [for _ in range(n)], with the list [combinations] built so far. *)
Fixpoint combinations_loop (categorized : Categorized) (occasion : string) (n : nat)
         (combinations : list Outfit) : Rng -> list Outfit * Rng :=
  match n with
  | O => ret combinations
  | S n' =>
      bind (_create_outfit_from_categories random randbelow categorized occasion)
           (fun outfit =>
              combinations_loop categorized occasion n'
                (match outfit with
                 | Some o =>
                     if _is_outfit_valid o occasion then combinations ++ [o]
                     else combinations
                 | None => combinations
                 end))
  end.

Definition generate_outfit_combinations (wardrobe_items : list Item) (occasion : string)
           (max_combinations : Z) : Rng -> list Outfit * Rng :=
  let categorized := _categorize_items wardrobe_items in
  combinations_loop categorized occasion (Z.to_nat (Z.min max_combinations 10)) [].

End Combinations.

End OutfitService.

(* ------------------------------------------------------------------ *)
(** * [app/services/weather_service.py] *)
(* ------------------------------------------------------------------ *)

Module WeatherService.

(** A temperature as it reaches the service: a Python number, which as a
    [float] may be infinite or [nan]. *)
Inductive reading : Type :=
| Degrees (q : Q)
| PlusInfinity
| MinusInfinity
| NotANumber.

(** The part of the weather dictionary that the service reads:
    [weather.get('temperature', 20)] and [weather.get('condition', '')]; a
    missing condition is the empty string. *)
Record Weather : Type := mkWeather {
  temperature : option reading;
  condition : string
}.

(** [self.temperature_categories], in the order of the dictionary; [None]
    is an infinite bound: [-float('inf')] as a minimum, [float('inf')] as a
    maximum. *)
Definition temperature_categories : list (string * (option Q * option Q)) :=
  [ ("freezing", (None, Some 0%Q));
    ("cold", (Some 0%Q, Some 10%Q));
    ("cool", (Some 10%Q, Some 20%Q));
    ("warm", (Some 20%Q, Some 30%Q));
    ("hot", (Some 30%Q, None)) ].

(** [bounds['min'] <= temp_c]; a comparison with [nan] is false. *)
Definition at_least (min : option Q) (temp_c : reading) : bool :=
  match temp_c with
  | Degrees q => match min with Some lo => Qle_bool lo q | None => true end
  | PlusInfinity => true
  | MinusInfinity => match min with Some _ => false | None => true end
  | NotANumber => false
  end.

(** [temp_c < bounds['max']] *)
Definition below (max : option Q) (temp_c : reading) : bool :=
  match temp_c with
  | Degrees q => match max with Some hi => Py.Qlt_bool q hi | None => true end
  | PlusInfinity => false
  | MinusInfinity => true
  | NotANumber => false
  end.

(** [bounds['min'] <= temp_c < bounds['max']] *)
Definition within (bounds : option Q * option Q) (temp_c : reading) : bool :=
  at_least (fst bounds) temp_c && below (snd bounds) temp_c.

(** The [for] loop of [get_temperature_category] over a table. *)
Fixpoint first_category (table : list (string * (option Q * option Q)))
         (temp_c : reading) : string :=
  match table with
  | [] => "moderate"
  | (category, bounds) :: rest =>
      if within bounds temp_c then category else first_category rest temp_c
  end.

Definition get_temperature_category (temp_c : reading) : string :=
  first_category temperature_categories temp_c.

(** [weather.get('temperature', 20)] *)
Definition temperature_or_default (weather : Weather) : reading :=
  match temperature weather with Some t => t | None => Degrees 20 end.

(** The dictionary returned by [get_dress_recommendation]. *)
Record DressRecommendation : Type := mkDressRecommendation {
  layers : string;
  outerwear : string;
  bottom : string;
  shoes : string;
  accessories : string
}.

(** [recommendations[key] = value] for three of the keys. *)
Definition set_outerwear (value : string) (r : DressRecommendation) : DressRecommendation :=
  mkDressRecommendation (layers r) value (bottom r) (shoes r) (accessories r).

Definition set_shoes (value : string) (r : DressRecommendation) : DressRecommendation :=
  mkDressRecommendation (layers r) (outerwear r) (bottom r) value (accessories r).

Definition set_accessories (value : string) (r : DressRecommendation)
  : DressRecommendation :=
  mkDressRecommendation (layers r) (outerwear r) (bottom r) (shoes r) value.

(** The recommendations by temperature category; a category without a
    rule leaves the five empty strings. *)
Definition by_category (category : string) : DressRecommendation :=
  if String.eqb category "freezing" then
    mkDressRecommendation
      "Heavy layering required (3+ layers)"
      "Insulated winter coat, thermal layers"
      "Thermal pants, heavy jeans or trousers"
      "Insulated waterproof boots"
      "Gloves, scarf, beanie, ear protection"
  else if String.eqb category "cold" then
    mkDressRecommendation
      "Moderate layering (2-3 layers)"
      "Winter coat or heavy jacket"
      "Jeans with thermal layer or thick trousers"
      "Boots or closed shoes with insulation"
      "Gloves optional, scarf recommended"
  else if String.eqb category "cool" then
    mkDressRecommendation
      "Light layering (1-2 layers)"
      "Light jacket, sweater, or cardigan"
      "Jeans, trousers, or light pants"
      "Sneakers, casual shoes, or light boots"
      "Optional scarf or light gloves"
  else if String.eqb category "warm" then
    mkDressRecommendation
      "Single layer or light layering"
      "None or light cardigan/shirt"
      "Shorts, skirts, or light trousers"
      "Breathable shoes, sneakers, or sandals"
      "Sunglasses, hat, light scarf"
  else if String.eqb category "hot" then
    mkDressRecommendation
      "Minimal layers"
      "None or very light cover-up"
      "Shorts, skirts, light dresses"
      "Sandals, open shoes, breathable footwear"
      "Sunglasses, hat, sunscreen essential"
  else mkDressRecommendation "" "" "" "" "".

Definition get_dress_recommendation (weather : Weather) : DressRecommendation :=
  let temp := temperature_or_default weather in
  let condition := Py.lower (condition weather) in
  let category := get_temperature_category temp in
  let recommendations := by_category category in
  let recommendations :=
    if Py.contains "rain" condition then
      set_accessories "Umbrella, raincoat, waterproof bag"
        (set_shoes "Waterproof shoes or boots" recommendations)
    else recommendations in
  let recommendations :=
    if Py.contains "snow" condition then
      set_accessories "Winter gloves, waterproof gloves, thermal hat"
        (set_shoes "Waterproof snow boots with good traction" recommendations)
    else recommendations in
  let recommendations :=
    if Py.contains "wind" condition then
      set_accessories "Scarf to protect face, secure hat"
        (set_outerwear "Wind-resistant jacket" recommendations)
    else recommendations in
  if Py.contains "sun" condition then
    set_accessories "Sunglasses, hat, sunscreen essential" recommendations
  else recommendations.

(** [get_weather_tips]: three tips for every rule that applies. *)
Definition get_weather_tips (weather : Weather) : list string :=
  let category := get_temperature_category (temperature_or_default weather) in
  let condition := Py.lower (condition weather) in
  let tips := [] in
  let tips :=
    if Py.mem category ["cold"; "freezing"] then
      tips ++ ["Layer clothing for better insulation";
               "Protect extremities with gloves, hat, and scarf";
               "Wear thermal layers close to skin"]
    else tips in
  let tips :=
    if Py.mem category ["warm"; "hot"] then
      tips ++ ["Choose light-colored, breathable fabrics";
               "Wear loose-fitting clothes for better airflow";
               "Stay hydrated throughout the day"]
    else tips in
  let tips :=
    if Py.contains "rain" condition then
      tips ++ ["Carry a compact umbrella or wear a waterproof jacket";
               "Choose darker colors that hide water spots";
               "Wear waterproof shoes to keep feet dry"]
    else tips in
  let tips :=
    if Py.contains "sun" condition then
      tips ++ ["Apply sunscreen to exposed skin";
               "Wear a hat and sunglasses for UV protection";
               "Light colors reflect heat better than dark ones"]
    else tips in
  if Py.contains "wind" condition then
    tips ++ ["Wear close-fitting layers to prevent heat loss";
             "Choose wind-resistant outer layers";
             "Secure accessories that might blow away"]
  else tips.

End WeatherService.

(* ------------------------------------------------------------------ *)
(** * [FashionAIService.generate_clothing_recommendations],
      [app/services/fashion_ai_service.py] *)
(* ------------------------------------------------------------------ *)

Module ClothingAdvice.

(** The weather dictionary of the AI service; [None] is a missing key. *)
Record WeatherInfo : Type := mkWeatherInfo {
  temperature : option Q;
  feels_like : option Q;
  condition : option string;
  humidity : option Q;
  wind_speed : option Q;
  precipitation : option Q;
  snowfall : option Q
}.

(** The dictionary of recommendations, its keys in their order. *)
Record Recommendations : Type := mkRecommendations {
  layers : list string;
  accessories : list string;
  footwear : list string;
  materials : list string;
  colors : list string;
  tips : list string
}.

Definition or_default {A : Type} (o : option A) (d : A) : A :=
  match o with Some a => a | None => d end.

(** [feels_like], the temperature the recommendations go by. *)
Definition effective_temp (weather : WeatherInfo) : Q :=
  or_default (feels_like weather) (or_default (temperature weather) 20%Q).

Definition lowered_condition (weather : WeatherInfo) : string :=
  Py.lower (or_default (condition weather) "Clear").

(** The recommendations by temperature alone. *)
Definition by_temperature (effective_temp : Q) : Recommendations :=
  if Py.Qlt_bool effective_temp 0 then
    mkRecommendations
      ["Heavy winter coat"; "Thermal underwear"; "Thick sweater"; "Wool pants"]
      ["Insulated gloves"; "Wool scarf"; "Winter beanie"; "Thermal socks"]
      ["Insulated winter boots"; "Waterproof boots"]
      ["Wool"; "Down"; "Fleece"; "Thermal fabrics"]
      ["Dark colors (retain heat)"]
      ["Dress in multiple layers for insulation";
       "Cover all exposed skin to prevent frostbite";
       "Avoid cotton - it retains moisture"]
  else if Py.Qlt_bool effective_temp 10 then
    mkRecommendations
      ["Warm jacket or coat"; "Long-sleeve shirt"; "Sweater"; "Jeans or trousers"]
      ["Light scarf"; "Gloves (optional)"]
      ["Closed-toe shoes"; "Boots"; "Sneakers"]
      ["Wool blends"; "Cotton"; "Denim"]
      ["Neutral tones"; "Earth colors"]
      ["Layer up for warmth and flexibility"; "A jacket is essential"]
  else if Py.Qlt_bool effective_temp 20 then
    mkRecommendations
      ["Light jacket or cardigan"; "Long sleeves or t-shirt"; "Jeans or casual pants"]
      ["Light scarf (optional)"]
      ["Sneakers"; "Casual shoes"; "Loafers"]
      ["Cotton"; "Linen blends"; "Light denim"]
      ["Versatile colors"; "Spring/autumn tones"]
      ["Perfect weather for layering"; "Bring a light jacket for evening"]
  else if Py.Qlt_bool effective_temp 28 then
    mkRecommendations
      ["T-shirt or blouse"; "Shorts or light pants"; "Light dress"]
      ["Sunglasses"; "Light hat"]
      ["Sandals"; "Sneakers"; "Casual shoes"]
      ["Cotton"; "Linen"; "Breathable fabrics"]
      ["Light colors"; "Pastels"; "Bright colors"]
      ["Stay cool and comfortable"; "Light, breathable fabrics are best"]
  else
    mkRecommendations
      ["Light breathable t-shirt"; "Shorts"; "Tank top"; "Light dress"]
      ["Sunglasses"; "Wide-brim hat"; "Sunscreen"]
      ["Sandals"; "Flip-flops"; "Breathable sneakers"]
      ["Light cotton"; "Linen"; "Moisture-wicking fabrics"]
      ["White"; "Light colors (reflect heat)"; "Pastels"]
      ["Stay hydrated throughout the day";
       "Avoid dark colors - they absorb heat";
       "Seek shade during peak sun hours"].

(** The conditions of the adjustments. *)
Definition wet (weather : WeatherInfo) : bool :=
  let condition := lowered_condition weather in
  Py.contains "rain" condition || Py.contains "drizzle" condition
  || Py.contains "showers" condition
  || Py.Qlt_bool 0 (or_default (precipitation weather) 0%Q).

Definition snowy (weather : WeatherInfo) : bool :=
  Py.contains "snow" (lowered_condition weather)
  || Py.Qlt_bool 0 (or_default (snowfall weather) 0%Q).

(** The adjustments for the weather condition, in the order in which the
    function makes them. *)
Definition rain_adjustment (weather : WeatherInfo) (r : Recommendations)
  : Recommendations :=
  if wet weather then
    mkRecommendations
      (layers r)
      (if Py.mem "Umbrella" (accessories r) then accessories r
       else accessories r ++ ["Umbrella"])
      ["Waterproof shoes"; "Rain boots"; "Water-resistant sneakers"]
      (materials r ++ ["Waterproof/water-resistant fabrics"])
      (colors r)
      (tips r ++ ["Bring waterproof outerwear"])
  else r.

Definition snow_adjustment (weather : WeatherInfo) (r : Recommendations)
  : Recommendations :=
  if snowy weather then
    mkRecommendations
      (layers r)
      (accessories r ++ ["Insulated gloves"; "Warm winter hat"])
      ["Insulated winter boots"; "Waterproof snow boots"]
      (materials r)
      (colors r)
      (tips r ++ ["Watch for slippery surfaces"; "Waterproof everything"])
  else r.

Definition thunderstorm_adjustment (weather : WeatherInfo) (r : Recommendations)
  : Recommendations :=
  if Py.contains "thunderstorm" (lowered_condition weather) then
    mkRecommendations (layers r) (accessories r) (footwear r) (materials r) (colors r)
                      (tips r ++ ["Stay indoors during thunderstorm"])
  else r.

Definition wind_adjustment (weather : WeatherInfo) (r : Recommendations)
  : Recommendations :=
  if Py.Qlt_bool 20 (or_default (wind_speed weather) 0%Q) then
    mkRecommendations (layers r) (accessories r) (footwear r)
                      (materials r ++ ["Wind-resistant fabrics"]) (colors r)
                      (tips r ++ ["Wear wind-resistant outer layer"])
  else r.

Definition humidity_adjustment (weather : WeatherInfo) (r : Recommendations)
  : Recommendations :=
  if Py.Qlt_bool 70 (or_default (humidity weather) 50%Q)
     && Py.Qlt_bool 20 (effective_temp weather) then
    mkRecommendations (layers r) (accessories r) (footwear r)
                      (materials r ++ ["Moisture-wicking materials"]) (colors r)
                      (tips r ++ ["High humidity - choose moisture-wicking fabrics"])
  else r.

Definition sun_adjustment (weather : WeatherInfo) (r : Recommendations)
  : Recommendations :=
  let condition := lowered_condition weather in
  if Py.contains "clear" condition || Py.contains "cloudy" condition then
    mkRecommendations
      (layers r)
      (if Py.Qlt_bool 20 (effective_temp weather)
          && negb (Py.mem "Sunglasses" (accessories r))
       then accessories r ++ ["Sunglasses"] else accessories r)
      (footwear r) (materials r) (colors r)
      (if Py.Qlt_bool 25 (effective_temp weather)
       then tips r ++ ["Apply sunscreen (SPF 30+)"] else tips r)
  else r.

(** [recommendations[key] = list(dict.fromkeys(recommendations[key]))] for
    every key. *)
Definition remove_duplicates (r : Recommendations) : Recommendations :=
  mkRecommendations (Py.dedup (layers r)) (Py.dedup (accessories r))
                    (Py.dedup (footwear r)) (Py.dedup (materials r))
                    (Py.dedup (colors r)) (Py.dedup (tips r)).

Definition generate_clothing_recommendations (weather : WeatherInfo) : Recommendations :=
  let r := by_temperature (effective_temp weather) in
  let r := rain_adjustment weather r in
  let r := snow_adjustment weather r in
  let r := thunderstorm_adjustment weather r in
  let r := wind_adjustment weather r in
  let r := humidity_adjustment weather r in
  let r := sun_adjustment weather r in
  remove_duplicates r.

(** Every list of the recommendations holds something. *)
Definition complete (r : Recommendations) : Prop :=
  layers r <> [] /\ accessories r <> [] /\ footwear r <> []
  /\ materials r <> [] /\ colors r <> [] /\ tips r <> [].

End ClothingAdvice.

(* ================================================================== *)
(** * Similarity search: [fashion_ai_service.py] and [clip_service.py] *)
(* ================================================================== *)

Module Similarity.

(** [{**item, 'similarity_score': ...}] *)
Record SimilarItem : Type := mkSimilarItem {
  item : Item;
  similarity_score : Q
}.

(** [np.dot] on two one-dimensional arrays; arrays of different lengths
    raise [ValueError]. *)
Fixpoint np_dot (a b : list Q) : Py.result Q :=
  match a, b with
  | [], [] => Py.Return 0%Q
  | x :: a', y :: b' => Py.rbind (np_dot a' b') (fun r => Py.Return (x * y + r)%Q)
  | _, _ => Py.Raise (Py.Exception "shapes not aligned")
  end.

(** A float that may be [nan]; [Fin q] is the number [q]. *)
Inductive pyfloat : Type :=
| Fin (q : Q)
| NaN.

(** The body of [for item in wardrobe_items], shared by the two services,
    which differ in how [similarity] is obtained.  The test
    [similarity >= min_similarity] is false for [nan]. *)
Section Scan.
Variable similarity_of : list Q -> list Q -> Py.result pyfloat.

Fixpoint scan (query_embedding : list Q) (wardrobe_items : list Item)
         (min_similarity : Q) (similarities : list SimilarItem)
  : Py.result (list SimilarItem) :=
  match wardrobe_items with
  | [] => Py.Return similarities
  | item :: rest =>
      match embedding item with
      | None => scan query_embedding rest min_similarity similarities
      | Some embedding =>
          Py.rbind (similarity_of query_embedding embedding) (fun similarity =>
            match similarity with
            | Fin s =>
                if Qle_bool min_similarity s then
                  scan query_embedding rest min_similarity
                       (similarities ++ [mkSimilarItem item (Py.round s 3)])
                else scan query_embedding rest min_similarity similarities
            | NaN => scan query_embedding rest min_similarity similarities
            end)
      end
  end.

Definition find_similar_items_with (query_embedding : list Q)
           (wardrobe_items : list Item) (top_k : Z) (min_similarity : Q)
  : Py.result (list SimilarItem) :=
  Py.try_except
    (Py.rbind (scan query_embedding wardrobe_items min_similarity [])
       (fun similarities =>
          Py.Return (Py.slice_to top_k (Py.sort_desc similarity_score similarities))))
    (fun _ => Py.Return []).

(** The entries one candidate contributes to [similarities]. *)
Definition contribution (q : list Q) (m : Q) (it : Item) : list SimilarItem :=
  match embedding it with
  | Some e =>
      match similarity_of q e with
      | Py.Return (Fin s) =>
          if Qle_bool m s then [mkSimilarItem it (Py.round s 3)] else []
      | _ => []
      end
  | None => []
  end.

Definition contributions (q : list Q) (m : Q) (its : list Item) : list SimilarItem :=
  List.flat_map (contribution q m) its.
End Scan.

(** ** Vocabulary of the similarity properties *)

(** The squared L2 norm; a vector is L2-normalized when it is 1. *)
Definition sq_norm (v : list Q) : Q :=
  List.fold_right (fun x acc => (x * x + acc)%Q) 0%Q v.

Definition unit_vector (v : list Q) : Prop := (sq_norm v == 1)%Q.

Definition has_embedding (item : Item) : bool :=
  match embedding item with Some _ => true | None => false end.

(** Every embedding at hand is L2-normalized and has the dimension of the
    query. *)
Definition normalized_inputs (query_embedding : list Q) (wardrobe_items : list Item)
  : Prop :=
  unit_vector query_embedding
  /\ forall item e, In item wardrobe_items -> embedding item = Some e ->
                    List.length e = List.length query_embedding /\ unit_vector e.




Definition by_score_desc (a b : SimilarItem) : Prop :=
  (similarity_score b <= similarity_score a)%Q.

(** Two floats are the same number, or both [nan]. *)
Definition same_float (a b : pyfloat) : Prop :=
  match a, b with
  | Fin x, Fin y => (x == y)%Q
  | NaN, NaN => True
  | _, _ => False
  end.

(** [out] holds candidates with an embedding whose similarity to the query
    reaches [min_similarity], by descending score. *)
Definition ranked_matches (similarity_of : list Q -> list Q -> Py.result pyfloat)
           (query_embedding : list Q) (wardrobe_items : list Item)
           (min_similarity : Q) (out : list SimilarItem) : Prop :=
  List.Forall
    (fun r =>
       In (item r) wardrobe_items
       /\ exists e s,
           embedding (item r) = Some e
           /\ similarity_of query_embedding e = Py.Return (Fin s)
           /\ (min_similarity <= s)%Q
           /\ similarity_score r = Py.round s 3)
    out
  /\ StronglySorted by_score_desc out.

(** ** [FashionAIService.find_similar_items] *)
Module FashionAIService.

(** [float(np.dot(query_embedding, embedding))] *)
Definition similarity (query_embedding embedding : list Q) : Py.result pyfloat :=
  Py.rbind (np_dot query_embedding embedding) (fun s => Py.Return (Fin s)).

Definition find_similar_items (query_embedding : list Q) (wardrobe_items : list Item)
           (top_k : Z) (min_similarity : Q) : Py.result (list SimilarItem) :=
  find_similar_items_with similarity query_embedding wardrobe_items top_k min_similarity.

End FashionAIService.

(** ** [CLIPService.find_similar_items] *)
Module CLIPService.
Section Norm.
(** [np.linalg.norm] on a one-dimensional array. *)
Variable linalg_norm : list Q -> Q.

(** [embedding / np.linalg.norm(embedding)] *)
Definition normalize (embedding : list Q) : list Q :=
  List.map (fun x => (x / linalg_norm embedding)%Q) embedding.

(** [compute_similarity]: any exception gives [0.0].  A vector whose
    norm is zero is divided into [nan]s, and so is the product. *)
Definition compute_similarity (embedding1 embedding2 : list Q) : pyfloat :=
  match np_dot (normalize embedding1) (normalize embedding2) with
  | Py.Raise _ => Fin 0
  | Py.Return s =>
      match embedding1 with
      | [] => Fin s
      | _ =>
          if Qeq_bool (linalg_norm embedding1) 0 || Qeq_bool (linalg_norm embedding2) 0
          then NaN else Fin s
      end
  end.

Definition find_similar_items (query_embedding : list Q) (wardrobe_items : list Item)
           (top_k : Z) (min_similarity : Q) : Py.result (list SimilarItem) :=
  find_similar_items_with
    (fun q e => Py.Return (compute_similarity q e))
    query_embedding wardrobe_items top_k min_similarity.

(** [np.stack] on one-dimensional arrays: the matrix with these rows.  An
    empty list and arrays of different lengths raise [ValueError]. *)
Definition np_stack (arrays : list (list Q)) : Py.result (list (list Q)) :=
  match arrays with
  | [] => Py.Raise (Py.Exception "need at least one array to stack")
  | first :: _ =>
      if List.forallb (fun a => (List.length a =? List.length first)%nat) arrays
      then Py.Return arrays
      else Py.Raise (Py.Exception "all input arrays must have the same shape")
  end.

(** One entry of [np.dot(embeddings_norm, query_norm)]: the product of a
    normalized row with the normalized query.  It raises when their
    lengths differ, and is [nan] when a norm is zero. *)
Definition row_similarity (query_embedding row : list Q) : Py.result pyfloat :=
  Py.rbind (np_dot (normalize row) (normalize query_embedding)) (fun s =>
    Py.Return
      match row with
      | [] => Fin s
      | _ =>
          if Qeq_bool (linalg_norm row) 0 || Qeq_bool (linalg_norm query_embedding) 0
          then NaN else Fin s
      end).

Fixpoint matrix_dot (query_embedding : list Q) (matrix : list (list Q))
  : Py.result (list pyfloat) :=
  match matrix with
  | [] => Py.Return []
  | row :: rest =>
      Py.rbind (row_similarity query_embedding row) (fun s =>
      Py.rbind (matrix_dot query_embedding rest) (fun r => Py.Return (s :: r)))
  end.

(** [batch_compute_similarity]: any exception gives
    [np.zeros(len(item_embeddings))]. *)
Definition batch_compute_similarity (query_embedding : list Q)
           (item_embeddings : list (list Q)) : list pyfloat :=
  match Py.rbind (np_stack item_embeddings) (matrix_dot query_embedding) with
  | Py.Return similarities => similarities
  | Py.Raise _ => List.map (fun _ => Fin 0) item_embeddings
  end.
End Norm.
End CLIPService.

End Similarity.

(* ================================================================== *)
(** * [app/services/personalized_ai_service.py] *)
(* ================================================================== *)

Module PersonalizedAIService.

Import OutfitService (Weather, temperature, condition, weather_category, mkWeather).

(** ** History records, [app/models/outfit_history.py] *)

(** An item snapshot of a history entry; [None] is a JSON [null]. *)
Record HistoryItem : Type := mkHistoryItem {
  h_id : option string;
  h_category : option string;
  h_color : option string
}.

Record HistoryEntry : Type := mkHistoryEntry {
  outfit_items : list HistoryItem;
  is_favorite : bool;
  rating : option Z;
  occasion : option string
}.

Record Preferences : Type := mkPreferences {
  favorite_colors : list string;
  preferred_combinations : list string;
  most_worn_items : list (string * Z);
  occasion_preferences : list (option string * Q);
  category_wear_frequency : list (string * Z);
  most_worn_categories : list (string * Z);
  average_ratings : list (string * Q);
  color_ratings : list (string * list Z)
}.

Definition empty_preferences : Preferences :=
  mkPreferences [] [] [] [] [] [] [] [].

(** ** [_analyze_user_history] *)

(** The dictionaries filled by the loop over the history. *)
Record Tally : Type := mkTally {
  color_scores : list (string * Q);
  category_combinations : list (string * Z);
  item_wear_count : list (string * Z);
  occasion_count : list (option string * Z);
  t_color_ratings : list (string * list Z);
  t_category_wear_frequency : list (string * Z)
}.

Definition empty_tally : Tally := mkTally [] [] [] [] [] [].

Definition opt_eqb (a b : option string) : bool :=
  match a, b with
  | Some x, Some y => String.eqb x y
  | None, None => true
  | _, _ => false
  end.

(** [bool(rating)] *)
Definition rating_truthy (rating : option Z) : bool :=
  match rating with Some r => negb (r =? 0)%Z | None => false end.

(** [5.0 if is_favorite else (float(rating) if rating else 3.0)] *)
Definition outfit_score_of (is_favorite : bool) (rating : option Z) : Q :=
  if is_favorite then 5.0
  else match rating with
       | Some r => if (r =? 0)%Z then 3.0 else inject_Z r
       | None => 3.0
       end.

(** [str(item.get("color", "")).lower().strip()] *)
Definition history_color (item : HistoryItem) : string :=
  Py.strip (Py.lower (Py.str_opt (h_color item))).

(** [if color and color not in ["", "none", "unknown"]] *)
Definition color_counts (color : string) : bool :=
  Py.truthy color && negb (Py.mem color [""; "none"; "unknown"]).

(** One iteration of [for item in items]. *)
Definition item_step (outfit_score : Q) (rating : option Z)
           (st : list string * Tally) (item : HistoryItem) : list string * Tally :=
  let (outfit_categories, t) := st in
  let color := history_color item in
  let category := Py.strip (Py.lower (Py.str_opt (h_category item))) in
  let item_id := Py.str_opt (h_id item) in
  let t :=
    if color_counts color then
      mkTally (Py.dict_update String.eqb color
                 (fun o => (match o with Some v => v | None => 0 end + outfit_score)%Q)
                 (color_scores t))
              (category_combinations t) (item_wear_count t) (occasion_count t)
              (if rating_truthy rating then
                 Py.dict_update String.eqb color
                   (fun o => match o with Some v => v | None => [] end
                             ++ match rating with Some r => [r] | None => [] end)
                   (t_color_ratings t)
               else t_color_ratings t)
              (t_category_wear_frequency t)
    else t in
  let '(outfit_categories, t) :=
    if Py.truthy category then
      (outfit_categories ++ [category],
       mkTally (color_scores t) (category_combinations t) (item_wear_count t)
               (occasion_count t) (t_color_ratings t)
               (Py.dict_update String.eqb category
                  (fun o => (match o with Some v => v | None => 0 end + 1)%Z)
                  (t_category_wear_frequency t)))
    else (outfit_categories, t) in
  let t :=
    if Py.truthy item_id then
      mkTally (color_scores t) (category_combinations t)
              (Py.dict_update String.eqb item_id
                 (fun o => (match o with Some v => v | None => 0 end + 1)%Z)
                 (item_wear_count t))
              (occasion_count t) (t_color_ratings t) (t_category_wear_frequency t)
    else t in
  (outfit_categories, t).

(** One iteration of [for outfit in outfit_history]. *)
Definition entry_step (t : Tally) (outfit : HistoryEntry) : Tally :=
  match outfit_items outfit with
  | [] => t
  | items =>
      let rating := rating outfit in
      let outfit_score := outfit_score_of (is_favorite outfit) rating in
      let t :=
        mkTally (color_scores t) (category_combinations t) (item_wear_count t)
                (Py.dict_update opt_eqb (occasion outfit)
                   (fun o => (match o with Some v => v | None => 0 end + 1)%Z)
                   (occasion_count t))
                (t_color_ratings t) (t_category_wear_frequency t) in
      let (outfit_categories, t) :=
        List.fold_left (item_step outfit_score rating) items ([], t) in
      if (2 <=? List.length outfit_categories)%nat then
        let combo := Py.join "+" (Py.sorted_set outfit_categories) in
        mkTally (color_scores t)
                (Py.dict_update String.eqb combo
                   (fun o => (match o with Some v => v | None => 0 end + 1)%Z)
                   (category_combinations t))
                (item_wear_count t) (occasion_count t) (t_color_ratings t)
                (t_category_wear_frequency t)
      else t
  end.

(** The dictionaries once the loop over the history is over. *)
Definition tally_history (outfit_history : list HistoryEntry) : Tally :=
  List.fold_left entry_step outfit_history empty_tally.

Definition by_count {K : Type} (kv : K * Z) : Q := inject_Z (snd kv).

Definition _analyze_user_history (outfit_history : list HistoryEntry)
           (wardrobe_items : list Item) : Preferences :=
  match outfit_history with
  | [] => empty_preferences
  | _ =>
      let t := tally_history outfit_history in
      let sorted_colors := Py.sort_desc snd (color_scores t) in
      let sorted_combos := Py.sort_desc by_count (category_combinations t) in
      let sorted_items := Py.sort_desc by_count (item_wear_count t) in
      let sorted_categories := Py.sort_desc by_count (t_category_wear_frequency t) in
      let total_occasions :=
        List.fold_left Z.add (List.map snd (occasion_count t)) 0%Z in
      {| favorite_colors := List.map fst (List.firstn 10 sorted_colors);
         preferred_combinations := List.map fst (List.firstn 5 sorted_combos);
         most_worn_items := List.firstn 10 sorted_items;
         occasion_preferences :=
           if (0 <? total_occasions)%Z then
             List.map (fun '(occ, count) =>
                         (occ, (inject_Z count / inject_Z total_occasions)%Q))
                      (occasion_count t)
           else [];
         category_wear_frequency := t_category_wear_frequency t;
         most_worn_categories := List.firstn 5 sorted_categories;
         average_ratings :=
           List.map (fun '(color, ratings) =>
                       (color, (Py.sum (List.map inject_Z ratings)
                                / inject_Z (Z.of_nat (List.length ratings)))%Q))
                    (List.filter (fun '(_, ratings) =>
                                    match ratings with [] => false | _ => true end)
                                 (t_color_ratings t));
         color_ratings := t_color_ratings t |}
  end.

(** ** Vocabulary of the history properties *)

(** [color_scores[c]], 0 for a colour that was never met. *)
Definition score_of (c : string) (d : list (string * Q)) : Q :=
  match Py.dict_get String.eqb c d with Some v => v | None => 0%Q end.

(** The number of items of an entry that count for colour [c]. *)
Definition occurrences (c : string) (items : list HistoryItem) : nat :=
  List.length
    (List.filter (fun it => color_counts (history_color it)
                            && String.eqb c (history_color it)) items).

(** What the loop accumulates for [c]: every entry weighs in once for each
    of its items of that colour. *)
Definition item_weighted_score (c : string) (h : list HistoryEntry) : Q :=
  Py.sum (List.map (fun e => (outfit_score_of (is_favorite e) (rating e)
                              * inject_Z (Z.of_nat (occurrences c (outfit_items e))))%Q) h).

(** The reading of the design document: every entry that contains [c]
    weighs in once. *)
Definition spec_color_score (c : string) (h : list HistoryEntry) : Q :=
  Py.sum (List.map (fun e => outfit_score_of (is_favorite e) (rating e))
                   (List.filter (fun e => (0 <? occurrences c (outfit_items e))%nat) h)).

Definition by_value_desc (a b : string * Q) : Prop := (snd b <= snd a)%Q.

(** The entries that the loop of [_analyze_user_history] does not skip:
    [if not items: continue]. *)
Definition has_items (outfit : HistoryEntry) : bool :=
  match outfit_items outfit with [] => false | _ => true end.

Definition with_items (outfit_history : list HistoryEntry) : list HistoryEntry :=
  List.filter has_items outfit_history.

(** What the loop maintains of the keys of [color_scores]: they are
    pairwise distinct, and each one is a colour that counts and has [P]. *)
Definition color_keys_ok (P : string -> Prop) (t : Tally) : Prop :=
  List.NoDup (List.map fst (color_scores t))
  /\ List.Forall (fun c => color_counts c = true /\ P c) (List.map fst (color_scores t)).

(** The colour [c] is the colour of an item of the history. *)
Definition worn_color (outfit_history : list HistoryEntry) (c : string) : Prop :=
  exists outfit item,
    In outfit outfit_history /\ In item (outfit_items outfit) /\ history_color item = c.

(** ** Candidate outfits *)

Record Outfit : Type := mkOutfit {
  items : list Item;
  outfit_type : string;                 (* 'type' *)
  style_score : Q;
  personalized_score : option Q;
  history_based : option bool;
  combined_score : option Q
}.

(** [[str(item.get(k, "")).lower() for item in items if item.get(k)]] *)
Definition lowered (field : Item -> string) (items : list Item) : list string :=
  List.map (fun item => Py.lower (field item))
           (List.filter (fun item => Py.truthy (field item)) items).

Definition ratio (n d : nat) : Q := (inject_Z (Z.of_nat n) / inject_Z (Z.of_nat d))%Q.

(** ** [_calculate_personalized_score] *)

Definition _calculate_personalized_score (outfit : Outfit)
           (user_preferences : Preferences) (occasion : string) : Q :=
  let score := 50.0%Q in
  let items := items outfit in
  match items with
  | [] => score
  | _ =>
      (* 1. color matching with favorites *)
      let favorite_colors := favorite_colors user_preferences in
      let outfit_colors := lowered color items in
      let score :=
        match favorite_colors, outfit_colors with
        | _ :: _, _ :: _ =>
            let matching_colors :=
              List.length (List.filter (fun c => Py.mem c favorite_colors) outfit_colors) in
            (score + ratio matching_colors (List.length outfit_colors) * 30)%Q
        | _, _ => score
        end in
      (* 2. category combination matching *)
      let preferred_combos := preferred_combinations user_preferences in
      let outfit_categories := lowered category items in
      let score :=
        match preferred_combos with
        | [] => score
        | _ =>
            if (2 <=? List.length outfit_categories)%nat
               && Py.mem (Py.join "+" (Py.sorted_set outfit_categories)) preferred_combos
            then (score + 20)%Q else score
        end in
      (* 3. item wear frequency *)
      let most_worn := most_worn_items user_preferences in
      let score :=
        match most_worn with
        | [] => score
        | _ =>
            let worn_items_in_outfit :=
              List.length
                (List.filter
                   (fun item =>
                      Py.mem (match item__id item with Some s => s | None => "" end)
                             (List.map fst most_worn)
                      || Py.mem (item_id item) (List.map fst most_worn))
                   items) in
            (score + ratio worn_items_in_outfit (List.length items) * 20)%Q
        end in
      (* 4. occasion preference *)
      let score :=
        match Py.dict_get opt_eqb (Some (Py.lower occasion))
                          (occasion_preferences user_preferences) with
        | Some occasion_weight => (score + occasion_weight * 15)%Q
        | None => score
        end in
      (* 5. color rating history *)
      let avg_ratings := average_ratings user_preferences in
      let color_ratings :=
        List.flat_map (fun c => match Py.dict_get String.eqb c avg_ratings with
                                | Some r => [r]
                                | None => []
                                end) outfit_colors in
      let score :=
        match avg_ratings, color_ratings with
        | _ :: _, _ :: _ =>
            let avg_color_rating :=
              (Py.sum color_ratings / inject_Z (Z.of_nat (List.length color_ratings)))%Q in
            (score + ((avg_color_rating - 1) / 4) * 15)%Q
        | _, _ => score
        end in
      Py.clamp 0 100 score
  end.

(** ** [_categorize_items] *)

Record Categories : Type := mkCategories {
  tops : list Item;
  bottoms : list Item;
  dresses : list Item;
  outerwear : list Item;
  shoes : list Item;
  accessories : list Item
}.

Definition categorize_item (c : Categories) (item : Item) : Categories :=
  let category := Py.lower (category item) in
  let item_name := Py.lower (item_name item) in
  let to_tops := mkCategories (tops c ++ [item]) (bottoms c) (dresses c) (outerwear c) (shoes c) (accessories c) in
  let to_bottoms := mkCategories (tops c) (bottoms c ++ [item]) (dresses c) (outerwear c) (shoes c) (accessories c) in
  let to_dresses := mkCategories (tops c) (bottoms c) (dresses c ++ [item]) (outerwear c) (shoes c) (accessories c) in
  let to_outerwear := mkCategories (tops c) (bottoms c) (dresses c) (outerwear c ++ [item]) (shoes c) (accessories c) in
  let to_shoes := mkCategories (tops c) (bottoms c) (dresses c) (outerwear c) (shoes c ++ [item]) (accessories c) in
  let to_accessories := mkCategories (tops c) (bottoms c) (dresses c) (outerwear c) (shoes c) (accessories c ++ [item]) in
  if Py.any_in2 ["shirt"; "t-shirt"; "blouse"; "top"; "sweater"; "hoodie"; "jersey"; "polo"; "tank"]
                category item_name then to_tops
  else if Py.any_in2 ["jeans"; "pants"; "trousers"; "skirt"; "shorts"; "leggings"; "chinos"]
                     category item_name then to_bottoms
  else if Py.any_in2 ["dress"; "jumpsuit"; "romper"; "gown"] category item_name
  then to_dresses
  else if Py.any_in2 ["jacket"; "coat"; "blazer"; "cardigan"; "vest"; "parka"; "outerwear"]
                     category item_name then to_outerwear
  else if Py.any_in2 ["shoes"; "sneakers"; "boots"; "sandals"; "heels"; "flats"; "loafers"]
                     category item_name then to_shoes
  else if Py.any_in2 ["belt"; "scarf"; "hat"; "bag"; "wallet"; "watch"; "jewelry"; "accessories"]
                     category item_name then to_accessories
  else if String.eqb category "tops" then to_tops
  else if String.eqb category "bottoms" then to_bottoms
  else if String.eqb category "dresses" then to_dresses
  else if String.eqb category "outerwear" then to_outerwear
  else if String.eqb category "shoes" then to_shoes
  else if String.eqb category "accessories" then to_accessories
  else to_tops.

Definition _categorize_items (items : list Item) : Categories :=
  List.fold_left categorize_item items (mkCategories [] [] [] [] [] []).

(** ** [_calculate_style_score] *)

Definition occasion_keywords (occasion : string) : option (list string) :=
  if String.eqb occasion "formal" then Some ["suit"; "dress"; "blazer"; "tie"; "heels"]
  else if String.eqb occasion "casual" then Some ["jeans"; "t-shirt"; "sneakers"; "shorts"]
  else if String.eqb occasion "business" then Some ["trousers"; "shirt"; "blazer"; "slacks"]
  else None.

Definition _calculate_style_score (items : list Item) (weather_data : option Weather)
           (occasion : string) : Q :=
  let score := 50.0%Q in
  let colors := lowered color items in
  let score :=
    match colors with
    | [] => score
    | _ => if (List.length (Py.dedup colors) <=? 2)%nat then (score + 20)%Q else score
    end in
  let score :=
    match weather_data with
    | None => score
    | Some w =>
        let temp := match temperature w with Some t => t | None => 20.0%Q end in
        let materials := lowered material items in
        if Py.Qlt_bool temp 10 then
          if List.existsb (fun m => Py.mem m ["wool"; "fleece"; "down"; "thermal"; "knit"])
                          materials
          then (score + 15)%Q else score
        else if Py.Qlt_bool 25 temp then
          if List.existsb (fun m => Py.mem m ["cotton"; "linen"; "breathable"; "light"])
                          materials
          then (score + 15)%Q else score
        else score
    end in
  let score :=
    match occasion_keywords (Py.lower occasion) with
    | Some keywords =>
        List.fold_left
          (fun score item =>
             if Py.any_in keywords (Py.lower (item_name item)) then (score + 10)%Q
             else score)
          items score
    | None => score
    end in
  if Qle_bool score 100.0 then score else 100.0%Q.

(** ** [_create_outfit_combinations] *)

Definition new_outfit (items : list Item) (outfit_type : string)
           (weather_data : option Weather) (occasion : string) : Outfit :=
  mkOutfit items outfit_type (_calculate_style_score items weather_data occasion)
           None None None.

Definition _create_outfit_combinations (categorized : Categories)
           (weather_data : option Weather) (occasion : string) : list Outfit :=
  let tops := tops categorized in
  let bottoms := bottoms categorized in
  let shoes := shoes categorized in
  let dresses := dresses categorized in
  let separates :=
    List.flat_map (fun top =>
      List.flat_map (fun bottom =>
        List.map (fun shoe =>
                    new_outfit [top; bottom; shoe] "separates" weather_data occasion)
                 (List.firstn 3 shoes))
        (List.firstn 5 bottoms))
      (List.firstn 5 tops) in
  let dress_outfits :=
    List.flat_map (fun dress =>
      List.map (fun shoe => new_outfit [dress; shoe] "dress_outfit" weather_data occasion)
               (List.firstn 3 shoes))
      (List.firstn 5 dresses) in
  Py.sort_desc style_score (separates ++ dress_outfits).

(** ** [_generate_recommendations] *)

Record Recommendations : Type := mkRecommendations {
  outfits : list Outfit;
  total_combinations : nat;
  rec_occasion : string;                  (* 'occasion' *)
  weather_considered : bool;
  personalization_active : option bool
}.

(** [bool(user_preferences and len(favorite_colors) > 0)] *)
Definition has_favorites (user_preferences : option Preferences) : bool :=
  match user_preferences with
  | Some p => match favorite_colors p with [] => false | _ => true end
  | None => false
  end.

(** The body of [for outfit in outfits] when personalization applies. *)
Definition personalize (p : Preferences) (occasion : string) (outfit : Outfit) : Outfit :=
  let personalized_score := _calculate_personalized_score outfit p occasion in
  let base_score := style_score outfit in
  let combined := (base_score * 0.4 + personalized_score * 0.6)%Q in
  mkOutfit (items outfit) (outfit_type outfit) combined
           (Some personalized_score) (Some true) (Some combined).

Definition mark_default (outfit : Outfit) : Outfit :=
  mkOutfit (items outfit) (outfit_type outfit) (style_score outfit)
           (personalized_score outfit) (Some false) (combined_score outfit).

(** [x.get("combined_score", x.get("style_score", 0))] *)
Definition ranking_score (x : Outfit) : Q :=
  match combined_score x with Some c => c | None => style_score x end.

(** [str(item.get("_id")) in specific_set or item.get("item_type") in specific_set] *)
Definition requested (specific_items : list string) (item : Item) : bool :=
  Py.mem (Py.str_opt (item__id item)) specific_items
  || match item_type item with Some t => Py.mem t specific_items | None => false end.

(** The ["reasoning"] text attached to the first ten outfits is not part
    of the embedding. *)
Definition _generate_recommendations (wardrobe_items : list Item)
           (weather_data : option Weather) (occasion : string)
           (style_preferences : list string) (specific_items : list string)
           (user_preferences : option Preferences) : Recommendations :=
  let wardrobe_items :=
    match specific_items with
    | [] => wardrobe_items
    | _ => List.filter (requested specific_items) wardrobe_items
    end in
  let categorized := _categorize_items wardrobe_items in
  let outfits := _create_outfit_combinations categorized weather_data occasion in
  let outfits :=
    match user_preferences with
    | Some p =>
        if has_favorites user_preferences then
          Py.sort_desc ranking_score (List.map (personalize p occasion) outfits)
        else List.map mark_default outfits
    | None => List.map mark_default outfits
    end in
  {| outfits := List.firstn 5 outfits;
     total_combinations := List.length outfits;
     rec_occasion := occasion;
     weather_considered := match weather_data with Some _ => true | None => false end;
     personalization_active := Some (has_favorites user_preferences) |}.

(** ** Vocabulary of the ranking properties *)

Definition by_ranking_desc (a b : Outfit) : Prop := (ranking_score b <= ranking_score a)%Q.

Definition by_style_desc (a b : Outfit) : Prop := (style_score b <= style_score a)%Q.

(** The wardrobe after the [specific_items] filter. *)
Definition selected (specific_items : list string) (wardrobe_items : list Item) : list Item :=
  match specific_items with
  | [] => wardrobe_items
  | _ => List.filter (requested specific_items) wardrobe_items
  end.

(** The candidates before personalization, by descending base score. *)
Definition base_candidates (wardrobe_items : list Item) (weather_data : option OutfitService.Weather)
           (occasion : string) (specific_items : list string) : list Outfit :=
  _create_outfit_combinations (_categorize_items (selected specific_items wardrobe_items))
                              weather_data occasion.

(** ** [get_personalized_recommendations] *)

Record User : Type := mkUser {
  email : string;
  style_preferences : list string
}.

(** The collaborators of the service: the document store and the weather
    source.  Each call either returns or raises. *)
Record World : Type := mkWorld {
  get_database : Py.result unit;
  users_find_one : string -> Py.result (option User);
  (* db.clothing_items.find({"user_id": ObjectId(user_id)}) and ({"user_id": user_id}) *)
  clothing_items_by_oid : string -> Py.result (list Item);
  clothing_items_by_str : string -> Py.result (list Item);
  outfit_history_by_oid : string -> Py.result (list HistoryEntry);
  outfit_history_by_str : string -> Py.result (list HistoryEntry);
  get_current_weather : string -> Py.result (option Weather)
}.

Record PersonalizationData : Type := mkPersonalizationData {
  history_entries : nat;
  pd_favorite_colors : list string;
  pd_most_worn_categories : list (string * Z)
}.

(** The dictionaries returned by the service and by the route. *)
Record Response : Type := mkResponse {
  success : bool;
  error : option string;
  suggestion : option string;
  recommendations : option Recommendations;
  weather : option Weather;
  user_style : list string;
  personalization_data : option PersonalizationData
}.

Definition failure (error : string) : Response :=
  mkResponse false (Some error) None None None [] None.

Definition exn_str (e : Py.exn) : string :=
  match e with Py.HTTPException d => d | Py.Exception m => m end.

(** [try: a  except: b] with a bare [except]. *)
Definition or_else {A} (a b : Py.result A) : Py.result A :=
  match a with Py.Return x => Py.Return x | Py.Raise _ => b end.

Definition get_personalized_recommendations (w : World) (user_id : string)
           (location : option string) (occasion : option string)
           (specific_items : list string) : Py.result Response :=
  Py.try_except
    (match get_database w with
     | Py.Raise db_error =>
         Py.Return (failure (String.append "Database connection failed: " (exn_str db_error)))
     | Py.Return _ =>
     match users_find_one w user_id with
     | Py.Raise user_error =>
         Py.Return (failure (String.append "Error fetching user: " (exn_str user_error)))
     | Py.Return None => Py.Return (failure "User not found")
     | Py.Return (Some user) =>
     match or_else (clothing_items_by_oid w user_id) (clothing_items_by_str w user_id) with
     | Py.Raise wardrobe_error =>
         Py.Return (failure (String.append "Error fetching wardrobe: "
                                           (exn_str wardrobe_error)))
     | Py.Return [] =>
         Py.Return (mkResponse false (Some "No clothing items in wardrobe")
                               (Some "Add some items to your wardrobe first!")
                               None None [] None)
     | Py.Return wardrobe_items =>
         let outfit_history :=
           match or_else (outfit_history_by_oid w user_id)
                         (outfit_history_by_str w user_id) with
           | Py.Return h => h
           | Py.Raise _ => []
           end in
         let weather_data :=
           match location with
           | Some l =>
               if Py.truthy l then
                 match get_current_weather w l with
                 | Py.Return r => r
                 | Py.Raise _ => None
                 end
               else None
           | None => None
           end in
         let style_preferences := style_preferences user in
         let user_preferences := _analyze_user_history outfit_history wardrobe_items in
         let occasion :=
           match occasion with
           | Some o => if Py.truthy o then o else "casual"
           | None => "casual"
           end in
         let recommendations :=
           _generate_recommendations wardrobe_items weather_data occasion
                                     style_preferences specific_items
                                     (Some user_preferences) in
         Py.Return
           (mkResponse true None None (Some recommendations) weather_data
                       style_preferences
                       (Some (mkPersonalizationData
                                (List.length outfit_history)
                                (List.firstn 5 (favorite_colors user_preferences))
                                (most_worn_categories user_preferences))))
     end end end)
    (fun e => Py.Return (failure (exn_str e))).

(** The wardrobe of the user [user_id] holds no item: whichever of the
    two queries is made for this user, it finds nothing.  Other users may
    own what they like. *)
Definition wardrobe_empty (w : World) (user_id : string) : Prop :=
  (forall its, clothing_items_by_oid w user_id = Py.Return its -> its = [])
  /\ (forall its, clothing_items_by_str w user_id = Py.Return its -> its = []).

(** The six buckets of [_categorize_items], one after the other. *)
Definition all_buckets (c : Categories) : list Item :=
  List.concat [tops c; bottoms c; dresses c; outerwear c; shoes c; accessories c].

End PersonalizedAIService.

(* ================================================================== *)
(** * [app/routes/ai_recommendations.py] *)
(* ================================================================== *)

Module Routes.

Import PersonalizedAIService.

Definition empty_recommendations (occasion : option string) (weather_considered : bool)
  : Recommendations :=
  mkRecommendations []
    0
    (match occasion with Some o => if Py.truthy o then o else "casual" | None => "casual" end)
    weather_considered None.

(** [GET /ai-recommendations/personalized].  [current_user] is the value
    of [current_user["_id"]], [None] when the key is missing. *)
Definition get_personalized_recommendations (w : World) (current_user : option string)
           (location occasion : option string) (include_items : list string)
  : Py.result Response :=
  let body :=
    Py.rbind (match current_user with
              | Some uid => Py.Return uid
              | None => Py.Raise (Py.Exception "'_id'")
              end) (fun current_user_id =>
    Py.rbind (PersonalizedAIService.get_personalized_recommendations
                w current_user_id location occasion include_items) (fun result =>
    if negb (success result) then
      let error_msg := match error result with Some e => e | None => "AI service failed" end in
      if Py.contains "No clothing items" error_msg
         || Py.contains "wardrobe" (Py.lower error_msg)
      then
        Py.Return
          (mkResponse false (Some error_msg)
             (Some (match suggestion result with
                    | Some s => s
                    | None => "Add items to your wardrobe first!"
                    end))
             (Some (empty_recommendations occasion
                      (match location with Some _ => true | None => false end)))
             None [] None)
      else
        Py.Return
          (mkResponse false (Some error_msg) None
             (Some (empty_recommendations occasion false)) None [] None)
    else Py.Return result)) in
  match body with
  | Py.Return r => Py.Return r
  | Py.Raise (Py.HTTPException d) => Py.Raise (Py.HTTPException d)
  | Py.Raise (Py.Exception m) =>
      Py.Return (mkResponse false (Some m) None
                            (Some (empty_recommendations occasion false)) None [] None)
  end.

End Routes.

(* ================================================================== *)
(** * Sample data *)
(* ================================================================== *)

Module Sample.

(** A generator state that counts the draws made so far. *)
Definition random (g : nat) : Q * nat :=
  ((inject_Z (Z.of_nat (g mod 10)) / 10)%Q, S g).

Definition randbelow (n : Z) (g : nat) : Z * nat := (Z.of_nat g, S g).

Definition garment (id name category color : string) : Item :=
  mkItem id None name "" category "" color "" "" [] None None.

Definition closet : list Item :=
  [ garment "1" "White Shirt" "tops" "white";
    garment "2" "Jeans" "bottoms" "blue";
    garment "3" "Red Dress" "dresses" "red";
    garment "4" "Boots" "shoes" "black";
    garment "5" "Thing" "" "crimson";
    garment "6" "Hat" "accessories" "tan" ].

Definition find_clothing_items (user_id : string) : list Item :=
  if String.eqb user_id "ada" then closet else [].

Definition no_weather (location : string) : option OutfitService.Weather := None.

(** Two garments with orthogonal unit embeddings, and one without. *)
Definition north : Item :=
  mkItem "n" None "Linen Shirt" "" "tops" "" "white" "" "" [] None (Some [1; 0]%Q).

Definition east : Item :=
  mkItem "e" None "Wool Coat" "" "outerwear" "" "gray" "" "" [] None (Some [0; 1]%Q).

Definition unseen : Item :=
  mkItem "u" None "Scarf" "" "accessories" "" "red" "" "" [] None None.




(** A garment that no keyword table recognizes. *)
Definition plain_thing : Item :=
  mkItem "42" None "Plain Thing" "" "" "" "" "" "" [] None None.

Definition shirt_and_jeans : OutfitService.Outfit :=
  OutfitService.mkOutfit
    "White & Blue Casual Outfit"
    [garment "1" "White Shirt" "tops" "white"; garment "2" "Jeans" "bottoms" "blue"]
    "casual".

Import PersonalizedAIService.

(** An entry rated 2 with two red items, then an entry rated 3 with a blue
    one. *)
Definition red_twice_then_blue : list HistoryEntry :=
  [ mkHistoryEntry [mkHistoryItem (Some "1") (Some "tops") (Some "Red");
                    mkHistoryItem (Some "2") (Some "bottoms") (Some "red")]
                   false (Some 2%Z) (Some "casual");
    mkHistoryEntry [mkHistoryItem (Some "3") (Some "dresses") (Some "blue")]
                   false (Some 3%Z) (Some "casual") ].

(** A profile whose only favorite colour is navy. *)
Definition navy_lover : Preferences :=
  mkPreferences ["navy"] ["bottoms+shoes+tops"] [("1", 3%Z)] [(Some "casual", 1%Q)]
                [] [] [("navy", 5%Q)] [].

Definition small_wardrobe : list Item :=
  [ garment "1" "Navy Shirt" "tops" "navy";
    garment "2" "Jeans" "bottoms" "blue";
    garment "3" "Red Shirt" "tops" "red";
    garment "4" "Boots" "shoes" "black" ].

(** A world in which the user exists and owns no garment. *)
Definition bare_world : World :=
  mkWorld (Py.Return tt)
          (fun _ => Py.Return (Some (mkUser "ada@example.org" ["minimal"])))
          (fun _ => Py.Return [])
          (fun _ => Py.Return [])
          (fun _ => Py.Return [])
          (fun _ => Py.Return [])
          (fun _ => Py.Return None).

(** A world in which "bob" owns [small_wardrobe] and every other user
    owns nothing. *)
Definition bobs_world : World :=
  mkWorld (Py.Return tt)
          (fun _ => Py.Return (Some (mkUser "ada@example.org" ["minimal"])))
          (fun uid => Py.Return (if String.eqb uid "bob" then small_wardrobe else []))
          (fun uid => Py.Return (if String.eqb uid "bob" then small_wardrobe else []))
          (fun _ => Py.Return [])
          (fun _ => Py.Return [])
          (fun _ => Py.Return None).

(** A world in which the user owns [small_wardrobe], the query by
    [ObjectId] fails, and neither the history nor the weather can be read. *)
Definition stocked_world : World :=
  mkWorld (Py.Return tt)
          (fun _ => Py.Return (Some (mkUser "ada@example.org" ["minimal"])))
          (fun _ => Py.Raise (Py.Exception "InvalidId"))
          (fun _ => Py.Return small_wardrobe)
          (fun _ => Py.Raise (Py.Exception "InvalidId"))
          (fun _ => Py.Raise (Py.Exception "timeout"))
          (fun _ => Py.Raise (Py.Exception "weather service down")).

(** Weather data as the caller of [generate_suggestions] may pass it. *)
Definition warm_sun : OutfitService.Weather :=
  OutfitService.mkWeather (Some 25%Q) "Sunny" (Some "warm").

End Sample.

(* ================================================================== *)
(** * Properties *)
(* ================================================================== *)


(** ** Facts about the built-ins *)

Module PyFacts.

Example py_smoke :
  (Py.lower "Dark BLUE", Py.contains "tan" "titan", Py.strip "  a b ",
   Py.capitalize "hELLO", Py.first_word " tops x", Py.str_nat 42,
   Py.sorted_set ["b"; "a"; "b"], Py.slice_to (-1) [1;2;3]%nat,
   Py.round_half_even (5 # 2), Py.round_half_even (7 # 2),
   Py.sort_desc (fun x : Q => x) [1#2; 3#4; 1#4; 3#4], Py.dedup ["x";"y";"x"])
  = ("dark blue", true, "a b", "Hello", Some "tops", "42", ["a"; "b"], [1;2]%nat,
     2%Z, 4%Z, [3#4; 3#4; 1#2; 1#4], ["x";"y"]).
Proof. vm_compute. reflexivity. Qed.

Lemma lower_char_idem (c : ascii) : Py.lower_char (Py.lower_char c) = Py.lower_char c.
Proof. destruct c as [[] [] [] [] [] [] [] []]; reflexivity. Qed.

Lemma lower_idem (s : string) : Py.lower (Py.lower s) = Py.lower s.
Proof.
  induction s as [| c s IH]; simpl.
  - reflexivity.
  - now rewrite lower_char_idem, IH.
Qed.

Section SortDescFacts.
Context {A : Type} (key : A -> Q).

Lemma insert_desc_perm (x : A) (xs : list A) :
  Permutation (Py.insert_desc key x xs) (x :: xs).
Proof.
  induction xs as [| y ys IH]; simpl.
  - apply Permutation_refl.
  - destruct (Qle_bool (key y) (key x)).
    + apply Permutation_refl.
    + eapply perm_trans; [apply perm_skip, IH | apply perm_swap].
Qed.

Lemma sort_desc_perm (xs : list A) : Permutation (Py.sort_desc key xs) xs.
Proof.
  induction xs as [| x xs IH]; simpl.
  - apply perm_nil.
  - eapply perm_trans; [apply insert_desc_perm | now apply perm_skip].
Qed.

Lemma insert_desc_sorted (x : A) (xs : list A) :
  StronglySorted (Py.desc key) xs -> StronglySorted (Py.desc key) (Py.insert_desc key x xs).
Proof.
  induction 1 as [| y ys Hs IH Hall]; simpl.
  - repeat constructor.
  - destruct (Qle_bool (key y) (key x)) eqn:E.
    + apply Qle_bool_iff in E.
      constructor; [now constructor |].
      constructor; [exact E |].
      eapply List.Forall_impl; [| exact Hall].
      intros z Hz. unfold Py.desc in *. eapply Qle_trans; eassumption.
    + constructor; [exact IH |].
      assert (Hlt : (key x < key y)%Q).
      { apply Qnot_le_lt. intro H. apply Qle_bool_iff in H. congruence. }
      eapply Permutation_Forall; [apply Permutation_sym, insert_desc_perm |].
      constructor; [apply Qlt_le_weak, Hlt | exact Hall].
Qed.

Lemma sort_desc_sorted (xs : list A) : StronglySorted (Py.desc key) (Py.sort_desc key xs).
Proof.
  induction xs as [| x xs IH]; simpl.
  - constructor.
  - now apply insert_desc_sorted.
Qed.

Lemma sort_desc_length (xs : list A) :
  List.length (Py.sort_desc key xs) = List.length xs.
Proof. apply Permutation_length, sort_desc_perm. Qed.
End SortDescFacts.

(** A slice [xs[:k]] is a prefix of [xs]. *)
Lemma slice_to_prefix {A : Type} (k : Z) (xs : list A) :
  exists n, Py.slice_to k xs = List.firstn n xs.
Proof. unfold Py.slice_to. destruct (0 <=? k)%Z; eauto. Qed.

Lemma slice_to_nonneg {A : Type} (k : Z) (xs : list A) :
  (0 <= k)%Z -> Py.slice_to k xs = List.firstn (Z.to_nat k) xs.
Proof. intros H. unfold Py.slice_to. apply Z.leb_le in H. now rewrite H. Qed.

Lemma slice_to_length {A : Type} (k : Z) (xs : list A) :
  (0 <= k)%Z -> (Z.of_nat (List.length (Py.slice_to k xs)) <= k)%Z.
Proof.
  intros H. rewrite slice_to_nonneg by exact H.
  rewrite List.length_firstn. lia.
Qed.

Lemma firstn_In {A : Type} (n : nat) (xs : list A) (x : A) :
  In x (List.firstn n xs) -> In x xs.
Proof.
  revert xs. induction n as [| n IH]; intros [| y ys]; simpl; try tauto.
  intros [-> | H]; [now left | right; now apply IH].
Qed.

Lemma firstn_NoDup {A : Type} (n : nat) (xs : list A) :
  List.NoDup xs -> List.NoDup (List.firstn n xs).
Proof.
  revert xs. induction n as [| n IH]; intros [| y ys] H; simpl; try constructor.
  - inversion H; subst. intro Hin. apply firstn_In in Hin. contradiction.
  - inversion H; subst. now apply IH.
Qed.

Lemma firstn_sorted {A : Type} (R : A -> A -> Prop) (n : nat) (xs : list A) :
  StronglySorted R xs -> StronglySorted R (List.firstn n xs).
Proof.
  revert xs. induction n as [| n IH]; intros [| y ys] H; simpl; try constructor.
  - inversion H; subst. now apply IH.
  - inversion H; subst. apply List.Forall_forall. intros z Hz.
    apply firstn_In in Hz. rewrite List.Forall_forall in H3. now apply H3.
Qed.

(** A loop whose body keeps an invariant stops in a state where the
    invariant holds and the condition fails. *)
Lemma while_loop_invariant {S : Type} (I : S -> Prop) (cond : S -> bool)
      (body : S -> S) :
  (forall s, I s -> cond s = true -> I (body s)) ->
  forall fuel s s', I s -> Py.while_loop fuel cond body s = Some s' ->
                    I s' /\ cond s' = false.
Proof.
  intros Hstep. induction fuel as [| n IH]; intros s s' Hs Hrun; simpl in Hrun.
  - destruct (cond s) eqn:E; [discriminate |]. inversion Hrun; subst. auto.
  - destruct (cond s) eqn:E.
    + eapply IH; [| exact Hrun]. now apply Hstep.
    + inversion Hrun; subst. auto.
Qed.

(** A loop whose body decreases a measure that the condition keeps
    positive stops within as many iterations as the measure allows. *)
Lemma while_loop_terminates {S : Type} (measure : S -> nat) (cond : S -> bool)
      (body : S -> S) :
  (forall s, cond s = true -> (measure (body s) < measure s)%nat) ->
  forall fuel s, (measure s <= fuel)%nat ->
                 exists s', Py.while_loop fuel cond body s = Some s'.
Proof.
  intros Hdec. induction fuel as [| n IH]; intros s Hm; simpl.
  - destruct (cond s) eqn:E; [| eauto].
    specialize (Hdec s E). lia.
  - destruct (cond s) eqn:E; [| eauto].
    apply IH. specialize (Hdec s E). lia.
Qed.

(** Rounding to the nearest integer moves a number by at most one half. *)
Lemma round_half_even_error (x : Q) :
  (Qabs (inject_Z (Py.round_half_even x) - x) <= 1 # 2)%Q.
Proof.
  pose proof (Qfloor_le x) as Hlo. pose proof (Qlt_floor x) as Hhi.
  rewrite inject_Z_plus in Hhi. change (inject_Z 1) with 1%Q in Hhi.
  unfold Py.round_half_even, Py.Qlt_bool.
  destruct (Qle_bool (1 # 2) (x - inject_Z (Qfloor x))) eqn:E1; cbn [negb].
  - apply Qle_bool_iff in E1.
    destruct (Qle_bool (x - inject_Z (Qfloor x)) (1 # 2)) eqn:E2; cbn [negb].
    + apply Qle_bool_iff in E2.
      destruct (Z.even (Qfloor x)).
      * apply Qabs_Qle_condition. split; lra.
      * rewrite inject_Z_plus. change (inject_Z 1) with 1%Q.
        apply Qabs_Qle_condition. split; lra.
    + rewrite inject_Z_plus. change (inject_Z 1) with 1%Q.
      apply Qabs_Qle_condition. split; lra.
  - assert (H : ~ (1 # 2 <= x - inject_Z (Qfloor x))%Q).
    { intros H. apply Qle_bool_iff in H. congruence. }
    apply Qabs_Qle_condition. split; lra.
Qed.

(** [round(x, 2)] is a number of hundredths, at most half a hundredth
    away from [x]. *)
Lemma round2_error (x : Q) :
  (exists n : Z, Py.round x 2 = n # 100) /\ (Qabs (Py.round x 2 - x) <= 1 # 200)%Q.
Proof.
  unfold Py.round.
  change (10 ^ Z.of_nat 2)%Z with 100%Z. change (Z.to_pos 100) with 100%positive.
  split; [eexists; reflexivity |].
  pose proof (round_half_even_error (x * inject_Z 100)) as H.
  set (n := Py.round_half_even (x * inject_Z 100)) in *.
  assert (E : (n # 100 == inject_Z n / 100)%Q).
  { rewrite (Qmake_Qdiv n 100). reflexivity. }
  rewrite E.
  apply Qabs_Qle_condition in H. destruct H as [H1 H2].
  change (inject_Z 100) with 100%Q in *.
  apply Qabs_Qle_condition. split.
  - apply Qle_minus_iff.
    assert (E2 : (inject_Z n / 100 - x + - - (1 # 200)
                  == (inject_Z n - x * 100 + (1 # 2)) / 100)%Q) by (field).
    rewrite E2. apply Qle_shift_div_l; [reflexivity | lra].
  - apply Qle_minus_iff.
    assert (E2 : ((1 # 200) + - (inject_Z n / 100 - x)
                  == ((1 # 2) - (inject_Z n - x * 100)) / 100)%Q) by (field).
    rewrite E2. apply Qle_shift_div_l; [reflexivity | lra].
Qed.

End PyFacts.

(* ------------------------------------------------------------------ *)
(** ** Colour standardization *)
(* ------------------------------------------------------------------ *)

Module ColorFacts.
Import OutfitService.

Lemma first_variant_hit_canonical (m : list (string * list string)) (s c : string) :
  first_variant_hit m s = Some c -> In c (List.map fst m).
Proof.
  induction m as [| [std variants] m IH]; simpl; [discriminate |].
  destruct (Py.any_in variants s).
  - intros [= <-]. now left.
  - intros H. right. now apply IH.
Qed.

Section Lower.
Variable lower : string -> string.
Hypothesis canonical_lower : forall k, In k canonical_colors -> lower k = k.

Lemma canonical_fixed_with (c : string) :
  In c canonical_colors -> _standardize_color_with lower c = c.
Proof.
  intros H. unfold _standardize_color_with. rewrite (canonical_lower c H).
  revert H. unfold canonical_colors. simpl.
  intros H. repeat (destruct H as [<- | H]; [vm_compute; reflexivity |]).
  destruct H.
Qed.

Lemma standardize_cases_with (c : string) :
  In (_standardize_color_with lower c) canonical_colors
  \/ (first_variant_hit color_map (lower c) = None
      /\ _standardize_color_with lower c = lower c).
Proof.
  unfold _standardize_color_with.
  destruct (first_variant_hit color_map (lower c)) as [std |] eqn:E.
  - left. eapply first_variant_hit_canonical, E.
  - right. auto.
Qed.

End Lower.

Lemma lower_canonical (k : string) : In k canonical_colors -> Py.lower k = k.
Proof.
  unfold canonical_colors. simpl.
  intros H. repeat (destruct H as [<- | H]; [vm_compute; reflexivity |]).
  destruct H.
Qed.

Lemma canonical_fixed (c : string) :
  In c canonical_colors -> _standardize_color c = c /\ Py.lower c = c.
Proof.
  intros H. split.
  - apply canonical_fixed_with; [exact lower_canonical | exact H].
  - now apply lower_canonical.
Qed.

Lemma standardize_cases (c : string) :
  In (_standardize_color c) canonical_colors
  \/ (first_variant_hit color_map (Py.lower c) = None
      /\ _standardize_color c = Py.lower c).
Proof. apply standardize_cases_with. Qed.

(** C10.  [_standardize_color] is idempotent, and its result is in lower
    case: it is one of the twelve canonical colour names, or the input in
    lower case when no variant of a canonical colour occurs in it.  This
    holds for every case mapping [lower] that is idempotent and leaves the
    twelve canonical names as they are, as [str.lower] does; a string is in
    lower case when [lower] does not change it. *)
Theorem standardize_color_idempotent_lowercase (lower : string -> string) (c : string) :
  (forall s, lower (lower s) = lower s) ->
  (forall k, In k canonical_colors -> lower k = k) ->
  _standardize_color_with lower (_standardize_color_with lower c)
  = _standardize_color_with lower c
  /\ lower (_standardize_color_with lower c) = _standardize_color_with lower c
  /\ (In (_standardize_color_with lower c)
         ["navy"; "blue"; "black"; "white"; "gray"; "red"; "green"; "brown";
          "purple"; "yellow"; "pink"; "orange"]
      \/ _standardize_color_with lower c = lower c).
Proof.
  intros Hidem Hcanon.
  destruct (standardize_cases_with lower c) as [Hin | [Hnone Heq]].
  - repeat split.
    + now apply canonical_fixed_with.
    + now apply Hcanon.
    + left. exact Hin.
  - repeat split.
    + rewrite Heq. unfold _standardize_color_with.
      rewrite Hidem, Hnone. reflexivity.
    + rewrite Heq. apply Hidem.
    + right. exact Heq.
Qed.

Lemma standardize_color_idempotent_lowercase_witness :
  _standardize_color (_standardize_color "Dark BLUE") = _standardize_color "Dark BLUE"
  /\ Py.lower (_standardize_color "Dark BLUE") = _standardize_color "Dark BLUE"
  /\ (In (_standardize_color "Dark BLUE")
         ["navy"; "blue"; "black"; "white"; "gray"; "red"; "green"; "brown";
          "purple"; "yellow"; "pink"; "orange"]
      \/ _standardize_color "Dark BLUE" = Py.lower "Dark BLUE").
Proof.
  apply (standardize_color_idempotent_lowercase Py.lower "Dark BLUE").
  - exact PyFacts.lower_idem.
  - exact lower_canonical.
Defined.

(** The standard forms of some colours. *)
Example standardize_color_samples :
  List.map _standardize_color ["Dark BLUE"; "Sky Blue"; "off-white"; "Teal"; "titanium"; ""]
  = ["navy"; "blue"; "white"; "teal"; "brown"; ""].
Proof. vm_compute. reflexivity. Qed.

End ColorFacts.

(* ------------------------------------------------------------------ *)
(** ** The wardrobe categorizer *)
(* ------------------------------------------------------------------ *)

Module CategorizerFacts.
Import OutfitService.

Lemma any_in2_app (ws1 ws2 : list string) (a b : string) :
  Py.any_in2 (ws1 ++ ws2) a b = Py.any_in2 ws1 a b || Py.any_in2 ws2 a b.
Proof. unfold Py.any_in2. apply List.existsb_app. Qed.

Lemma unbucketed_misses (item : Item) (c n : string) :
  c = Py.lower (category item) ->
  n = Py.lower (item_name item) ->
  unbucketed item = true ->
  Py.any_in2 tops_words c n = false /\ Py.any_in2 bottoms_words c n = false
  /\ Py.any_in2 dresses_words c n = false /\ Py.any_in2 outerwear_words c n = false
  /\ Py.any_in2 shoes_words c n = false /\ Py.any_in2 accessories_words c n = false.
Proof.
  intros -> ->. unfold unbucketed. rewrite !any_in2_app. intros H.
  apply negb_true_iff in H. do 5 (apply orb_false_iff in H; destruct H as [? H]).
  repeat split; assumption.
Qed.

Lemma categorize_item_keeps (c : Categorized) (item x : Item) :
  (In x (tops c) -> In x (tops (categorize_item c item)))
  /\ (In x (warnings c) -> In x (warnings (categorize_item c item))).
Proof.
  unfold categorize_item.
  repeat match goal with |- context [if ?b then _ else _] => destruct b end;
    simpl; split; intros H; try assumption; apply List.in_or_app; now left.
Qed.

Lemma categorize_item_default (c : Categorized) (item : Item) :
  unbucketed item = true ->
  In item (tops (categorize_item c item)) /\ In item (warnings (categorize_item c item)).
Proof.
  intros H.
  destruct (unbucketed_misses item _ _ eq_refl eq_refl H) as (H1 & H2 & H3 & H4 & H5 & H6).
  unfold categorize_item. rewrite H1, H2, H3, H4, H5, H6. simpl.
  split; apply List.in_or_app; right; now left.
Qed.

Lemma categorize_fold (items : list Item) (c : Categorized) (x : Item) :
  (In x (tops c) /\ In x (warnings c)) \/ (In x items /\ unbucketed x = true) ->
  In x (tops (List.fold_left categorize_item items c))
  /\ In x (warnings (List.fold_left categorize_item items c)).
Proof.
  revert c. induction items as [| item items IH]; intros c H; simpl.
  - destruct H as [H | [[] _]]. exact H.
  - apply IH. destruct H as [[Ht Hw] | [[-> | Hin] Hu]].
    + left. split; now apply categorize_item_keeps.
    + left. now apply categorize_item_default.
    + right. auto.
Qed.

(** C8, as stated, fails: an item whose name and description hit no keyword
    is labelled ["other"] by [_detect_category], and keeps that label through
    [_process_clothing_item]. *)
Lemma unmatched_item_labelled_other :
  undetected Sample.plain_thing = true
  /\ _detect_category Sample.plain_thing = "other"
  /\ category (_process_clothing_item Sample.plain_thing) = "other"
  /\ _detect_category Sample.plain_thing <> "tops".
Proof. repeat split; try (vm_compute; reflexivity). vm_compute. discriminate. Qed.

(** C8, amended.  An item whose category and name hit no keyword of
    [_categorize_items] is filed under the ["tops"] bucket and reported at
    warning level; the label [_detect_category] infers for a name that hits
    none of its keywords is ["other"]. *)
Theorem unmatched_items_default_to_tops_bucket (items : list Item) (item : Item) :
  In item items ->
  unbucketed item = true ->
  In item (tops (_categorize_items items))
  /\ In item (warnings (_categorize_items items))
  /\ (first_keyword_hit detect_table (Py.lower (item_name item)) = None ->
      _detect_category item = "other").
Proof.
  intros Hin Hu.
  destruct (categorize_fold items empty_categorized item) as [Ht Hw]; [right; auto |].
  repeat split; [exact Ht | exact Hw |].
  intros Hnone. unfold _detect_category. now rewrite Hnone.
Qed.

Lemma unmatched_items_default_to_tops_bucket_witness :
  In Sample.plain_thing (tops (_categorize_items [Sample.plain_thing]))
  /\ In Sample.plain_thing (warnings (_categorize_items [Sample.plain_thing]))
  /\ (first_keyword_hit detect_table (Py.lower (item_name Sample.plain_thing)) = None ->
      _detect_category Sample.plain_thing = "other").
Proof.
  apply (unmatched_items_default_to_tops_bucket [Sample.plain_thing] Sample.plain_thing).
  - simpl. left. reflexivity.
  - vm_compute. reflexivity.
Defined.

End CategorizerFacts.

(* ------------------------------------------------------------------ *)
(** ** The candidate outfit generator *)
(* ------------------------------------------------------------------ *)

Module GenerationFacts.
Import OutfitService.

Lemma valid_well_formed (o : Outfit) (occ : string) :
  _is_outfit_valid o occ = true -> well_formed (items o).
Proof.
  unfold _is_outfit_valid, well_formed.
  destruct (List.length (items o) <? 2)%nat eqn:L; [discriminate |].
  apply Nat.ltb_ge in L. split; [exact L |].
  destruct (has_dress (items o)); [now left |].
  right. now apply andb_true_iff.
Qed.

Section Generator.
Context {Rng : Type}.
Variable random : Rng -> Q * Rng.
Variable randbelow : Z -> Rng -> Z * Rng.
Variable find_clothing_items : string -> list Item.
Variable get_current_weather : string -> option Weather.

Lemma score_outfit_outfit (o : Outfit) (u occ : string) (w : option Weather) (g : Rng) :
  outfit (fst (score_outfit random o u occ w g)) = o.
Proof.
  unfold score_outfit, uniform, bind, ret. destruct (random g). reflexivity.
Qed.

Lemma add_weather_keys_outfit (s : ScoredOutfit) (w : option Weather) :
  outfit (add_weather_keys s w) = outfit s.
Proof. destruct w; reflexivity. Qed.

Lemma gen_inv_init (count : Z) (g : Rng) : gen_inv count (mkGenState [] ∅ 0 g).
Proof.
  unfold gen_inv. simpl. repeat split; try constructor; lia.
Qed.

Lemma generation_body_attempts (cz : Categorized) (u occ : string)
      (w : option Weather) (st : GenState) :
  attempts (generation_body random randbelow cz u occ w st) = (attempts st + 1)%Z.
Proof.
  unfold generation_body.
  destruct (_create_outfit_from_categories random randbelow cz occ (rng st)) as [[o |] g];
    [| reflexivity].
  destruct (_is_outfit_valid o occ); [| reflexivity].
  destruct (bool_decide _); [reflexivity |].
  destruct (score_outfit random o u occ w g). reflexivity.
Qed.

Lemma generation_body_inv (count : Z) (cz : Categorized) (u occ : string)
      (w : option Weather) (st : GenState) :
  gen_inv count st ->
  generation_cond count (count * 20) st = true ->
  gen_inv count (generation_body random randbelow cz u occ w st).
Proof.
  intros (Hnd & Hseen & Hwf & Hatt & Hlen) Hcond.
  unfold generation_cond in Hcond. apply andb_true_iff in Hcond.
  destruct Hcond as [Hc Ha]. apply Z.ltb_lt in Hc. apply Z.ltb_lt in Ha.
  assert (Hskip : forall g : Rng, gen_inv count
            (mkGenState (outfits st) (seen_combinations st) (attempts st + 1) g)).
  { intros g. unfold gen_inv. simpl. repeat split; try assumption; lia. }
  unfold generation_body.
  destruct (_create_outfit_from_categories random randbelow cz occ (rng st)) as [[o |] g];
    [| apply Hskip].
  destruct (_is_outfit_valid o occ) eqn:Hvalid; [| apply Hskip].
  destruct (bool_decide (signature (items o) ∈ seen_combinations st)) eqn:Hmem;
    [apply Hskip |].
  apply bool_decide_eq_false in Hmem.
  pose proof (score_outfit_outfit o u occ w g) as Hout.
  destruct (score_outfit random o u occ w g) as [scored g']. simpl in Hout.
  assert (Hsig : signature_of (add_weather_keys scored w) = signature (items o)).
  { unfold signature_of. now rewrite add_weather_keys_outfit, Hout. }
  unfold gen_inv. simpl. repeat split.
  - rewrite List.map_app. simpl.
    apply List.NoDup_app; [exact Hnd | repeat constructor; intros [] | ].
    intros s Hs [<- | []]. rewrite Hsig in Hs.
    apply List.in_map_iff in Hs. destruct Hs as (o' & Ho' & Hin).
    rewrite List.Forall_forall in Hseen. apply Hmem. rewrite <- Ho'. now apply Hseen.
  - apply List.Forall_app. split.
    + eapply List.Forall_impl; [| exact Hseen]. intros o' Ho'.
      apply elem_of_union. now right.
    + constructor; [| constructor]. rewrite Hsig.
      apply elem_of_union. left. now apply elem_of_singleton.
  - apply List.Forall_app. split; [exact Hwf |].
    constructor; [| constructor].
    rewrite add_weather_keys_outfit, Hout. eapply valid_well_formed, Hvalid.
  - lia.
  - lia.
  - rewrite List.length_app. simpl. lia.
Qed.

(** With [count * 20] iterations at its disposal the loop stops, in a state
    that satisfies the invariant. *)
Lemma generation_loop_runs (fuel : nat) (u occ : string) (count : Z) (loc : string)
      (w : option Weather) (g : Rng) :
  (Z.to_nat (count * 20) <= fuel)%nat ->
  exists st,
    generation_loop random randbelow find_clothing_items get_current_weather
                    fuel u occ count loc w g = Some st
    /\ gen_inv count st.
Proof.
  intros Hfuel. unfold generation_loop.
  set (cz := _categorize_items _). set (w' := resolve_weather _ _ _).
  destruct (PyFacts.while_loop_terminates
              (fun st : GenState => Z.to_nat (count * 20 - attempts st))
              (generation_cond count (count * 20))
              (generation_body random randbelow cz u occ w')) with
    (fuel := fuel) (s := mkGenState [] ∅ 0 g) as [st Hst].
  - intros s Hc. rewrite generation_body_attempts.
    unfold generation_cond in Hc. apply andb_true_iff in Hc. destruct Hc as [_ Ha].
    apply Z.ltb_lt in Ha. lia.
  - simpl. lia.
  - exists st. split; [exact Hst |].
    eapply (PyFacts.while_loop_invariant (gen_inv count)); [| apply gen_inv_init | exact Hst].
    intros s Hs Hc. now apply generation_body_inv.
Qed.

(** The mock outfits do not depend on the generator state, except for
    their scores. *)
Lemma mock_outfits_items (n i : nat) (occ : string) (g : Rng) :
  List.map (fun o => items (outfit o)) (fst (mock_outfits_from random i n occ g))
  = List.map (fun j => fst (mock_combination j)) (List.seq i n).
Proof.
  revert i g. induction n as [| n IH]; intros i g; simpl; [reflexivity |].
  unfold mock_outfit.
  destruct (mock_combination i) as [its nm] eqn:Hc.
  unfold uniform, bind, ret.
  repeat match goal with |- context [random ?x] => destruct (random x) end.
  specialize (IH (S i)).
  match goal with |- context [mock_outfits_from random (S i) n occ ?x] =>
    specialize (IH x); destruct (mock_outfits_from random (S i) n occ x) end.
  simpl in *. now rewrite IH.
Qed.

Lemma mock_combination_well_formed (j : nat) : well_formed (fst (mock_combination j)).
Proof.
  destruct j as [| [| j]]; (split; [simpl; lia | right; split; reflexivity]).
Qed.

Lemma mock_signatures_distinct :
  List.NoDup (List.map (fun j => signature (fst (mock_combination j))) (List.seq 0 3)).
Proof.
  vm_compute.
  repeat (apply List.NoDup_cons; [simpl; intuition discriminate |]).
  apply List.NoDup_nil.
Qed.

Lemma seq_prefix (n m : nat) : (n <= m)%nat -> List.seq 0 n = List.firstn n (List.seq 0 m).
Proof.
  intros H. replace m with (n + (m - n))%nat by lia.
  rewrite List.seq_app, List.firstn_app, List.length_seq, Nat.sub_diag. simpl.
  rewrite List.app_nil_r. symmetry. apply List.firstn_all2. rewrite List.length_seq. lia.
Qed.

Lemma mock_outfits_ok (occ loc : string) (count : Z) (g : Rng) :
  let outs := fst (_get_mock_outfits random occ loc count g) in
  List.NoDup (List.map signature_of outs)
  /\ List.Forall (fun o => well_formed (items (outfit o))) outs
  /\ (Z.of_nat (List.length outs) <= Z.max 0 count)%Z.
Proof.
  unfold _get_mock_outfits.
  pose proof (mock_outfits_items (Z.to_nat (Z.min count 3)) 0 occ g) as Hitems.
  set (outs := fst (mock_outfits_from random 0 (Z.to_nat (Z.min count 3)) occ g)) in *.
  simpl.
  assert (Hn : (Z.to_nat (Z.min count 3) <= 3)%nat) by lia.
  assert (Hlen : List.length outs = Z.to_nat (Z.min count 3)).
  { rewrite <- (List.length_map (fun o => items (outfit o))), Hitems.
    now rewrite List.length_map, List.length_seq. }
  assert (Hsig : List.map signature_of outs
                 = List.map signature (List.map (fun o => items (outfit o)) outs)).
  { now rewrite List.map_map. }
  split; [| split].
  - rewrite Hsig, Hitems, List.map_map, (seq_prefix _ 3 Hn), <- List.firstn_map.
    apply PyFacts.firstn_NoDup, mock_signatures_distinct.
  - apply List.Forall_forall. intros o Ho.
    assert (Hin : In (items (outfit o)) (List.map (fun o => items (outfit o)) outs)).
    { apply List.in_map_iff. eauto. }
    rewrite Hitems in Hin. apply List.in_map_iff in Hin. destruct Hin as (j & <- & _).
    apply mock_combination_well_formed.
  - rewrite Hlen. lia.
Qed.

Lemma sorted_slice_NoDup (count : Z) (outs : list ScoredOutfit) :
  List.NoDup (List.map signature_of outs) ->
  List.NoDup (List.map signature_of (Py.slice_to count (Py.sort_desc sort_key outs))).
Proof.
  intros H. destruct (PyFacts.slice_to_prefix count (Py.sort_desc sort_key outs)) as [n ->].
  rewrite <- List.firstn_map. apply PyFacts.firstn_NoDup.
  eapply Permutation_NoDup; [| exact H].
  apply Permutation_map, Permutation_sym, PyFacts.sort_desc_perm.
Qed.

Lemma sorted_slice_Forall (P : ScoredOutfit -> Prop) (count : Z) (outs : list ScoredOutfit) :
  List.Forall P outs ->
  List.Forall P (Py.slice_to count (Py.sort_desc sort_key outs)).
Proof.
  intros H. destruct (PyFacts.slice_to_prefix count (Py.sort_desc sort_key outs)) as [n ->].
  apply List.Forall_forall. intros o Ho. apply PyFacts.firstn_In in Ho.
  rewrite List.Forall_forall in H. apply H.
  eapply Permutation_in; [apply PyFacts.sort_desc_perm | exact Ho].
Qed.

(** C1.  Within one run of [generate_suggestions] no two returned outfits
    have the same sorted tuple of item identifiers, and every returned
    outfit has at least two items and holds a dress, or a top and a bottom. *)
Theorem generated_outfits_unique_and_valid (fuel : nat) (user_id occasion : string)
        (count : Z) (location : string) (weather_data : option Weather) (g : Rng) :
  (Z.to_nat (count * 20) <= fuel)%nat ->
  exists outs g',
    generate_suggestions random randbelow find_clothing_items get_current_weather
                         fuel user_id occasion count location weather_data g
    = Some (outs, g')
    /\ List.NoDup (List.map (fun o => signature (items (outfit o))) outs)
    /\ List.Forall
         (fun o =>
            (2 <= List.length (items (outfit o)))%nat
            /\ (has_dress (items (outfit o)) = true
                \/ (has_top (items (outfit o)) = true
                    /\ has_bottom (items (outfit o)) = true)))
         outs.
Proof.
  intros Hfuel. unfold generate_suggestions.
  destruct (get_user_wardrobe find_clothing_items user_id) eqn:Hw.
  - destruct (mock_outfits_ok occasion location count g) as (Hnd & Hwf & _).
    destruct (_get_mock_outfits random occasion location count g) as [outs g'].
    exists outs, g'. simpl in *. auto.
  - destruct (generation_loop_runs fuel user_id occasion count location weather_data g Hfuel)
      as (st & -> & Hnd & _ & Hwf & _).
    eexists _, _. split; [reflexivity |]. split.
    + now apply sorted_slice_NoDup.
    + now apply sorted_slice_Forall.
Qed.

(** C9.  The generation loop of [generate_suggestions] makes at most
    [count * 20] attempts (none when [count] is not positive) and stops;
    [generate_suggestions] then returns at most [count] candidates, and
    raises nothing. *)
Theorem generation_attempts_bounded (fuel : nat) (user_id occasion : string)
        (count : Z) (location : string) (weather_data : option Weather) (g : Rng) :
  (Z.to_nat (count * 20) <= fuel)%nat ->
  (exists st,
      generation_loop random randbelow find_clothing_items get_current_weather
                      fuel user_id occasion count location weather_data g = Some st
      /\ (0 <= attempts st <= Z.max 0 (count * 20))%Z)
  /\ (exists outs g',
         generate_suggestions random randbelow find_clothing_items get_current_weather
                              fuel user_id occasion count location weather_data g
         = Some (outs, g')
         /\ (Z.of_nat (List.length outs) <= Z.max 0 count)%Z).
Proof.
  intros Hfuel.
  destruct (generation_loop_runs fuel user_id occasion count location weather_data g Hfuel)
    as (st & Hrun & _ & _ & _ & Hatt & Hlen).
  split; [exists st; auto |].
  unfold generate_suggestions.
  destruct (get_user_wardrobe find_clothing_items user_id) eqn:Hw.
  - destruct (mock_outfits_ok occasion location count g) as (_ & _ & Hl).
    destruct (_get_mock_outfits random occasion location count g) as [outs g'].
    exists outs, g'. simpl in *. auto.
  - rewrite Hrun. eexists _, _. split; [reflexivity |].
    destruct (PyFacts.slice_to_prefix count (Py.sort_desc sort_key (outfits st))) as [n ->].
    rewrite List.length_firstn, PyFacts.sort_desc_length. lia.
Qed.

End Generator.

Lemma generated_outfits_unique_and_valid_witness :
  exists outs g',
    generate_suggestions Sample.random Sample.randbelow Sample.find_clothing_items
                         Sample.no_weather 40 "ada" "casual" 2 "" None 0%nat
    = Some (outs, g')
    /\ List.NoDup (List.map (fun o => signature (items (outfit o))) outs)
    /\ List.Forall
         (fun o =>
            (2 <= List.length (items (outfit o)))%nat
            /\ (has_dress (items (outfit o)) = true
                \/ (has_top (items (outfit o)) = true
                    /\ has_bottom (items (outfit o)) = true)))
         outs.
Proof.
  apply (generated_outfits_unique_and_valid
           Sample.random Sample.randbelow Sample.find_clothing_items Sample.no_weather
           40 "ada" "casual" 2 "" None 0%nat).
  simpl. lia.
Defined.

Lemma generation_attempts_bounded_witness :
  (exists st,
      generation_loop Sample.random Sample.randbelow Sample.find_clothing_items
                      Sample.no_weather 40 "ada" "casual" 2 "" None 0%nat = Some st
      /\ (0 <= attempts st <= Z.max 0 (2 * 20))%Z)
  /\ (exists outs g',
         generate_suggestions Sample.random Sample.randbelow Sample.find_clothing_items
                              Sample.no_weather 40 "ada" "casual" 2 "" None 0%nat
         = Some (outs, g')
         /\ (Z.of_nat (List.length outs) <= Z.max 0 2)%Z).
Proof.
  apply (generation_attempts_bounded
           Sample.random Sample.randbelow Sample.find_clothing_items Sample.no_weather
           40 "ada" "casual" 2 "" None 0%nat).
  simpl. lia.
Defined.

(** A run on the sample closet: two outfits are asked for and found. *)
Example generate_suggestions_sample :
  match generate_suggestions Sample.random Sample.randbelow Sample.find_clothing_items
                             Sample.no_weather 40 "ada" "casual" 2 "" None 0%nat with
  | Some (outs, _) =>
      List.map (fun o => (name (outfit o), signature (items (outfit o)))) outs
  | None => []
  end
  = [("Red & Black Casual Outfit", ["3"; "4"; "6"]);
     ("White & Blue Casual Outfit", ["1"; "2"; "4"; "6"])].
Proof. vm_compute. reflexivity. Qed.

End GenerationFacts.

(* ------------------------------------------------------------------ *)
(** ** Scoring without weather data *)
(* ------------------------------------------------------------------ *)

Module ScoringFacts.
Import OutfitService.

(** C3, as stated, fails: scored without weather data, the weather
    dimension of an outfit is 1.0 and not 0.5. *)
Lemma score_outfit_without_weather_is_one :
  let scored := fst (score_outfit Sample.random Sample.shirt_and_jeans "ada" "casual" None 0%nat) in
  (weather_score (scores scored) == 1)%Q
  /\ ~ (weather_score (scores scored) == 0.5)%Q
  /\ is_weather_appropriate scored = true.
Proof.
  vm_compute. repeat split; intros H; discriminate H.
Qed.

(** C3, amended.  Scored with no weather data, [score_outfit] gives the
    weather dimension the value 1.0, marks the outfit weather appropriate and
    still returns a combined score: a number of hundredths that lies within
    one hundredth of the weighted sum of the four dimensions, in which the
    weather dimension counts as 1.0.  [_calculate_weather_score] itself
    answers 0.5 when it is called without weather data.  (The sum is rounded
    to two digits; the bound leaves room for the error of the floating-point
    sum, which decides the last digit when the sum is near a tie.) *)
Theorem score_outfit_without_weather {Rng : Type} (random : Rng -> Q * Rng)
        (outfit : Outfit) (user_id occasion : string) (g : Rng) :
  let scored := fst (score_outfit random outfit user_id occasion None g) in
  let style := (0.6 + (0.95 - 0.6) * fst (random g))%Q in
  (weather_score (scores scored) == 1)%Q
  /\ is_weather_appropriate scored = true
  /\ (exists n : Z, combined_score (scores scored) = n # 100)
  /\ (Qabs (combined_score (scores scored)
            - (style * 0.3
               + _calculate_color_score (items outfit) * 0.25
               + _calculate_occasion_score (items outfit) occasion * 0.25
               + 1.0 * 0.2)) < 0.01)%Q
  /\ _calculate_weather_score (items outfit) None = 0.5%Q.
Proof.
  unfold score_outfit, uniform, bind, ret. destruct (random g) as [r g'].
  cbn [fst snd scores weather_score combined_score is_weather_appropriate].
  split; [reflexivity |]. split; [reflexivity |].
  match goal with |- (exists n : Z, Py.round ?x 2 = _) /\ _ =>
    destruct (PyFacts.round2_error x) as [Hn He] end.
  split; [exact Hn |]. split.
  - eapply Qle_lt_trans; [exact He | reflexivity].
  - destruct (items outfit); reflexivity.
Qed.

End ScoringFacts.

(* ------------------------------------------------------------------ *)
(** ** Similarity search *)
(* ------------------------------------------------------------------ *)

Module SimilarityFacts.
Import Similarity.

Section ScanFacts.
Variable similarity_of : list Q -> list Q -> Py.result pyfloat.

(** The loop either raises or appends the contributions of the candidates. *)
Lemma scan_outcome (q : list Q) (m : Q) (its : list Item) (acc : list SimilarItem) :
  scan similarity_of q its m acc = Py.Return (acc ++ contributions similarity_of q m its)
  \/ exists e, scan similarity_of q its m acc = Py.Raise e.
Proof.
  revert acc. induction its as [| it its IH]; intros acc; simpl.
  - left. now rewrite List.app_nil_r.
  - unfold contributions in *. simpl. unfold contribution at 1.
    destruct (embedding it) as [e |]; [| apply IH].
    destruct (similarity_of q e) as [[s |] | ex]; simpl.
    + destruct (Qle_bool m s).
      * rewrite List.app_assoc. apply IH.
      * apply IH.
    + apply IH.
    + right. eauto.
Qed.


Lemma contributions_matches (q : list Q) (m : Q) (its : list Item) :
  List.Forall
    (fun r =>
       In (item r) its
       /\ exists e s,
           embedding (item r) = Some e
           /\ similarity_of q e = Py.Return (Fin s)
           /\ (m <= s)%Q
           /\ similarity_score r = Py.round s 3)
    (contributions similarity_of q m its).
Proof.
  apply List.Forall_forall. intros r Hr.
  apply List.in_flat_map in Hr. destruct Hr as (it & Hin & Hr).
  unfold contribution in Hr.
  destruct (embedding it) as [e |] eqn:He; [| destruct Hr].
  destruct (similarity_of q e) as [[s |] | ex] eqn:Hs; try destruct Hr.
  destruct (Qle_bool m s) eqn:Hle; [| destruct Hr].
  destruct Hr as [<- | []]. simpl. split; [exact Hin |].
  exists e, s. repeat split; try assumption. now apply Qle_bool_iff.
Qed.

(** The result of the search: the ranked contributions cut at [top_k], or
    the empty list when the loop raised. *)
Lemma find_similar_items_with_outcome (q : list Q) (its : list Item) (k : Z) (m : Q) :
  find_similar_items_with similarity_of q its k m
  = Py.Return (Py.slice_to k (Py.sort_desc similarity_score (contributions similarity_of q m its)))
  \/ ((exists e, scan similarity_of q its m [] = Py.Raise e)
      /\ find_similar_items_with similarity_of q its k m = Py.Return []).
Proof.
  unfold find_similar_items_with.
  destruct (scan_outcome q m its []) as [-> | [e He]].
  - left. reflexivity.
  - right. split; [eauto |]. now rewrite He.
Qed.

Lemma ranked_slice (q : list Q) (its : list Item) (k : Z) (m : Q) :
  ranked_matches similarity_of q its m
    (Py.slice_to k (Py.sort_desc similarity_score (contributions similarity_of q m its))).
Proof.
  destruct (PyFacts.slice_to_prefix k
              (Py.sort_desc similarity_score (contributions similarity_of q m its))) as [n ->].
  split.
  - apply List.Forall_forall. intros r Hr. apply PyFacts.firstn_In in Hr.
    pose proof (contributions_matches q m its) as H.
    rewrite List.Forall_forall in H. apply H.
    eapply Permutation_in; [apply PyFacts.sort_desc_perm | exact Hr].
  - apply PyFacts.firstn_sorted, PyFacts.sort_desc_sorted.
Qed.

(** The search never raises; what it returns is ranked, and holds at most
    [top_k] entries when [top_k] is not negative. *)
Lemma find_similar_items_with_ranked (q : list Q) (its : list Item) (k : Z) (m : Q) :
  exists out,
    find_similar_items_with similarity_of q its k m = Py.Return out
    /\ ranked_matches similarity_of q its m out
    /\ ((0 <= k)%Z -> (Z.of_nat (List.length out) <= k)%Z).
Proof.
  destruct (find_similar_items_with_outcome q its k m) as [-> | [_ ->]].
  - eexists. split; [reflexivity |]. split; [apply ranked_slice |].
    apply PyFacts.slice_to_length.
  - exists []. split; [reflexivity |]. split.
    + split; constructor.
    + simpl. lia.
Qed.







End ScanFacts.

(** *** Normalized vectors *)

Lemma Qsquare_nonneg (a : Q) : (0 <= a * a)%Q.
Proof.
  unfold Qle, Qmult. simpl. rewrite Z.mul_1_r. apply Z.square_nonneg.
Qed.

Lemma np_dot_aligned (a b : list Q) :
  List.length a = List.length b ->
  exists d, np_dot a b = Py.Return d
            /\ (2 * d <= sq_norm a + sq_norm b)%Q
            /\ (- (2 * d) <= sq_norm a + sq_norm b)%Q.
Proof.
  revert b. induction a as [| x a IH]; intros [| y b] Hlen; simpl in *; try discriminate.
  - exists 0%Q. split; [reflexivity | split; unfold Qle; simpl; lia].
  - destruct (IH b) as (d & -> & H1 & H2); [congruence |].
    simpl. eexists. split; [reflexivity |].
    pose proof (Qsquare_nonneg (x - y)) as Hm.
    pose proof (Qsquare_nonneg (x + y)) as Hp.
    assert (Em : ((x - y) * (x - y) == x * x + y * y - 2 * (x * y))%Q) by ring.
    assert (Ep : ((x + y) * (x + y) == x * x + y * y + 2 * (x * y))%Q) by ring.
    rewrite Em in Hm. rewrite Ep in Hp.
    split; lra.
Qed.

Lemma np_dot_mismatch (a b : list Q) :
  List.length a <> List.length b -> exists e, np_dot a b = Py.Raise e.
Proof.
  revert b. induction a as [| x a IH]; intros [| y b] Hlen; simpl in *;
    try congruence; eauto.
  destruct (IH b) as [e ->]; [congruence |]. simpl. eauto.
Qed.


(** *** [FashionAIService] on normalized inputs *)


Lemma normalized_tail (q : list Q) (it : Item) (its : list Item) :
  normalized_inputs q (it :: its) -> normalized_inputs q its.
Proof.
  intros [Hq Hits]. split; [exact Hq |]. intros it' e Hin. apply Hits. now right.
Qed.


(** *** [CLIPService] with an exact norm *)





Lemma contributions_length (sim : list Q -> list Q -> Py.result pyfloat)
      (q : list Q) (m : Q) (its : list Item) :
  (List.length (contributions sim q m its) <= List.length its)%nat.
Proof.
  induction its as [| it its IH]; simpl; [lia |].
  unfold contributions in *. simpl. rewrite List.length_app.
  assert (List.length (contribution sim q m it) <= 1)%nat; [| lia].
  unfold contribution. destruct (embedding it); [| simpl; lia].
  destruct (sim q l) as [[s |] |]; try (simpl; lia).
  destruct (Qle_bool m s); simpl; lia.
Qed.

(** A candidate whose similarity raises makes the loop raise. *)
Lemma scan_raises (sim : list Q -> list Q -> Py.result pyfloat) (q : list Q) (m : Q)
      (its : list Item) (acc : list SimilarItem) (it : Item) (e : list Q) (ex : Py.exn) :
  In it its -> embedding it = Some e -> sim q e = Py.Raise ex ->
  exists ex', scan sim q its m acc = Py.Raise ex'.
Proof.
  revert acc. induction its as [| it' its IH]; intros acc Hin He Hs; [destruct Hin |].
  simpl. destruct Hin as [-> | Hin].
  - rewrite He, Hs. simpl. eauto.
  - destruct (embedding it') as [e' |]; [| now apply IH].
    destruct (sim q e') as [[s |] | ex']; simpl; eauto.
    destruct (Qle_bool m s); now apply IH.
Qed.




(** C7, as stated, fails: a negative [top_k] and a zero-length query both
    come back as ordinary result lists. *)
Lemma contract_violations_return_lists :
  FashionAIService.find_similar_items [1; 0]%Q [Sample.north; Sample.east] (-1) 0
  = Py.Return [mkSimilarItem Sample.north (Py.round 1 3)]
  /\ FashionAIService.find_similar_items [] [Sample.north; Sample.east] 5 0.2
     = Py.Return []
  /\ (forall linalg_norm,
         CLIPService.find_similar_items linalg_norm [] [Sample.north; Sample.east] 5 0.2
         = Py.Return []).
Proof.
  split; [vm_compute; reflexivity |]. split; [vm_compute; reflexivity |].
  intros norm. reflexivity.
Qed.

(** C7, amended.  Neither service reports a validation failure: every
    call returns a list.  A negative [top_k] is taken as a slice bound and
    drops that many entries from the end of the ranked list; a zero-length
    query vector makes [FashionAIService] return the empty list as soon as a
    candidate has a non-empty embedding. *)
Theorem find_similar_items_always_returns (query_embedding : list Q)
        (wardrobe_items : list Item) (top_k : Z) (min_similarity : Q) :
  (exists out,
      FashionAIService.find_similar_items query_embedding wardrobe_items top_k min_similarity
      = Py.Return out)
  /\ (forall linalg_norm, exists out,
         CLIPService.find_similar_items linalg_norm query_embedding wardrobe_items
                                        top_k min_similarity
         = Py.Return out)
  /\ ((top_k < 0)%Z ->
      exists ranked,
        FashionAIService.find_similar_items
          query_embedding wardrobe_items (Z.of_nat (List.length wardrobe_items))
          min_similarity
        = Py.Return ranked
        /\ FashionAIService.find_similar_items
             query_embedding wardrobe_items top_k min_similarity
           = Py.Return
               (List.firstn (Z.to_nat (Z.of_nat (List.length ranked) + top_k)) ranked))
  /\ ((exists it x e, In it wardrobe_items /\ embedding it = Some (x :: e)) ->
      FashionAIService.find_similar_items [] wardrobe_items top_k min_similarity
      = Py.Return []).
Proof.
  split.
  { destruct (find_similar_items_with_ranked FashionAIService.similarity
                query_embedding wardrobe_items top_k min_similarity) as (out & H & _).
    eauto. }
  split.
  { intros norm.
    destruct (find_similar_items_with_ranked
                (fun q e => Py.Return (CLIPService.compute_similarity norm q e))
                query_embedding wardrobe_items top_k min_similarity) as (out & H & _).
    eauto. }
  split.
  - intros Hk. unfold FashionAIService.find_similar_items, find_similar_items_with.
    assert (Hneg : (0 <=? top_k)%Z = false) by (apply Z.leb_gt; lia).
    destruct (scan_outcome FashionAIService.similarity query_embedding min_similarity
                           wardrobe_items []) as [-> | [ex ->]]; simpl.
    + set (sorted := Py.sort_desc similarity_score
                       (contributions FashionAIService.similarity query_embedding
                                      min_similarity wardrobe_items)).
      exists sorted. split; f_equal.
      * rewrite PyFacts.slice_to_nonneg by lia. apply List.firstn_all2.
        unfold sorted. rewrite PyFacts.sort_desc_length, Nat2Z.id.
        apply contributions_length.
      * unfold Py.slice_to. now rewrite Hneg.
    + exists []. split; [reflexivity |]. now rewrite List.firstn_nil.
  - intros (it & x & e & Hin & He).
    unfold FashionAIService.find_similar_items, find_similar_items_with.
    destruct (scan_raises FashionAIService.similarity [] min_similarity wardrobe_items []
                          it (x :: e) (Py.Exception "shapes not aligned") Hin He eq_refl)
      as [ex' ->].
    reflexivity.
Qed.

Lemma find_similar_items_always_returns_witness :
  (exists ranked,
      FashionAIService.find_similar_items [1; 0]%Q [Sample.north; Sample.east] 2 0.2
      = Py.Return ranked
      /\ FashionAIService.find_similar_items [1; 0]%Q [Sample.north; Sample.east] (-1) 0.2
         = Py.Return (List.firstn (Z.to_nat (Z.of_nat (List.length ranked) + -1)) ranked))
  /\ FashionAIService.find_similar_items [] [Sample.north; Sample.east] (-1) 0.2
     = Py.Return [].
Proof.
  destruct (find_similar_items_always_returns
              [1; 0]%Q [Sample.north; Sample.east] (-1) 0.2) as (_ & _ & Hneg & Hzero).
  split.
  - apply Hneg. lia.
  - apply Hzero. exists Sample.north, 1%Q, [0%Q]. split; [left |]; reflexivity.
Defined.

End SimilarityFacts.

(* ------------------------------------------------------------------ *)
(** ** The history preference miner *)
(* ------------------------------------------------------------------ *)

Module HistoryFacts.
Import PersonalizedAIService.

Lemma dict_get_update (k k' : string) (f : option Q -> Q) (d : list (string * Q)) :
  Py.dict_get String.eqb k' (Py.dict_update String.eqb k f d)
  = if String.eqb k' k then Some (f (Py.dict_get String.eqb k d))
    else Py.dict_get String.eqb k' d.
Proof.
  induction d as [| [k0 v] d IH]; simpl.
  - destruct (String.eqb k' k); reflexivity.
  - destruct (String.eqb k k0) eqn:E; simpl.
    + apply String.eqb_eq in E. subst k0.
      destruct (String.eqb k' k); reflexivity.
    + destruct (String.eqb k' k0) eqn:E'.
      * apply String.eqb_eq in E'. subst k0.
        destruct (String.eqb k' k) eqn:E''; [| reflexivity].
        apply String.eqb_eq in E''. subst. rewrite String.eqb_refl in E. discriminate.
      * exact IH.
Qed.

Lemma sum_fold (xs : list Q) (a : Q) : (List.fold_left Qplus xs a == a + Py.sum xs)%Q.
Proof.
  unfold Py.sum. revert a. induction xs as [| x xs IH]; intros a; simpl.
  - lra.
  - rewrite IH, (IH (0 + x)%Q). lra.
Qed.

Lemma sum_cons (x : Q) (xs : list Q) : (Py.sum (x :: xs) == x + Py.sum xs)%Q.
Proof. unfold Py.sum at 1. simpl. rewrite sum_fold. lra. Qed.

(** One item adds the outfit score to its colour, and to no other. *)
Lemma item_step_score (c : string) (s : Q) (r : option Z) (cats : list string)
      (t : Tally) (it : HistoryItem) :
  (score_of c (color_scores (snd (item_step s r (cats, t) it)))
   == score_of c (color_scores t)
      + s * inject_Z (Z.of_nat (occurrences c [it])))%Q.
Proof.
  unfold item_step, occurrences. simpl.
  set (col := history_color it).
  assert (Hkeep : forall t1 : Tally,
             color_scores
               (snd (let '(outfit_categories, t2) :=
                       if Py.truthy (Py.strip (Py.lower (Py.str_opt (h_category it))))
                       then (cats ++ [Py.strip (Py.lower (Py.str_opt (h_category it)))],
                             mkTally (color_scores t1) (category_combinations t1)
                                     (item_wear_count t1) (occasion_count t1)
                                     (t_color_ratings t1)
                                     (Py.dict_update String.eqb
                                        (Py.strip (Py.lower (Py.str_opt (h_category it))))
                                        (fun o => (match o with Some v => v | None => 0 end + 1)%Z)
                                        (t_category_wear_frequency t1)))
                       else (cats, t1) in
                     (outfit_categories,
                      if Py.truthy (Py.str_opt (h_id it))
                      then mkTally (color_scores t2) (category_combinations t2)
                                   (Py.dict_update String.eqb (Py.str_opt (h_id it))
                                      (fun o => (match o with Some v => v | None => 0 end + 1)%Z)
                                      (item_wear_count t2))
                                   (occasion_count t2) (t_color_ratings t2)
                                   (t_category_wear_frequency t2)
                      else t2)))
             = color_scores t1).
  { intros t1. destruct (Py.truthy (Py.strip _)); destruct (Py.truthy (Py.str_opt _));
      reflexivity. }
  rewrite Hkeep.
  destruct (color_counts col) eqn:Hc; simpl.
  - unfold score_of. rewrite dict_get_update.
    destruct (String.eqb c col) eqn:E; simpl.
    + apply String.eqb_eq in E. subst c.
      change (inject_Z (Z.of_nat 1)) with 1%Q.
      destruct (Py.dict_get String.eqb col (color_scores t)); lra.
    + change (inject_Z (Z.of_nat 0)) with 0%Q.
      destruct (Py.dict_get String.eqb c (color_scores t)); lra.
  - change (inject_Z (Z.of_nat 0)) with 0%Q. lra.
Qed.

Lemma occurrences_cons (c : string) (it : HistoryItem) (its : list HistoryItem) :
  occurrences c (it :: its) = (occurrences c [it] + occurrences c its)%nat.
Proof.
  unfold occurrences. simpl.
  destruct (color_counts (history_color it) && String.eqb c (history_color it)); reflexivity.
Qed.

Lemma items_fold_score (c : string) (s : Q) (r : option Z) (its : list HistoryItem)
      (cats : list string) (t : Tally) :
  (score_of c (color_scores (snd (List.fold_left (item_step s r) its (cats, t))))
   == score_of c (color_scores t) + s * inject_Z (Z.of_nat (occurrences c its)))%Q.
Proof.
  revert cats t. induction its as [| it its IH]; intros cats t.
  - simpl. change (inject_Z (Z.of_nat (occurrences c []))) with 0%Q. lra.
  - cbn [List.fold_left].
    destruct (item_step s r (cats, t) it) as [cats' t'] eqn:Hstep.
    rewrite IH. pose proof (item_step_score c s r cats t it) as H1.
    rewrite Hstep in H1. simpl in H1. rewrite H1.
    rewrite (occurrences_cons c it its), Nat2Z.inj_add, inject_Z_plus. ring.
Qed.

Lemma entry_step_score (c : string) (t : Tally) (e : HistoryEntry) :
  (score_of c (color_scores (entry_step t e))
   == score_of c (color_scores t)
      + outfit_score_of (is_favorite e) (rating e)
        * inject_Z (Z.of_nat (occurrences c (outfit_items e))))%Q.
Proof.
  unfold entry_step. destruct (outfit_items e) as [| it its] eqn:Hits.
  - change (inject_Z (Z.of_nat (occurrences c []))) with 0%Q. lra.
  - set (s := outfit_score_of _ _).
    set (t0 := mkTally _ _ _ _ _ _).
    pose proof (items_fold_score c s (rating e) (it :: its) [] t0) as H.
    destruct (List.fold_left (item_step s (rating e)) (it :: its) ([], t0)) as [cats t'].
    simpl in H.
    destruct (2 <=? List.length cats)%nat; simpl; exact H.
Qed.

Lemma tally_fold_score (c : string) (h : list HistoryEntry) (t : Tally) :
  (score_of c (color_scores (List.fold_left entry_step h t))
   == score_of c (color_scores t) + item_weighted_score c h)%Q.
Proof.
  revert t. induction h as [| e h IH]; intros t; cbn [List.fold_left].
  - unfold item_weighted_score, Py.sum. simpl. lra.
  - rewrite IH, entry_step_score. unfold item_weighted_score.
    cbn [List.map]. rewrite sum_cons. lra.
Qed.

(** C4, as stated, fails: an entry rated 2 with two red items gives red
    the score 4, not 2, and so puts red ahead of a blue worn once in an entry
    rated 3. *)
Lemma repeated_color_counts_per_item :
  (score_of "red" (color_scores (tally_history Sample.red_twice_then_blue)) == 4)%Q
  /\ (spec_color_score "red" Sample.red_twice_then_blue == 2)%Q
  /\ ~ (score_of "red" (color_scores (tally_history Sample.red_twice_then_blue))
        == spec_color_score "red" Sample.red_twice_then_blue)%Q
  /\ (spec_color_score "blue" Sample.red_twice_then_blue == 3)%Q
  /\ favorite_colors (_analyze_user_history Sample.red_twice_then_blue []) = ["red"; "blue"].
Proof.
  split; [reflexivity |]. split; [reflexivity |].
  split; [vm_compute; discriminate |]. split; reflexivity.
Qed.

(** C4, amended.  An entry scores 5.0 when it is a favorite, else its
    rating when that is present and not zero, else 3.0; entries without items
    are skipped.  The accumulated score of a colour is the sum, over the
    entries, of the entry's score once for every item of that colour in the
    entry (colours are compared in lower case and stripped; the empty colour,
    ["none"] and ["unknown"] are ignored).  The favorite colours are the
    first ten colours by descending accumulated score. *)
Theorem color_scores_accumulate_per_item (outfit_history : list HistoryEntry)
        (wardrobe_items : list Item) (c : string) :
  (forall e, In e outfit_history ->
     (is_favorite e = true ->
      outfit_score_of (is_favorite e) (rating e) = 5.0%Q)
     /\ (is_favorite e = false -> forall r, rating e = Some r -> r <> 0%Z ->
         outfit_score_of (is_favorite e) (rating e) = inject_Z r)
     /\ (is_favorite e = false -> rating e = None \/ rating e = Some 0%Z ->
         outfit_score_of (is_favorite e) (rating e) = 3.0%Q))
  /\ (score_of c (color_scores (tally_history outfit_history))
      == item_weighted_score c outfit_history)%Q
  /\ exists ranked,
       Permutation ranked (color_scores (tally_history outfit_history))
       /\ StronglySorted by_value_desc ranked
       /\ favorite_colors (_analyze_user_history outfit_history wardrobe_items)
          = List.map fst (List.firstn 10 ranked).
Proof.
  split; [| split].
  - intros e _. unfold outfit_score_of. repeat split.
    + now intros ->.
    + intros -> r -> Hr. apply Z.eqb_neq in Hr. now rewrite Hr.
    + intros -> [-> | ->]; reflexivity.
  - unfold tally_history. rewrite tally_fold_score. unfold score_of. simpl. lra.
  - exists (Py.sort_desc snd (color_scores (tally_history outfit_history))).
    split; [apply PyFacts.sort_desc_perm |].
    split; [apply (PyFacts.sort_desc_sorted (A := string * Q) snd) |].
    destruct outfit_history; reflexivity.
Qed.

Lemma color_scores_accumulate_per_item_witness :
  outfit_score_of false (Some 2%Z) = inject_Z 2
  /\ (score_of "red" (color_scores (tally_history Sample.red_twice_then_blue))
      == item_weighted_score "red" Sample.red_twice_then_blue)%Q.
Proof.
  destruct (color_scores_accumulate_per_item Sample.red_twice_then_blue [] "red") as (Hs & Hc & _).
  split; [| exact Hc].
  destruct (Hs (mkHistoryEntry [mkHistoryItem (Some "1") (Some "tops") (Some "Red");
                                mkHistoryItem (Some "2") (Some "bottoms") (Some "red")]
                               false (Some 2%Z) (Some "casual"))) as (_ & Hr & _).
  - left. reflexivity.
  - apply (Hr eq_refl 2%Z eq_refl). discriminate.
Defined.

End HistoryFacts.

(* ------------------------------------------------------------------ *)
(** ** The personalized re-ranker *)
(* ------------------------------------------------------------------ *)

Module RerankFacts.
Import PersonalizedAIService.

Lemma clamp_bounds (lo hi x : Q) : (lo <= hi)%Q -> (lo <= Py.clamp lo hi x <= hi)%Q.
Proof.
  intros H. unfold Py.clamp.
  destruct (Qle_bool lo x) eqn:E1.
  - apply Qle_bool_iff in E1. destruct (Qle_bool x hi) eqn:E2.
    + apply Qle_bool_iff in E2. split; assumption.
    + split; [exact H | apply Qle_refl].
  - destruct (Qle_bool lo hi) eqn:E2.
    + split; [apply Qle_refl | exact H].
    + split; [exact H | apply Qle_refl].
Qed.

Lemma personalized_score_bounds (o : Outfit) (p : Preferences) (occ : string) :
  (0 <= _calculate_personalized_score o p occ <= 100)%Q.
Proof.
  unfold _calculate_personalized_score.
  destruct (items o); [split; discriminate |].
  apply clamp_bounds. discriminate.
Qed.

Lemma fold_keeps_floor {A : Type} (f : Q -> A -> Q) (lo : Q) (xs : list A) (s : Q) :
  (forall s x, lo <= s -> lo <= f s x)%Q ->
  (lo <= s)%Q -> (lo <= List.fold_left f xs s)%Q.
Proof.
  intros Hf. revert s. induction xs as [| x xs IH]; intros s Hs; simpl; [exact Hs |].
  apply IH, Hf, Hs.
Qed.

(** The base score lies between 50 and 100. *)
Lemma style_score_bounds (its : list Item) (w : option OutfitService.Weather)
      (occ : string) :
  (50 <= _calculate_style_score its w occ <= 100)%Q.
Proof.
  unfold _calculate_style_score.
  set (s1 := match lowered color its with [] => _ | _ => _ end).
  assert (H1 : (50 <= s1)%Q).
  { unfold s1. destruct (lowered color its); [lra |].
    destruct (_ <=? 2)%nat; lra. }
  set (s2 := match w with Some _ => _ | None => _ end).
  assert (H2 : (50 <= s2)%Q).
  { unfold s2. destruct w as [w' |]; [| exact H1].
    destruct (Py.Qlt_bool _ 10); [destruct (List.existsb _ _); lra |].
    destruct (Py.Qlt_bool 25 _); [destruct (List.existsb _ _); lra | exact H1]. }
  set (s3 := match occasion_keywords (Py.lower occ) with Some _ => _ | None => _ end).
  assert (H3 : (50 <= s3)%Q).
  { unfold s3. destruct (occasion_keywords (Py.lower occ)); [| exact H2].
    apply fold_keeps_floor; [| exact H2].
    intros s x Hs. destruct (Py.any_in _ _); lra. }
  destruct (Qle_bool s3 100.0) eqn:E.
  - apply Qle_bool_iff in E. split; lra.
  - split; lra.
Qed.

(** Every base candidate is fresh: it carries its style score and no
    personalized or combined score yet. *)
Lemma base_candidates_fresh (cz : Categories) (w : option OutfitService.Weather)
      (occ : string) (b : Outfit) :
  In b (_create_outfit_combinations cz w occ) ->
  combined_score b = None /\ personalized_score b = None
  /\ style_score b = _calculate_style_score (items b) w occ.
Proof.
  unfold _create_outfit_combinations. intros Hin.
  eapply Permutation_in in Hin; [| apply PyFacts.sort_desc_perm].
  apply List.in_app_or in Hin. destruct Hin as [Hin | Hin].
  - apply List.in_flat_map in Hin. destruct Hin as (t & _ & Hin).
    apply List.in_flat_map in Hin. destruct Hin as (bt & _ & Hin).
    apply List.in_map_iff in Hin. destruct Hin as (sh & <- & _). auto.
  - apply List.in_flat_map in Hin. destruct Hin as (d & _ & Hin).
    apply List.in_map_iff in Hin. destruct Hin as (sh & <- & _). auto.
Qed.

Lemma map_sorted {A B : Type} (f : A -> B) (R : A -> A -> Prop) (S : B -> B -> Prop)
      (l : list A) :
  (forall a b, R a b -> S (f a) (f b)) ->
  StronglySorted R l -> StronglySorted S (List.map f l).
Proof.
  intros Hf. induction 1 as [| a l Hs IH Hall]; simpl; constructor; [exact IH |].
  apply List.Forall_map. eapply List.Forall_impl; [| exact Hall]. intros b. apply Hf.
Qed.

(** C5.  When the profile holds a favorite colour, every candidate gets a
    personalized score within [0, 100], its ranking score is 0.4 times its
    base score (itself within [0, 100]) plus 0.6 times its personalized score, the
    candidates are sorted again by descending ranking score and
    personalization is flagged active.  When it holds none, the candidates
    stay ranked by their base score and personalization is flagged
    inactive. *)
Theorem personalized_ranking (wardrobe_items : list Item)
        (weather_data : option OutfitService.Weather) (occasion : string)
        (style_preferences specific_items : list string)
        (user_preferences : Preferences) :
  let base := base_candidates wardrobe_items weather_data occasion specific_items in
  let r := _generate_recommendations wardrobe_items weather_data occasion
                                     style_preferences specific_items
                                     (Some user_preferences) in
  StronglySorted by_style_desc base
  /\ total_combinations r = List.length base
  /\ (favorite_colors user_preferences <> [] ->
      personalization_active r = Some true
      /\ List.Forall
           (fun b =>
              let o := personalize user_preferences occasion b in
              exists ps,
                personalized_score o = Some ps
                /\ (0 <= ps <= 100)%Q
                /\ (0 <= style_score b <= 100)%Q
                /\ combined_score o = Some (style_score b * 0.4 + ps * 0.6)%Q
                /\ ranking_score o = (style_score b * 0.4 + ps * 0.6)%Q)
           base
      /\ exists ranked,
           Permutation ranked (List.map (personalize user_preferences occasion) base)
           /\ StronglySorted by_ranking_desc ranked
           /\ outfits r = List.firstn 5 ranked)
  /\ (favorite_colors user_preferences = [] ->
      personalization_active r = Some false
      /\ outfits r = List.firstn 5 (List.map mark_default base)
      /\ StronglySorted by_ranking_desc (List.map mark_default base)
      /\ List.Forall (fun b => ranking_score (mark_default b) = style_score b) base).
Proof.
  intros base r.
  assert (Hfresh : forall b, In b base ->
            combined_score b = None /\ personalized_score b = None
            /\ style_score b = _calculate_style_score (items b) weather_data occasion).
  { intros b. apply base_candidates_fresh. }
  assert (Hsorted : StronglySorted by_style_desc base).
  { apply (PyFacts.sort_desc_sorted style_score). }
  split; [exact Hsorted |].
  split.
  { unfold r, _generate_recommendations, has_favorites. simpl.
    fold (selected specific_items wardrobe_items).
    fold (base_candidates wardrobe_items weather_data occasion specific_items). fold base.
    destruct (favorite_colors user_preferences);
      [now rewrite List.length_map | now rewrite PyFacts.sort_desc_length, List.length_map]. }
  split.
  - intros Hfav.
    assert (Hhas : has_favorites (Some user_preferences) = true).
    { unfold has_favorites. destruct (favorite_colors user_preferences); congruence. }
    unfold r, _generate_recommendations. rewrite Hhas. simpl.
    fold (selected specific_items wardrobe_items).
    fold (base_candidates wardrobe_items weather_data occasion specific_items). fold base.
    split; [reflexivity |]. split.
    + apply List.Forall_forall. intros b Hb. simpl.
      exists (_calculate_personalized_score b user_preferences occasion).
      split; [reflexivity |]. split; [apply personalized_score_bounds |].
      split; [| split; reflexivity].
      destruct (Hfresh b Hb) as (_ & _ & ->).
      pose proof (style_score_bounds (items b) weather_data occasion) as Hb'.
      split; lra.
    + exists (Py.sort_desc ranking_score
                (List.map (personalize user_preferences occasion) base)).
      split; [apply PyFacts.sort_desc_perm |].
      split; [apply (PyFacts.sort_desc_sorted ranking_score) | reflexivity].
  - intros Hnone.
    assert (Hhas : has_favorites (Some user_preferences) = false).
    { unfold has_favorites. now rewrite Hnone. }
    unfold r, _generate_recommendations. rewrite Hhas. simpl.
    fold (selected specific_items wardrobe_items).
    fold (base_candidates wardrobe_items weather_data occasion specific_items). fold base.
    assert (Hrank : List.Forall (fun b => ranking_score (mark_default b) = style_score b) base).
    { apply List.Forall_forall. intros b Hb. destruct (Hfresh b Hb) as (Hc & _).
      unfold ranking_score, mark_default. simpl. now rewrite Hc. }
    repeat split; [| exact Hrank].
    rewrite List.Forall_forall in Hrank.
    clear Hhas. induction Hsorted as [| a l Hs IH Hall]; simpl; constructor.
    + apply IH; intros b Hb; [apply Hfresh | apply Hrank]; now right.
    + apply List.Forall_map. apply List.Forall_forall. intros b Hb.
      unfold by_ranking_desc. rewrite (Hrank a), (Hrank b) by (simpl; auto).
      rewrite List.Forall_forall in Hall. now apply Hall.
Qed.

Lemma personalized_ranking_witness :
  personalization_active
    (_generate_recommendations Sample.small_wardrobe None "casual" [] [] (Some Sample.navy_lover))
  = Some true
  /\ personalization_active
       (_generate_recommendations Sample.small_wardrobe None "casual" [] []
                                  (Some empty_preferences))
     = Some false.
Proof.
  split.
  - apply (personalized_ranking Sample.small_wardrobe None "casual" [] [] Sample.navy_lover).
    discriminate.
  - apply (personalized_ranking Sample.small_wardrobe None "casual" [] [] empty_preferences).
    reflexivity.
Defined.

(** On the sample wardrobe the navy shirt overtakes the red one. *)
Example rerank_sample :
  List.map (fun o => List.map item_id (items o))
           (outfits (_generate_recommendations Sample.small_wardrobe None "casual" [] []
                                               (Some Sample.navy_lover)))
  = [["1"; "2"; "4"]; ["3"; "2"; "4"]].
Proof. vm_compute. reflexivity. Qed.

End RerankFacts.

(* ------------------------------------------------------------------ *)
(** ** The recommendation entry point on an empty wardrobe *)
(* ------------------------------------------------------------------ *)

Module EntryPointFacts.
Import PersonalizedAIService.

(** For a user with an empty wardrobe the service returns a dictionary
    whose [success] is false. *)
Lemma service_fails_soft (w : World) (user_id : string) (location occasion : option string)
      (specific_items : list string) :
  wardrobe_empty w user_id ->
  exists r,
    PersonalizedAIService.get_personalized_recommendations
      w user_id location occasion specific_items = Py.Return r
    /\ success r = false
    /\ recommendations r = None.
Proof.
  intros [Hoid Hstr]. unfold PersonalizedAIService.get_personalized_recommendations.
  destruct (get_database w); [| simpl; eauto].
  destruct (users_find_one w user_id) as [[user |] |]; [| simpl; eauto | simpl; eauto].
  unfold or_else.
  destruct (clothing_items_by_oid w user_id) as [its | ex] eqn:E1.
  - rewrite (Hoid _ eq_refl). simpl. eauto.
  - destruct (clothing_items_by_str w user_id) as [its | ex'] eqn:E2.
    + rewrite (Hstr _ eq_refl). simpl. eauto.
    + simpl. eauto.
Qed.

(** C6.  For a user whose wardrobe holds no item the entry point returns,
    without raising, a response whose [success] is false and whose list of
    outfits is empty, whatever the wardrobes of the other users hold. *)
Theorem empty_wardrobe_fails_soft (w : World) (current_user location occasion : option string)
        (include_items : list string) :
  (forall user_id, current_user = Some user_id -> wardrobe_empty w user_id) ->
  exists r,
    Routes.get_personalized_recommendations w current_user location occasion include_items
    = Py.Return r
    /\ success r = false
    /\ exists recs, recommendations r = Some recs
                    /\ outfits recs = [] /\ total_combinations recs = 0%nat.
Proof.
  intros Hw. unfold Routes.get_personalized_recommendations.
  destruct current_user as [uid |]; simpl.
  - destruct (service_fails_soft w uid location occasion include_items (Hw uid eq_refl))
      as (r & -> & Hs & _).
    simpl. rewrite Hs. simpl.
    destruct (Py.contains "No clothing items" _ || Py.contains "wardrobe" _);
      eexists; (split; [reflexivity |]); simpl; eauto.
  - eexists. split; [reflexivity |]. simpl. eauto.
Qed.

Lemma empty_wardrobe_fails_soft_witness :
  exists r,
    Routes.get_personalized_recommendations Sample.bobs_world (Some "ada") None (Some "casual") []
    = Py.Return r
    /\ success r = false
    /\ exists recs, recommendations r = Some recs
                    /\ outfits recs = [] /\ total_combinations recs = 0%nat.
Proof.
  apply (empty_wardrobe_fails_soft Sample.bobs_world (Some "ada") None (Some "casual") []).
  intros user_id [= <-]. split; intros its [= <-]; reflexivity.
Defined.

(** In the same world "bob", who owns a wardrobe, is served. *)
Example stocked_neighbour_is_served :
  match Routes.get_personalized_recommendations
          Sample.bobs_world (Some "bob") None (Some "casual") [] with
  | Py.Return r => success r
  | Py.Raise _ => false
  end = true.
Proof. vm_compute. reflexivity. Qed.

(** The response for the sample world names the cause. *)
Example empty_wardrobe_response :
  match Routes.get_personalized_recommendations
          Sample.bare_world (Some "ada") None (Some "casual") [] with
  | Py.Return r => (success r, error r, suggestion r)
  | Py.Raise _ => (true, None, None)
  end
  = (false, Some "No clothing items in wardrobe",
     Some "Add some items to your wardrobe first!").
Proof. vm_compute. reflexivity. Qed.

End EntryPointFacts.

(* ------------------------------------------------------------------ *)
(** ** Enrichment of wardrobe documents *)
(* ------------------------------------------------------------------ *)

Module EnrichmentFacts.
Import OutfitService.

Lemma truthy_lower (s : string) : Py.truthy (Py.lower s) = Py.truthy s.
Proof. destruct s; reflexivity. Qed.

Lemma first_keyword_hit_label (table : list (list string * string)) (name label : string) :
  first_keyword_hit table name = Some label -> In label (List.map snd table).
Proof.
  induction table as [| [words l] table IH]; simpl; [discriminate |].
  destruct (Py.any_in words name).
  - intros [= <-]. now left.
  - intros H. right. now apply IH.
Qed.

Lemma detect_category_truthy (item : Item) : Py.truthy (_detect_category item) = true.
Proof.
  unfold _detect_category.
  destruct (first_keyword_hit detect_table (Py.lower (item_name item))) as [l |] eqn:E;
    [| reflexivity].
  apply first_keyword_hit_label in E. simpl in E.
  repeat (destruct E as [<- | E]; [reflexivity |]). destruct E.
Qed.

Lemma detect_subcategory_truthy (item : Item) :
  Py.truthy (_detect_subcategory item) = true.
Proof.
  unfold _detect_subcategory.
  repeat match goal with |- context [if ?b then _ else _] => destruct b end; reflexivity.
Qed.

Lemma detect_formality_truthy (item : Item) : Py.truthy (_detect_formality item) = true.
Proof.
  unfold _detect_formality.
  repeat match goal with |- context [if ?b then _ else _] => destruct b end; reflexivity.
Qed.

Lemma detect_seasonality_nonempty (item : Item) : _detect_seasonality item <> [].
Proof.
  unfold _detect_seasonality.
  repeat match goal with |- context [if ?b then _ else _] => destruct b end;
    simpl; discriminate.
Qed.

Lemma standardize_truthy (c : string) :
  Py.truthy c = true -> Py.truthy (_standardize_color c) = true.
Proof.
  intros H. destruct (ColorFacts.standardize_cases c) as [Hc | [_ ->]].
  - unfold canonical_colors in Hc. simpl in Hc.
    repeat (destruct Hc as [<- | Hc]; [reflexivity |]). destruct Hc.
  - now rewrite truthy_lower.
Qed.

Lemma standardize_idem (c : string) :
  _standardize_color (_standardize_color c) = _standardize_color c.
Proof.
  destruct (ColorFacts.standardize_cases c) as [Hc | [Hnone Heq]].
  - now apply ColorFacts.canonical_fixed.
  - rewrite Heq. unfold _standardize_color, _standardize_color_with.
    now rewrite PyFacts.lower_idem, Hnone.
Qed.

Lemma standardize_empty : _standardize_color "" = "".
Proof. reflexivity. Qed.

Lemma process_enriched (item : Item) : enriched (_process_clothing_item item).
Proof.
  unfold enriched, _process_clothing_item. simpl. repeat split.
  - destruct (Py.truthy (category item)) eqn:E; [exact E | apply detect_category_truthy].
  - destruct (Py.truthy (subcategory item)) eqn:E;
      [exact E | apply detect_subcategory_truthy].
  - destruct (Py.truthy (formality item)) eqn:E;
      [exact E | apply detect_formality_truthy].
  - destruct (season item) eqn:E; [apply detect_seasonality_nonempty | discriminate].
  - destruct (Py.truthy (color item)) eqn:E; [apply standardize_idem |].
    destruct (color item); [reflexivity | discriminate].
  - destruct (Py.truthy (material item)) eqn:E; [apply PyFacts.lower_idem |].
    destruct (material item); [reflexivity | discriminate].
Qed.

(** An enriched item is left as it is, up to the identifier taken from
    [_id]. *)
Lemma process_of_enriched (item : Item) :
  enriched item ->
  _process_clothing_item item
  = mkItem (match item__id item with Some oid => oid | None => item_id item end)
           (item__id item) (item_name item) (description item) (category item)
           (subcategory item) (color item) (material item) (formality item)
           (season item) (item_type item) (embedding item).
Proof.
  intros (Hc & Hs & Hf & Hse & Hcol & Hm). unfold _process_clothing_item.
  rewrite Hc, Hs, Hf, Hcol, Hm.
  destruct (season item); [congruence |].
  destruct (Py.truthy (color item)), (Py.truthy (material item)); reflexivity.
Qed.

(** X1.  [_process_clothing_item] is idempotent: processing a processed
    document changes nothing. *)
Theorem process_clothing_item_idempotent (item : Item) :
  _process_clothing_item (_process_clothing_item item) = _process_clothing_item item.
Proof.
  rewrite (process_of_enriched (_process_clothing_item item) (process_enriched item)).
  unfold _process_clothing_item. simpl.
  destruct (item__id item); reflexivity.
Qed.

(** X2.  Every document of [get_user_wardrobe] has a category, a
    subcategory, a formality and a season, a colour that is a fixed point of
    [_standardize_color] and a material in lower case; the fields that were
    set in the stored document (category, subcategory, formality, season) are
    the stored ones. *)
Theorem wardrobe_documents_enriched (find_clothing_items : string -> list Item)
        (user_id : string) :
  List.Forall enriched (get_user_wardrobe find_clothing_items user_id)
  /\ List.Forall2
       (fun stored item =>
          (Py.truthy (category stored) = true -> category item = category stored)
          /\ (Py.truthy (subcategory stored) = true -> subcategory item = subcategory stored)
          /\ (Py.truthy (formality stored) = true -> formality item = formality stored)
          /\ (season stored <> [] -> season item = season stored)
          /\ item_name item = item_name stored
          /\ embedding item = embedding stored)
       (find_clothing_items user_id) (get_user_wardrobe find_clothing_items user_id).
Proof.
  unfold get_user_wardrobe. split.
  - apply List.Forall_forall. intros it Hin. apply List.in_map_iff in Hin.
    destruct Hin as (raw & <- & _). apply process_enriched.
  - induction (find_clothing_items user_id) as [| raw l IH]; simpl; constructor; [| exact IH].
    unfold _process_clothing_item. simpl. repeat split.
    + now intros ->.
    + now intros ->.
    + now intros ->.
    + destruct (season raw); [congruence | reflexivity].
Qed.

End EnrichmentFacts.

(* ------------------------------------------------------------------ *)
(** ** The buckets partition the wardrobe *)
(* ------------------------------------------------------------------ *)

Module PartitionFacts.

(** Appending [x] to one of several lists adds [x] to their concatenation. *)
Lemma concat_insert {A : Type} (before : list (list A)) (b : list A)
      (after : list (list A)) (x : A) :
  Permutation (List.concat (before ++ (b ++ [x]) :: after))
              (x :: List.concat (before ++ b :: after)).
Proof.
  rewrite !List.concat_app. simpl.
  rewrite <- List.app_assoc. simpl.
  rewrite List.app_assoc.
  apply Permutation_sym. apply Permutation_cons_app.
  rewrite <- List.app_assoc. apply Permutation_refl.
Qed.

Lemma outfit_step_partition (c : OutfitService.Categorized) (item : Item) :
  Permutation (OutfitService.all_buckets (OutfitService.categorize_item c item))
              (item :: OutfitService.all_buckets c)
  /\ (incl (OutfitService.warnings c) (OutfitService.tops c) ->
      incl (OutfitService.warnings (OutfitService.categorize_item c item))
           (OutfitService.tops (OutfitService.categorize_item c item))).
Proof.
  unfold OutfitService.categorize_item, OutfitService.all_buckets.
  repeat match goal with |- context [if ?b then _ else _] => destruct b end;
    (split;
     [ cbn [OutfitService.tops OutfitService.bottoms OutfitService.dresses
            OutfitService.outerwear OutfitService.shoes OutfitService.accessories];
       first
         [ apply (concat_insert [] _ _ item)
         | apply (concat_insert [_] _ _ item)
         | apply (concat_insert [_; _] _ _ item)
         | apply (concat_insert [_; _; _] _ _ item)
         | apply (concat_insert [_; _; _; _] _ _ item)
         | apply (concat_insert [_; _; _; _; _] _ _ item) ]
     | simpl; intros Hw x Hx;
       first
         [ now apply Hw
         | apply List.in_or_app; left; now apply Hw
         | apply List.in_app_or in Hx; apply List.in_or_app;
           destruct Hx as [Hx | Hx]; [left; now apply Hw | now right] ] ]).
Qed.

Lemma outfit_fold_partition (items : list Item) (c : OutfitService.Categorized) :
  Permutation (OutfitService.all_buckets (List.fold_left OutfitService.categorize_item items c))
              (OutfitService.all_buckets c ++ items)
  /\ (incl (OutfitService.warnings c) (OutfitService.tops c) ->
      incl (OutfitService.warnings (List.fold_left OutfitService.categorize_item items c))
           (OutfitService.tops (List.fold_left OutfitService.categorize_item items c))).
Proof.
  revert c. induction items as [| item items IH]; intros c; simpl.
  - rewrite List.app_nil_r. split; [apply Permutation_refl | auto].
  - destruct (IH (OutfitService.categorize_item c item)) as [Hp Hw].
    destruct (outfit_step_partition c item) as [Hp1 Hw1]. split.
    + eapply perm_trans; [exact Hp |].
      eapply perm_trans; [apply Permutation_app_tail, Hp1 |].
      simpl. apply Permutation_cons_app. apply Permutation_refl.
    + auto.
Qed.

(** X3.  [OutfitService._categorize_items] files every item under exactly
    one bucket: the six buckets together are a rearrangement of the wardrobe.
    The items it warns about are among the tops. *)
Theorem categorize_items_partition (items : list Item) :
  Permutation (OutfitService.all_buckets (OutfitService._categorize_items items)) items
  /\ incl (OutfitService.warnings (OutfitService._categorize_items items))
          (OutfitService.tops (OutfitService._categorize_items items)).
Proof.
  destruct (outfit_fold_partition items OutfitService.empty_categorized) as [Hp Hw].
  split; [exact Hp |]. apply Hw. intros x [].
Qed.

Lemma personalized_step_partition (c : PersonalizedAIService.Categories) (item : Item) :
  Permutation
    (PersonalizedAIService.all_buckets (PersonalizedAIService.categorize_item c item))
    (item :: PersonalizedAIService.all_buckets c).
Proof.
  unfold PersonalizedAIService.categorize_item, PersonalizedAIService.all_buckets.
  repeat match goal with |- context [if ?b then _ else _] => destruct b end;
    cbn [PersonalizedAIService.tops PersonalizedAIService.bottoms
         PersonalizedAIService.dresses PersonalizedAIService.outerwear
         PersonalizedAIService.shoes PersonalizedAIService.accessories];
    first
      [ apply (concat_insert [] _ _ item)
      | apply (concat_insert [_] _ _ item)
      | apply (concat_insert [_; _] _ _ item)
      | apply (concat_insert [_; _; _] _ _ item)
      | apply (concat_insert [_; _; _; _] _ _ item)
      | apply (concat_insert [_; _; _; _; _] _ _ item) ].
Qed.

Lemma personalized_fold_partition (items : list Item)
      (c : PersonalizedAIService.Categories) :
  Permutation
    (PersonalizedAIService.all_buckets
       (List.fold_left PersonalizedAIService.categorize_item items c))
    (PersonalizedAIService.all_buckets c ++ items).
Proof.
  revert c. induction items as [| item items IH]; intros c; simpl.
  - rewrite List.app_nil_r. apply Permutation_refl.
  - eapply perm_trans; [apply IH |].
    eapply perm_trans; [apply Permutation_app_tail, personalized_step_partition |].
    simpl. apply Permutation_cons_app. apply Permutation_refl.
Qed.

(** X4.  [PersonalizedAIService._categorize_items] files every item under
    exactly one bucket as well. *)
Theorem personalized_categorize_items_partition (items : list Item) :
  Permutation
    (PersonalizedAIService.all_buckets (PersonalizedAIService._categorize_items items))
    items.
Proof.
  apply (personalized_fold_partition items (PersonalizedAIService.mkCategories [] [] [] [] [] [])).
Qed.

End PartitionFacts.

(* ------------------------------------------------------------------ *)
(** ** What the generator draws *)
(* ------------------------------------------------------------------ *)

Module DrawFacts.
Import OutfitService.

Section Draws.
Context {Rng : Type}.
Variable random : Rng -> Q * Rng.
Variable randbelow : Z -> Rng -> Z * Rng.

Lemma always_ret {A : Type} (a : A) (Q : A -> Prop) :
  Q a -> always (ret (Rng := Rng) a) Q.
Proof. intros H g. exact H. Qed.

Lemma always_bind {A B : Type} (m : M A) (k : A -> M B) (Q1 : A -> Prop) (Q2 : B -> Prop) :
  always m Q1 -> (forall a, Q1 a -> always (k a) Q2) ->
  always (bind (Rng := Rng) m k) Q2.
Proof.
  intros Hm Hk g. unfold bind. specialize (Hm g).
  destruct (m g) as [a g']. apply Hk. exact Hm.
Qed.

Lemma always_weaken {A : Type} (m : M (Rng := Rng) A) (Q1 Q2 : A -> Prop) :
  always m Q1 -> (forall a, Q1 a -> Q2 a) -> always m Q2.
Proof. intros Hm H g. apply H, Hm. Qed.

Lemma always_trivial {A : Type} (m : M (Rng := Rng) A) : always m (fun _ => True).
Proof. intros g. exact I. Qed.

(** [random.choice] returns an element of a non-empty sequence. *)
Lemma choice_in (seq : list Item) :
  seq <> [] -> always (choice randbelow seq) (fun x => In x seq).
Proof.
  intros Hne g. unfold choice, bind, ret.
  destruct (randbelow (Z.of_nat (List.length seq)) g) as [i g']. simpl.
  apply List.nth_In.
  assert (0 < List.length seq)%nat by (destruct seq; [congruence | simpl; lia]).
  pose proof (Z.mod_pos_bound i (Z.of_nat (List.length seq))). lia.
Qed.

Lemma coin_nonempty (seq : list Item) (p : Q) :
  always (coin random seq p) (fun c => c = true -> seq <> []).
Proof.
  intros g. unfold coin. destruct seq; simpl; [discriminate |].
  intros _. discriminate.
Qed.

(** [random.randint(a, b)] stays within its bounds. *)
Lemma randint_bounds (a b : Z) :
  (a <= b)%Z -> always (randint randbelow a b) (fun r => (a <= r <= b)%Z).
Proof.
  intros Hab g. unfold randint, bind, ret.
  destruct (randbelow (b - a + 1)%Z g) as [i g']. simpl.
  pose proof (Z.mod_pos_bound i (b - a + 1)%Z). lia.
Qed.

(** [random.sample] returns at most [k] elements of the population. *)
Lemma sample_in (P : Item -> Prop) (k : nat) (population : list Item) :
  List.Forall P population ->
  always (sample randbelow population k)
         (fun chosen => List.Forall P chosen /\ (List.length chosen <= k)%nat).
Proof.
  revert population. induction k as [| k IH]; intros population HP g.
  - simpl. split; [constructor | lia].
  - destruct (sample randbelow population (S k) g) as [chosen gf] eqn:Hs.
    cbn [fst]. cbn [sample] in Hs. unfold bind, ret in Hs.
    destruct (randbelow (Z.of_nat (List.length population)) g) as [j g'].
    set (j' := Z.to_nat (j mod Z.of_nat (List.length population))) in *.
    set (pool := match population !! (List.length population - 1)%nat with
                 | Some last => _
                 | None => population
                 end) in *.
    assert (Hpool : List.Forall P pool).
    { unfold pool.
      destruct (population !! (List.length population - 1)%nat) as [last |] eqn:El;
        [| exact HP].
      apply List.Forall_forall. intros x Hx. apply PyFacts.firstn_In in Hx.
      rewrite List.Forall_forall in HP.
      apply list_elem_of_In, list_elem_of_lookup in Hx. destruct Hx as [n Hn].
      destruct (decide (n = j')) as [-> | Hne].
      - destruct (decide (j' < List.length population)%nat) as [Hlt | Hge].
        + rewrite list_lookup_insert_eq in Hn by exact Hlt. injection Hn as <-.
          apply HP, list_elem_of_In, list_elem_of_lookup. eauto.
        + rewrite list_insert_ge in Hn by lia.
          apply HP, list_elem_of_In, list_elem_of_lookup. eauto.
      - rewrite list_lookup_insert_ne in Hn by congruence.
        apply HP, list_elem_of_In, list_elem_of_lookup. eauto. }
    specialize (IH pool Hpool g').
    destruct (sample randbelow pool k g') as [rest g'']. cbn [fst] in IH.
    destruct IH as [Hrest Hlen].
    destruct (population !! j') as [x |] eqn:Ex; injection Hs as <- _.
    + split; [| simpl; lia]. constructor; [| exact Hrest].
      rewrite List.Forall_forall in HP.
      apply HP, list_elem_of_In, list_elem_of_lookup. eauto.
    + split; [exact Hrest | lia].
Qed.

(** *** The two strategies *)

Section Strategies.
Variable categorized : Categorized.

Lemma bucket_from_buckets (x : Item) :
  In x (tops categorized) \/ In x (bottoms categorized) \/ In x (dresses categorized)
  \/ In x (outerwear categorized) \/ In x (shoes categorized)
  \/ In x (accessories categorized) ->
  from_buckets categorized x.
Proof.
  unfold from_buckets, all_buckets. simpl. rewrite !List.in_app_iff. tauto.
Qed.

Lemma acc_ok_S (n : nat) (acc : list Item * gset string) : acc_ok categorized n acc -> acc_ok categorized (S n) acc.
Proof. intros [H1 H2]. split; [exact H1 | lia]. Qed.

Lemma choose_into_ok (bucket : list Item) (acc : list Item * gset string) (n : nat) :
  bucket <> [] -> (forall x, In x bucket -> from_buckets categorized x) -> acc_ok categorized n acc ->
  always (choose_into randbelow bucket acc) (acc_ok categorized (S n)).
Proof.
  intros Hne Hb [Hall Hlen]. unfold choose_into.
  eapply always_bind; [apply (choice_in bucket Hne) |].
  intros x Hx. apply always_ret. split; simpl.
  - apply List.Forall_app. split; [exact Hall |]. constructor; [now apply Hb | constructor].
  - rewrite List.length_app. simpl. lia.
Qed.

(** [if seq: x = random.choice(seq); ...] *)
Lemma choose_if_any_ok (bucket : list Item) (acc : list Item * gset string) (n : nat) :
  (forall x, In x bucket -> from_buckets categorized x) -> acc_ok categorized n acc ->
  always (match bucket with [] => ret acc | _ => choose_into randbelow bucket acc end)
         (acc_ok categorized (S n)).
Proof.
  intros Hb Hacc. destruct bucket as [| b bucket'] eqn:E.
  - apply always_ret, acc_ok_S, Hacc.
  - apply choose_into_ok; [discriminate | exact Hb | exact Hacc].
Qed.

(** [if seq and random.random() < p: x = random.choice(seq); ...] *)
Lemma choose_on_coin_ok (bucket : list Item) (p : Q) (acc : list Item * gset string)
      (n : nat) :
  (forall x, In x bucket -> from_buckets categorized x) -> acc_ok categorized n acc ->
  always (bind (coin random bucket p)
               (fun c => if c then choose_into randbelow bucket acc else ret acc))
         (acc_ok categorized (S n)).
Proof.
  intros Hb Hacc. eapply always_bind; [apply coin_nonempty |].
  intros [|] Hc.
  - apply choose_into_ok; [now apply Hc | exact Hb | exact Hacc].
  - apply always_ret, acc_ok_S, Hacc.
Qed.

Lemma dress_strategy_ok :
  dresses categorized <> [] ->
  always (dress_strategy random randbelow categorized)
         (fun items => List.Forall (from_buckets categorized) items /\ (List.length items <= 4)%nat).
Proof.
  intros Hd. unfold dress_strategy.
  eapply always_bind.
  { apply (choose_into_ok (dresses categorized) ([], ∅) 0 Hd).
    - intros x Hx. apply bucket_from_buckets. tauto.
    - split; [constructor | simpl; lia]. }
  intros acc1 H1. eapply always_bind.
  { apply (choose_if_any_ok (shoes categorized) acc1 1); [| exact H1].
    intros x Hx. apply bucket_from_buckets. tauto. }
  intros acc2 H2. eapply always_bind; [apply coin_nonempty |].
  intros c Hc. eapply always_bind with (Q1 := acc_ok categorized 3).
  { destruct c.
    - apply choose_into_ok; [now apply Hc | | exact H2].
      intros x Hx. apply bucket_from_buckets. tauto.
    - apply always_ret, acc_ok_S, H2. }
  intros acc3 [H3 L3]. eapply always_bind; [apply coin_nonempty |].
  intros [|] Ha.
  - eapply always_bind; [apply (choice_in (accessories categorized)); now apply Ha |].
    intros x Hx. apply always_ret. split.
    + apply List.Forall_app. split; [exact H3 |].
      constructor; [apply bucket_from_buckets; tauto | constructor].
    + rewrite List.length_app. simpl. lia.
  - apply always_ret. split; [exact H3 | lia].
Qed.

Lemma separates_strategy_ok (occasion : string) :
  always (separates_strategy random randbelow categorized occasion)
         (fun items => List.Forall (from_buckets categorized) items /\ (List.length items <= 6)%nat).
Proof.
  unfold separates_strategy.
  eapply always_bind.
  { apply (choose_if_any_ok (tops categorized) ([], ∅) 0).
    - intros x Hx. apply bucket_from_buckets. tauto.
    - split; [constructor | simpl; lia]. }
  intros acc1 H1. eapply always_bind.
  { apply (choose_if_any_ok (bottoms categorized) acc1 1); [| exact H1].
    intros x Hx. apply bucket_from_buckets. tauto. }
  intros acc2 H2. eapply always_bind; [apply coin_nonempty |].
  intros c Hc. eapply always_bind with (Q1 := acc_ok categorized 3).
  { destruct c.
    - apply choose_into_ok; [now apply Hc | | exact H2].
      intros x Hx. apply bucket_from_buckets. tauto.
    - apply always_ret, acc_ok_S, H2. }
  intros acc3 H3. eapply always_bind; [apply coin_nonempty |].
  intros c' Hc'. eapply always_bind with (Q1 := acc_ok categorized 4).
  { destruct c'.
    - apply choose_into_ok; [now apply Hc' | | exact H3].
      intros x Hx. apply bucket_from_buckets. tauto.
    - apply always_ret, acc_ok_S, H3. }
  intros acc4 [H4 L4]. eapply always_bind; [apply coin_nonempty |].
  intros [|] Ha; [| apply always_ret; split; [exact H4 | lia]].
  assert (Hacc : accessories categorized <> []) by now apply Ha.
  set (available := List.filter _ (accessories categorized)).
  assert (Hav : List.Forall (from_buckets categorized) available).
  { apply List.Forall_forall. intros x Hx. apply List.filter_In in Hx.
    apply bucket_from_buckets. tauto. }
  destruct available as [| a rest] eqn:Eav; [apply always_ret; split; [exact H4 | lia] |].
  eapply always_bind.
  { apply randint_bounds.
    assert (1 <= Z.of_nat (List.length (accessories categorized)))%Z.
    { destruct (accessories categorized); [congruence | simpl List.length; lia]. }
    simpl List.length. lia. }
  intros num Hnum. eapply always_bind; [apply (sample_in (from_buckets categorized) _ _ Hav) |].
  intros chosen [Hch Lch]. apply always_ret. split.
  - apply List.Forall_app. split; assumption.
  - rewrite List.length_app. cbv beta in Hnum. lia.
Qed.

Lemma create_outfit_ok (occasion : string) :
  always (_create_outfit_from_categories random randbelow categorized occasion)
         (fun r => forall o, r = Some o -> created_from categorized occasion o).
Proof.
  unfold _create_outfit_from_categories.
  eapply always_bind; [apply coin_nonempty |].
  intros dress Hd.
  eapply always_bind
    with (Q1 := fun its => List.Forall (from_buckets categorized) its
                           /\ (List.length its <= 6)%nat).
  { destruct dress.
    - eapply always_weaken; [apply dress_strategy_ok; now apply Hd |].
      intros its [H1 H2]. split; [exact H1 | lia].
    - apply separates_strategy_ok. }
  intros its [Hits Lits].
  destruct (List.length its <? 2)%nat eqn:E2; [apply always_ret; discriminate |].
  apply Nat.ltb_ge in E2.
  eapply always_bind; [apply always_trivial |].
  intros [nm | ex] _; [| apply always_ret; discriminate].
  eapply always_bind; [apply always_trivial |].
  intros _ _. apply always_ret. intros o' [= <-]. unfold created_from. simpl. auto.
Qed.

(** X5.  An outfit made by [_create_outfit_from_categories] has between
    two and six items, all of them taken from the buckets, and carries the
    occasion it was made for. *)
Theorem created_outfit_from_buckets (occasion : string) (g : Rng) (o : Outfit) :
  fst (_create_outfit_from_categories random randbelow categorized occasion g) = Some o ->
  (2 <= List.length (items o) <= 6)%nat
  /\ List.Forall (fun x => In x (all_buckets categorized)) (items o)
  /\ OutfitService.occasion o = occasion.
Proof.
  intros Ho. exact (create_outfit_ok occasion g o Ho).
Qed.

End Strategies.

End Draws.

Lemma created_outfit_from_buckets_witness :
  (2 <= 3 <= 6)%nat
  /\ List.Forall
       (fun x => In x (all_buckets (_categorize_items Sample.closet)))
       [Sample.garment "3" "Red Dress" "dresses" "red";
        Sample.garment "4" "Boots" "shoes" "black";
        Sample.garment "6" "Hat" "accessories" "tan"]
  /\ "casual" = "casual".
Proof.
  apply (created_outfit_from_buckets
           Sample.random Sample.randbelow (_categorize_items Sample.closet) "casual" 0%nat
           (mkOutfit "Red & Black Casual Outfit"
                     [Sample.garment "3" "Red Dress" "dresses" "red";
                      Sample.garment "4" "Boots" "shoes" "black";
                      Sample.garment "6" "Hat" "accessories" "tan"]
                     "casual")).
  vm_compute. reflexivity.
Defined.

End DrawFacts.

(* ------------------------------------------------------------------ *)
(** ** What [generate_suggestions] returns *)
(* ------------------------------------------------------------------ *)

Module SuggestionFacts.
Import OutfitService.

(** A stable sort leaves a list with one key for all as it is. *)
Lemma sort_desc_constant {A : Type} (key : A -> Q) (c : Q) (xs : list A) :
  List.Forall (fun x => key x == c) xs -> Py.sort_desc key xs = xs.
Proof.
  induction 1 as [| x xs Hx Hxs IH]; [reflexivity |].
  unfold Py.sort_desc in *. simpl. rewrite IH.
  destruct xs as [| y ys]; [reflexivity |]. simpl.
  inversion Hxs as [| ? ? Hy _]; subst.
  assert (E : Qle_bool (key y) (key x) = true).
  { apply Qle_bool_iff. rewrite Hx, Hy. apply Qle_refl. }
  now rewrite E.
Qed.

Lemma sorted_by_property {A : Type} (R R' : A -> A -> Prop) (P : A -> Prop) (xs : list A) :
  (forall a b, P a -> P b -> R a b -> R' a b) ->
  List.Forall P xs -> StronglySorted R xs -> StronglySorted R' xs.
Proof.
  intros HR HP HS. induction HS as [| x xs HS IH Hx]; [constructor |].
  inversion HP as [| ? ? Px Pxs]; subst. constructor; [now apply IH |].
  rewrite List.Forall_forall in *. intros y Hy. apply HR; auto.
Qed.

Section Suggestions.
Context {Rng : Type}.
Variable random : Rng -> Q * Rng.
Variable randbelow : Z -> Rng -> Z * Rng.
Variable find_clothing_items : string -> list Item.
Variable get_current_weather : string -> option Weather.

(** A property of every scored outfit that the loop may accept holds for
    every outfit that it has accepted. *)
Lemma generation_body_Forall (P : ScoredOutfit -> Prop) (cz : Categorized)
      (u occ : string) (w : option Weather) :
  (forall o g, created_from cz occ o -> _is_outfit_valid o occ = true ->
               P (add_weather_keys (fst (score_outfit random o u occ w g)) w)) ->
  forall st : GenState,
    List.Forall P (outfits st) ->
    List.Forall P (outfits (generation_body random randbelow cz u occ w st)).
Proof.
  intros HP st Hst. unfold generation_body.
  pose proof (DrawFacts.create_outfit_ok random randbelow cz occ (rng st)) as Hc.
  destruct (_create_outfit_from_categories random randbelow cz occ (rng st)) as [[o |] g];
    [| exact Hst].
  simpl in Hc. specialize (Hc o eq_refl).
  destruct (_is_outfit_valid o occ) eqn:Hvalid; [| exact Hst].
  destruct (bool_decide _); [exact Hst |].
  pose proof (HP o g Hc Hvalid) as Hp.
  destruct (score_outfit random o u occ w g) as [scored g']. simpl in *.
  apply List.Forall_app. split; [exact Hst | constructor; [exact Hp | constructor]].
Qed.

Lemma generation_loop_Forall (P : ScoredOutfit -> Prop) (fuel : nat) (u occ : string)
      (count : Z) (loc : string) (w : option Weather) (g : Rng) (st : GenState) :
  (forall o g,
      created_from (_categorize_items (get_user_wardrobe find_clothing_items u)) occ o ->
      _is_outfit_valid o occ = true ->
      P (add_weather_keys
           (fst (score_outfit random o u occ (resolve_weather get_current_weather loc w) g))
           (resolve_weather get_current_weather loc w))) ->
  generation_loop random randbelow find_clothing_items get_current_weather
                  fuel u occ count loc w g = Some st ->
  List.Forall P (outfits st).
Proof.
  intros HP Hrun. unfold generation_loop in Hrun.
  eapply (PyFacts.while_loop_invariant (fun st : GenState => List.Forall P (outfits st)));
    [| | exact Hrun].
  - intros s Hs _. now apply generation_body_Forall.
  - constructor.
Qed.

Lemma scored_with_weather (o : Outfit) (u occ : string) (w : Weather) (g : Rng) :
  let s := add_weather_keys (fst (score_outfit random o u occ (Some w) g)) (Some w) in
  outfit s = o /\ is_mock s = false /\ weather_keys w s.
Proof.
  unfold score_outfit, uniform, bind, ret, weather_keys, weather_score_of.
  destruct (random g). simpl. auto.
Qed.

Lemma scored_without_weather (o : Outfit) (u occ : string) (g : Rng) :
  let s := add_weather_keys (fst (score_outfit random o u occ None g)) None in
  outfit s = o /\ is_mock s = false /\ no_weather_keys s.
Proof.
  unfold score_outfit, uniform, bind, ret, no_weather_keys.
  destruct (random g). repeat split.
Qed.

Lemma scored_drawn_from (wardrobe : list Item) (o : Outfit) (u occ : string)
      (w : option Weather) (g : Rng) :
  created_from (_categorize_items wardrobe) occ o ->
  drawn_from wardrobe occ (add_weather_keys (fst (score_outfit random o u occ w g)) w).
Proof.
  intros (Hlen & Hfrom & Hocc).
  assert (H : outfit (add_weather_keys (fst (score_outfit random o u occ w g)) w) = o
              /\ is_mock (add_weather_keys (fst (score_outfit random o u occ w g)) w) = false).
  { destruct w as [w |].
    - destruct (scored_with_weather o u occ w g) as (H1 & H2 & _). auto.
    - destruct (scored_without_weather o u occ g) as (H1 & H2 & _). auto. }
  destruct H as [Hout Hmock]. unfold drawn_from. rewrite Hout.
  repeat split; try assumption; try lia.
  eapply List.Forall_impl; [| exact Hfrom]. intros x Hx.
  eapply Permutation_in; [| exact Hx].
  apply (PartitionFacts.outfit_fold_partition wardrobe empty_categorized).
Qed.

(** X6.  For a user with a wardrobe, [generate_suggestions] returns only
    outfits put together from that wardrobe: none is a mock outfit, each one
    has between two and six items, all of them items of the wardrobe as
    [get_user_wardrobe] returns it, and each one carries the occasion asked
    for. *)
Theorem suggestions_drawn_from_wardrobe (fuel : nat) (user_id occasion : string)
        (count : Z) (location : string) (weather_data : option Weather) (g : Rng) :
  (Z.to_nat (count * 20) <= fuel)%nat ->
  get_user_wardrobe find_clothing_items user_id <> [] ->
  exists outs g',
    generate_suggestions random randbelow find_clothing_items get_current_weather
                         fuel user_id occasion count location weather_data g
    = Some (outs, g')
    /\ List.Forall
         (fun o =>
            is_mock o = false
            /\ OutfitService.occasion (outfit o) = occasion
            /\ (2 <= List.length (items (outfit o)) <= 6)%nat
            /\ List.Forall (fun x => In x (get_user_wardrobe find_clothing_items user_id))
                           (items (outfit o)))
         outs.
Proof.
  intros Hfuel Hw. unfold generate_suggestions.
  destruct (get_user_wardrobe find_clothing_items user_id) as [| i0 wardrobe] eqn:E;
    [congruence |].
  destruct (GenerationFacts.generation_loop_runs
              random randbelow find_clothing_items get_current_weather
              fuel user_id occasion count location weather_data g Hfuel)
    as (st & Hrun & _).
  rewrite Hrun. eexists _, _. split; [reflexivity |].
  apply GenerationFacts.sorted_slice_Forall.
  apply (generation_loop_Forall (drawn_from (i0 :: wardrobe) occasion)) in Hrun;
    [exact Hrun |].
  intros o g0 Hc _. rewrite E in Hc. now apply scored_drawn_from.
Qed.

Lemma weather_score_unit (items : list Item) (weather_data : option Weather) :
  (0 <= _calculate_weather_score items weather_data <= 1)%Q.
Proof.
  unfold _calculate_weather_score.
  destruct items as [| item items]; [split; unfold Qle; simpl; lia |].
  destruct weather_data as [w |]; [| split; unfold Qle; simpl; lia].
  apply RerankFacts.clamp_bounds. unfold Qle; simpl; lia.
Qed.

Lemma Qabs_zero_slack (x y : Q) : (x == y)%Q -> (Qabs (x - y) <= Py.float_slack)%Q.
Proof.
  intros E. assert (E0 : (x - y == 0)%Q) by lra. rewrite E0.
  unfold Py.float_slack, Qle. simpl. lia.
Qed.

Lemma weather_keys_shown (w : Weather) (o : ScoredOutfit) :
  weather_keys w o -> shows_weather w o.
Proof.
  intros (Hws & Hc & Hflag). unfold weather_score_of in *.
  eexists _, _. split; [exact Hws |]. split; [exact Hc |]. split; [exact Hflag |].
  split; [apply weather_score_unit |].
  split; apply Qabs_zero_slack; [reflexivity | ring].
Qed.

(** X7.  With weather data at hand, every suggestion shows at its top
    level a weather score between 0 and 1, the weather score of its items, a
    combined score computed from that weather score and the constant 0.7 in
    place of the three other scores, which makes 0.56 plus a fifth of the
    weather score, and the flag [is_weather_appropriate], set when the
    weather score shown is at least 0.6.  The suggestions come in descending
    order of the combined score shown, and so in descending order of the
    weather score up to the rounding of the sums, for which [Py.float_slack]
    leaves room. *)
Theorem suggestions_ranked_by_weather (fuel : nat) (user_id occasion : string)
        (count : Z) (location : string) (weather_data : option Weather) (g : Rng)
        (w : Weather) :
  (Z.to_nat (count * 20) <= fuel)%nat ->
  get_user_wardrobe find_clothing_items user_id <> [] ->
  resolve_weather get_current_weather location weather_data = Some w ->
  exists outs g',
    generate_suggestions random randbelow find_clothing_items get_current_weather
                         fuel user_id occasion count location weather_data g
    = Some (outs, g')
    /\ List.Forall (shows_weather w) outs
    /\ StronglySorted (fun a b => (sort_key b <= sort_key a)%Q) outs
    /\ StronglySorted
         (fun a b => (top_weather_of b <= top_weather_of a + Py.float_slack)%Q) outs.
Proof.
  intros Hfuel Hw Hres. unfold generate_suggestions.
  destruct (get_user_wardrobe find_clothing_items user_id) as [| i0 wardrobe] eqn:E;
    [congruence |].
  destruct (GenerationFacts.generation_loop_runs
              random randbelow find_clothing_items get_current_weather
              fuel user_id occasion count location weather_data g Hfuel)
    as (st & Hrun & _).
  rewrite Hrun. eexists _, _. split; [reflexivity |].
  assert (Hkeys : List.Forall (weather_keys w) (outfits st)).
  { apply (generation_loop_Forall (weather_keys w)) in Hrun; [exact Hrun |].
    intros o g0 _ _. rewrite Hres. apply scored_with_weather. }
  assert (Hall : List.Forall (weather_keys w)
                   (Py.slice_to count (Py.sort_desc sort_key (outfits st)))).
  { now apply GenerationFacts.sorted_slice_Forall. }
  assert (Hsorted : StronglySorted (Py.desc sort_key)
                      (Py.slice_to count (Py.sort_desc sort_key (outfits st)))).
  { destruct (PyFacts.slice_to_prefix count (Py.sort_desc sort_key (outfits st)))
      as [n ->].
    apply PyFacts.firstn_sorted, PyFacts.sort_desc_sorted. }
  split; [| split].
  - eapply List.Forall_impl; [| exact Hall]. apply weather_keys_shown.
  - exact Hsorted.
  - eapply (sorted_by_property (Py.desc sort_key) _ (weather_keys w));
      [| exact Hall | exact Hsorted].
    intros a b (Ha1 & Ha & _) (Hb1 & Hb & _) Hab.
    unfold Py.desc, sort_key in Hab. rewrite Ha, Hb in Hab.
    unfold top_weather_of. rewrite Ha1, Hb1.
    unfold Py.float_slack. lra.
Qed.

(** X8.  Without weather data the final sort changes nothing: the
    suggestions are returned in the order in which the loop accepted them,
    none has a top-level weather or combined score, and each one is flagged
    weather appropriate with the weather score 1.0. *)
Theorem suggestions_without_weather_keep_order (fuel : nat) (user_id occasion : string)
        (count : Z) (location : string) (weather_data : option Weather) (g : Rng) :
  (Z.to_nat (count * 20) <= fuel)%nat ->
  get_user_wardrobe find_clothing_items user_id <> [] ->
  resolve_weather get_current_weather location weather_data = None ->
  exists st,
    generation_loop random randbelow find_clothing_items get_current_weather
                    fuel user_id occasion count location weather_data g = Some st
    /\ generate_suggestions random randbelow find_clothing_items get_current_weather
                            fuel user_id occasion count location weather_data g
       = Some (outfits st, rng st)
    /\ List.Forall
         (fun o =>
            top_weather_score o = None
            /\ top_combined_score o = None
            /\ is_weather_appropriate o = true
            /\ weather_score (scores o) = Py.round 1.0 2)
         (outfits st).
Proof.
  intros Hfuel Hw Hres. unfold generate_suggestions.
  destruct (get_user_wardrobe find_clothing_items user_id) as [| i0 wardrobe] eqn:E;
    [congruence |].
  destruct (GenerationFacts.generation_loop_runs
              random randbelow find_clothing_items get_current_weather
              fuel user_id occasion count location weather_data g Hfuel)
    as (st & Hrun & _ & _ & _ & _ & Hlen).
  exists st. rewrite Hrun. split; [reflexivity |].
  assert (Hkeys : List.Forall no_weather_keys (outfits st)).
  { apply (generation_loop_Forall no_weather_keys) in Hrun; [exact Hrun |].
    intros o g0 _ _. rewrite Hres. apply scored_without_weather. }
  split; [| exact Hkeys].
  rewrite (sort_desc_constant sort_key 0 (outfits st)).
  - unfold Py.slice_to. destruct (0 <=? count)%Z eqn:Hc.
    + apply Z.leb_le in Hc. rewrite List.firstn_all2 by lia. reflexivity.
    + apply Z.leb_gt in Hc. destruct (outfits st) as [| o os];
        [now rewrite List.firstn_nil | simpl in Hlen; lia].
  - eapply List.Forall_impl; [| exact Hkeys].
    intros o (_ & Ho & _). unfold sort_key. rewrite Ho. reflexivity.
Qed.

End Suggestions.

Lemma suggestions_drawn_from_wardrobe_witness :
  exists outs g',
    generate_suggestions Sample.random Sample.randbelow Sample.find_clothing_items
                         Sample.no_weather 40 "ada" "casual" 2 "" None 0%nat
    = Some (outs, g')
    /\ List.Forall
         (fun o =>
            is_mock o = false
            /\ OutfitService.occasion (outfit o) = "casual"
            /\ (2 <= List.length (items (outfit o)) <= 6)%nat
            /\ List.Forall
                 (fun x => In x (get_user_wardrobe Sample.find_clothing_items "ada"))
                 (items (outfit o)))
         outs.
Proof.
  apply (suggestions_drawn_from_wardrobe
           Sample.random Sample.randbelow Sample.find_clothing_items Sample.no_weather
           40 "ada" "casual" 2 "" None 0%nat).
  - simpl. lia.
  - vm_compute. discriminate.
Defined.

Lemma suggestions_ranked_by_weather_witness :
  exists outs g',
    generate_suggestions Sample.random Sample.randbelow Sample.find_clothing_items
                         Sample.no_weather 40 "ada" "casual" 2 "" (Some Sample.warm_sun)
                         0%nat
    = Some (outs, g')
    /\ List.Forall (shows_weather Sample.warm_sun) outs
    /\ StronglySorted (fun a b => (sort_key b <= sort_key a)%Q) outs
    /\ StronglySorted
         (fun a b => (top_weather_of b <= top_weather_of a + Py.float_slack)%Q) outs.
Proof.
  apply (suggestions_ranked_by_weather
           Sample.random Sample.randbelow Sample.find_clothing_items Sample.no_weather
           40 "ada" "casual" 2 "" (Some Sample.warm_sun) 0%nat Sample.warm_sun).
  - simpl. lia.
  - vm_compute. discriminate.
  - reflexivity.
Defined.

Lemma suggestions_without_weather_keep_order_witness :
  exists st,
    generation_loop Sample.random Sample.randbelow Sample.find_clothing_items
                    Sample.no_weather 40 "ada" "casual" 2 "" None 0%nat = Some st
    /\ generate_suggestions Sample.random Sample.randbelow Sample.find_clothing_items
                            Sample.no_weather 40 "ada" "casual" 2 "" None 0%nat
       = Some (outfits st, rng st)
    /\ List.Forall
         (fun o =>
            top_weather_score o = None
            /\ top_combined_score o = None
            /\ is_weather_appropriate o = true
            /\ weather_score (scores o) = Py.round 1.0 2)
         (outfits st).
Proof.
  apply (suggestions_without_weather_keep_order
           Sample.random Sample.randbelow Sample.find_clothing_items Sample.no_weather
           40 "ada" "casual" 2 "" None 0%nat).
  - simpl. lia.
  - vm_compute. discriminate.
  - reflexivity.
Defined.

End SuggestionFacts.

(* ------------------------------------------------------------------ *)
(** ** The ranges of the scores *)
(* ------------------------------------------------------------------ *)

Module ScoreRangeFacts.
Import OutfitService.

Lemma clamp_id (lo hi x : Q) : (lo <= x <= hi)%Q -> Py.clamp lo hi x = x.
Proof.
  intros [H1 H2]. unfold Py.clamp.
  apply Qle_bool_iff in H1. rewrite H1.
  apply Qle_bool_iff in H2. now rewrite H2.
Qed.

Lemma round_half_even_between (x : Q) :
  (Qfloor x <= Py.round_half_even x <= Qfloor x + 1)%Z.
Proof.
  unfold Py.round_half_even.
  destruct (Py.Qlt_bool _ _); [lia |].
  destruct (Py.Qlt_bool _ _); [lia |].
  destruct (Z.even _); lia.
Qed.

Lemma round_half_even_lower (x : Q) (a : Z) :
  (inject_Z a <= x)%Q -> (a <= Py.round_half_even x)%Z.
Proof.
  intros H. apply Qfloor_resp_le in H. rewrite Qfloor_Z in H.
  pose proof (round_half_even_between x). lia.
Qed.

Lemma round_half_even_upper (x : Q) (b : Z) :
  (x <= inject_Z b)%Q -> (Py.round_half_even x <= b)%Z.
Proof.
  intros H. pose proof (Qfloor_resp_le _ _ H) as Hf. rewrite Qfloor_Z in Hf.
  destruct (Z.eq_dec (Qfloor x) b) as [E | N].
  - unfold Py.round_half_even.
    assert (Hr : Py.Qlt_bool (x - inject_Z (Qfloor x)) (1 # 2) = true).
    { unfold Py.Qlt_bool. apply negb_true_iff.
      destruct (Qle_bool (1 # 2) (x - inject_Z (Qfloor x))) eqn:E2; [| reflexivity].
      apply Qle_bool_iff in E2. rewrite E in E2. lra. }
    rewrite Hr. lia.
  - pose proof (round_half_even_between x). lia.
Qed.

(** Rounding to two digits stays between bounds that have two digits. *)
Lemma round2_bounds (x : Q) (a b : Z) :
  (a # 100 <= x <= b # 100)%Q -> (a # 100 <= Py.round x 2 <= b # 100)%Q.
Proof.
  intros [Ha Hb]. unfold Py.round.
  change (10 ^ Z.of_nat 2)%Z with 100%Z. change (Z.to_pos 100) with 100%positive.
  split; unfold Qle; simpl Qnum; simpl Qden.
  - apply Z.mul_le_mono_nonneg_r; [lia |].
    apply round_half_even_lower.
    assert (E : (inject_Z a == (a # 100) * inject_Z 100)%Q) by (unfold Qeq; simpl; lia).
    rewrite E.
    apply Qmult_le_compat_r; [exact Ha | unfold Qle; simpl; lia].
  - apply Z.mul_le_mono_nonneg_r; [lia |].
    apply round_half_even_upper.
    assert (E : (inject_Z b == (b # 100) * inject_Z 100)%Q) by (unfold Qeq; simpl; lia).
    rewrite E.
    apply Qmult_le_compat_r; [exact Hb | unfold Qle; simpl; lia].
Qed.

(** The sum of [n] numbers between [lo] and [hi]. *)
Lemma sum_between (lo hi : Q) (xs : list Q) :
  List.Forall (fun x => lo <= x <= hi)%Q xs ->
  (lo * inject_Z (Z.of_nat (List.length xs)) <= Py.sum xs
   <= hi * inject_Z (Z.of_nat (List.length xs)))%Q.
Proof.
  induction 1 as [| x xs [Hlo Hhi] _ IH].
  - unfold Py.sum. cbn [List.length List.fold_left].
    change (inject_Z (Z.of_nat 0)) with 0%Q. lra.
  - rewrite HistoryFacts.sum_cons.
    replace (Z.of_nat (List.length (x :: xs))) with (Z.of_nat (List.length xs) + 1)%Z
      by (simpl List.length; lia).
    rewrite inject_Z_plus. change (inject_Z 1) with 1%Q.
    destruct IH as [IH1 IH2]. split.
    + assert (E : (lo * (inject_Z (Z.of_nat (List.length xs)) + 1)
                   == lo * inject_Z (Z.of_nat (List.length xs)) + lo)%Q) by ring.
      rewrite E. lra.
    + assert (E : (hi * (inject_Z (Z.of_nat (List.length xs)) + 1)
                   == hi * inject_Z (Z.of_nat (List.length xs)) + hi)%Q) by ring.
      rewrite E. lra.
Qed.

Lemma average_between (lo hi : Q) (xs : list Q) :
  xs <> [] ->
  List.Forall (fun x => lo <= x <= hi)%Q xs ->
  (lo <= Py.sum xs / inject_Z (Z.of_nat (List.length xs)) <= hi)%Q.
Proof.
  intros Hne H. destruct (sum_between lo hi xs H) as [H1 H2].
  assert (Hn : (0 < inject_Z (Z.of_nat (List.length xs)))%Q).
  { destruct xs; [congruence |]. unfold Qlt. simpl. lia. }
  split.
  - apply Qle_shift_div_l; assumption.
  - apply Qle_shift_div_r; assumption.
Qed.

Lemma formality_scores_range (f : string) : (0.3 <= formality_scores f <= 0.9)%Q.
Proof.
  unfold formality_scores.
  repeat match goal with |- context [if ?b then _ else _] => destruct b end;
    split; unfold Qle; simpl; lia.
Qed.

Lemma occasion_targets_range (o : string) : (0.3 <= occasion_targets o <= 0.8)%Q.
Proof.
  unfold occasion_targets.
  repeat match goal with |- context [if ?b then _ else _] => destruct b end;
    split; unfold Qle; simpl; lia.
Qed.

Lemma color_score_bounds (items : list Item) :
  (0.4 <= _calculate_color_score items <= 0.8)%Q.
Proof.
  unfold _calculate_color_score.
  destruct (List.map _ _) as [| c colors]; [split; unfold Qle; simpl; lia |].
  destruct (_ =? 1)%nat, (List.existsb _ _), (2 <? _)%nat;
    vm_compute; split; intros H; discriminate H.
Qed.

(** X9.  [_calculate_color_score] lies between 0.4 and 0.8. *)
Theorem color_score_range (items : list Item) :
  (0.4 <= _calculate_color_score items <= 0.8)%Q.
Proof. apply color_score_bounds. Qed.

Lemma occasion_score_value (item : Item) (items : list Item) (occasion : string) :
  let formalities :=
    List.map (fun item => formality_scores (formality item)) (item :: items) in
  let avg := (Py.sum formalities / inject_Z (Z.of_nat (List.length formalities)))%Q in
  (0.3 <= avg <= 0.9)%Q
  /\ _calculate_occasion_score (item :: items) occasion
     = (1 - Qabs (avg - occasion_targets (Py.lower occasion)))%Q.
Proof.
  intros formalities avg.
  assert (Havg : (0.3 <= avg <= 0.9)%Q).
  { apply average_between; [discriminate |].
    apply List.Forall_forall. intros q Hq. apply List.in_map_iff in Hq.
    destruct Hq as (it & <- & _). apply formality_scores_range. }
  split; [exact Havg |].
  unfold _calculate_occasion_score. fold formalities. fold avg.
  apply clamp_id.
  pose proof (occasion_targets_range (Py.lower occasion)) as Ht.
  pose proof (Qabs_nonneg (avg - occasion_targets (Py.lower occasion))) as H0.
  assert (H1 : (Qabs (avg - occasion_targets (Py.lower occasion)) <= 0.6)%Q).
  { apply Qabs_Qle_condition. split; lra. }
  split; lra.
Qed.

(** With sums that do not round, the occasion score lies between 0.4 and
    1: the average formality of the items is never further than 0.6 from the
    target of the occasion. *)
Lemma occasion_score_bounds (items : list Item) (occasion : string) :
  (0.4 <= _calculate_occasion_score items occasion <= 1)%Q.
Proof.
  destruct items as [| item items]; [split; unfold Qle; simpl; lia |].
  destruct (occasion_score_value item items occasion) as [Havg ->].
  pose proof (occasion_targets_range (Py.lower occasion)) as Ht.
  set (d := (_ - occasion_targets _)%Q) in *.
  pose proof (Qabs_nonneg d) as H0.
  assert (H1 : (Qabs d <= 0.6)%Q).
  { apply Qabs_Qle_condition. unfold d. split; lra. }
  split; lra.
Qed.

(** With sums that do not round, items that all have the formality the
    occasion aims at score 1. *)
Lemma occasion_score_match (items : list Item) (occasion : string) :
  items <> [] ->
  List.Forall
    (fun item =>
       formality_scores (formality item) == occasion_targets (Py.lower occasion))
    items ->
  _calculate_occasion_score items occasion == 1.
Proof.
  intros Hne Hall. destruct items as [| item items]; [congruence |].
  destruct (occasion_score_value item items occasion) as [_ ->].
  set (t := occasion_targets (Py.lower occasion)) in *.
  assert (Havg : (t <= Py.sum (List.map (fun item => formality_scores (formality item))
                                        (item :: items))
                       / inject_Z (Z.of_nat (List.length
                            (List.map (fun item => formality_scores (formality item))
                                      (item :: items))))
                  <= t)%Q).
  { apply average_between; [discriminate |].
    apply List.Forall_forall. intros q Hq. apply List.in_map_iff in Hq.
    destruct Hq as (it & <- & Hin).
    rewrite List.Forall_forall in Hall. specialize (Hall it Hin). lra. }
  set (avg := (Py.sum _ / _)%Q) in *.
  assert (E : (avg - t == 0)%Q) by lra.
  rewrite E. reflexivity.
Qed.

(** X10.  [_calculate_occasion_score] is at most 1 and, up to the rounding
    of its floating-point sum, at least 0.4: the average formality of the
    items is never further than 0.6 from the target of the occasion.  (For
    formal items and the occasion sport the sum rounds to a number just
    below 0.4, for which [Py.float_slack] leaves room.) *)
Theorem occasion_score_range (items : list Item) (occasion : string) :
  (0.4 - Py.float_slack <= _calculate_occasion_score items occasion <= 1)%Q.
Proof.
  destruct (occasion_score_bounds items occasion) as [Hlo Hhi].
  unfold Py.float_slack. split; lra.
Qed.

(** X11.  An outfit whose items all have the formality that the occasion
    aims at gets, up to the rounding of the floating-point average, the
    occasion score 1: a score between 1 less [Py.float_slack] and 1. *)
Theorem occasion_score_perfect_match (items : list Item) (occasion : string) :
  items <> [] ->
  List.Forall
    (fun item =>
       formality_scores (formality item) == occasion_targets (Py.lower occasion))
    items ->
  (1 - Py.float_slack <= _calculate_occasion_score items occasion <= 1)%Q.
Proof.
  intros Hne Hall. pose proof (occasion_score_match items occasion Hne Hall) as E.
  rewrite E. unfold Py.float_slack. split; lra.
Qed.

Lemma occasion_score_perfect_match_witness :
  (1 - Py.float_slack
   <= _calculate_occasion_score
        [Sample.garment "1" "White Shirt" "tops" "white";
         Sample.garment "2" "Blue Jeans" "bottoms" "blue"] "Casual"
   <= 1)%Q.
Proof.
  apply (occasion_score_perfect_match
           [Sample.garment "1" "White Shirt" "tops" "white";
            Sample.garment "2" "Blue Jeans" "bottoms" "blue"] "Casual").
  - discriminate.
  - repeat constructor.
Defined.

(** *** The weather score *)

Lemma weather_score_bounds (items : list Item) (weather_data : option Weather) :
  (0 <= _calculate_weather_score items weather_data <= 1)%Q.
Proof. apply SuggestionFacts.weather_score_unit. Qed.

Lemma fold_left_id {A B : Type} (f : A -> B -> A) (xs : list B) (a : A) :
  (forall a x, f a x = a) -> List.fold_left f xs a = a.
Proof.
  intros H. revert a. induction xs as [| x xs IH]; intros a; simpl; [reflexivity |].
  now rewrite H, IH.
Qed.

(** X12.  Weather data that names none of the five temperature categories
    and none of the conditions rain, snow, wind, sun and clear scores every
    outfit 0.5, which is below the 0.6 it takes to be weather appropriate. *)
Theorem weather_score_neutral (items : list Item) (w : Weather) :
  Py.mem (match weather_category w with Some c => c | None => "moderate" end)
         ["cold"; "freezing"; "cool"; "hot"; "warm"] = false ->
  List.existsb (fun k => Py.contains k (Py.lower (condition w)))
               ["rain"; "snow"; "wind"; "sun"; "clear"] = false ->
  _calculate_weather_score items (Some w) = 0.5%Q
  /\ Qle_bool 0.6 (_calculate_weather_score items (Some w)) = false.
Proof.
  intros Hcat Hcond.
  assert (E : _calculate_weather_score items (Some w) = 0.5%Q).
  { unfold _calculate_weather_score. destruct items as [| item items]; [reflexivity |].
    set (cat := match weather_category w with Some c => c | None => "moderate" end) in *.
    set (cond := Py.lower (condition w)) in *.
    unfold Py.mem in Hcat. cbn [List.existsb] in Hcat, Hcond.
    repeat (apply orb_false_iff in Hcat; destruct Hcat as [? Hcat]).
    repeat (apply orb_false_iff in Hcond; destruct Hcond as [? Hcond]).
    assert (Hb : forall s it, weather_bonus cond cat s it = s).
    { intros s it. unfold weather_bonus, Py.mem. cbn [List.existsb].
      repeat match goal with H : _ = false |- _ => rewrite H; clear H end.
      reflexivity. }
    assert (Hp : forall s it, weather_penalty cat s it = s).
    { intros s it. unfold weather_penalty, Py.mem. cbn [List.existsb].
      repeat match goal with H : _ = false |- _ => rewrite H; clear H end.
      reflexivity. }
    rewrite (fold_left_id _ _ _ Hb), (fold_left_id _ _ _ Hp). reflexivity. }
  rewrite E. split; reflexivity.
Qed.

Lemma weather_score_neutral_witness :
  _calculate_weather_score Sample.closet
    (Some (mkWeather (Some 18%Q) "Partly Cloudy" None)) = 0.5%Q
  /\ Qle_bool 0.6 (_calculate_weather_score Sample.closet
                     (Some (mkWeather (Some 18%Q) "Partly Cloudy" None))) = false.
Proof.
  apply (weather_score_neutral Sample.closet (mkWeather (Some 18%Q) "Partly Cloudy" None));
    reflexivity.
Defined.

(** *** [score_outfit] *)

Lemma round2_range (x lo hi : Q) (a b : Z) :
  (lo == a # 100)%Q -> (hi == b # 100)%Q ->
  (lo <= x <= hi)%Q -> (lo <= Py.round x 2 <= hi)%Q.
Proof.
  intros Ea Eb H. rewrite Ea, Eb in *. now apply round2_bounds.
Qed.

Section ScoreOutfit.
Context {Rng : Type}.
Variable random : Rng -> Q * Rng.

(** X13.  When [random.random()] answers with a number of the unit
    interval, the five scores that [score_outfit] reports lie in these
    ranges: style in [0.6, 0.95], colour in [0.4, 0.8], occasion in [0.4, 1],
    weather in [0, 1] and the combined score in [0.38, 0.94]. *)
Theorem score_outfit_ranges (o : Outfit) (user_id occasion : string)
        (weather_data : option Weather) (g : Rng) :
  (0 <= fst (random g) <= 1)%Q ->
  let s := scores (fst (score_outfit random o user_id occasion weather_data g)) in
  (0.6 <= style_score s <= 0.95)%Q
  /\ (0.4 <= color_score s <= 0.8)%Q
  /\ (0.4 <= occasion_score s <= 1)%Q
  /\ (0 <= weather_score s <= 1)%Q
  /\ (0.38 <= combined_score s <= 0.94)%Q.
Proof.
  intros Hr. unfold score_outfit, uniform, bind, ret.
  destruct (random g) as [r g']. cbn [fst snd] in *.
  cbn [scores style_score color_score occasion_score weather_score combined_score fst].
  pose proof (color_score_bounds (items o)) as Hc.
  pose proof (occasion_score_bounds (items o) occasion) as Ho.
  set (c := _calculate_color_score (items o)) in *.
  set (oc := _calculate_occasion_score (items o) occasion) in *.
  assert (Hw : (0 <= match weather_data with
                     | Some _ => _calculate_weather_score (items o) weather_data
                     | None => 1.0
                     end <= 1)%Q).
  { destruct weather_data; [apply weather_score_bounds | split; unfold Qle; simpl; lia]. }
  set (ws := match weather_data with Some _ => _ | None => _ end) in *.
  assert (Hs : (0.6 <= 0.6 + (0.95 - 0.6) * r <= 0.95)%Q) by (split; lra).
  set (st := (0.6 + (0.95 - 0.6) * r)%Q) in *.
  repeat split.
  - apply (round2_range st 0.6 0.95 60 95); [reflexivity | reflexivity | exact Hs].
  - apply (round2_range st 0.6 0.95 60 95); [reflexivity | reflexivity | exact Hs].
  - apply (round2_range c 0.4 0.8 40 80); [reflexivity | reflexivity | exact Hc].
  - apply (round2_range c 0.4 0.8 40 80); [reflexivity | reflexivity | exact Hc].
  - apply (round2_range oc 0.4 1 40 100); [reflexivity | reflexivity | exact Ho].
  - apply (round2_range oc 0.4 1 40 100); [reflexivity | reflexivity | exact Ho].
  - apply (round2_range ws 0 1 0 100); [reflexivity | reflexivity | exact Hw].
  - apply (round2_range ws 0 1 0 100); [reflexivity | reflexivity | exact Hw].
  - apply (round2_range _ 0.38 0.94 38 94); [reflexivity | reflexivity | split; lra].
  - apply (round2_range _ 0.38 0.94 38 94); [reflexivity | reflexivity | split; lra].
Qed.

End ScoreOutfit.

Lemma score_outfit_ranges_witness :
  let s := scores (fst (score_outfit Sample.random Sample.shirt_and_jeans "ada" "casual"
                                     (Some Sample.warm_sun) 0%nat)) in
  (0.6 <= style_score s <= 0.95)%Q
  /\ (0.4 <= color_score s <= 0.8)%Q
  /\ (0.4 <= occasion_score s <= 1)%Q
  /\ (0 <= weather_score s <= 1)%Q
  /\ (0.38 <= combined_score s <= 0.94)%Q.
Proof.
  apply (score_outfit_ranges Sample.random Sample.shirt_and_jeans "ada" "casual"
                             (Some Sample.warm_sun) 0%nat).
  vm_compute. split; intros H; discriminate H.
Defined.

End ScoreRangeFacts.

(* ------------------------------------------------------------------ *)
(** ** The mock outfits *)
(* ------------------------------------------------------------------ *)

Module MockFacts.
Import OutfitService.

Section Mock.
Context {Rng : Type}.
Variable random : Rng -> Q * Rng.
Variable randbelow : Z -> Rng -> Z * Rng.
Variable find_clothing_items : string -> list Item.
Variable get_current_weather : string -> option Weather.

Lemma mock_outfit_flags (i : nat) (occ : string) :
  always (mock_outfit random i occ)
         (fun o => is_mock o = true
                   /\ OutfitService.occasion (outfit o) = occ
                   /\ is_weather_appropriate o = true
                   /\ top_combined_score o = None).
Proof.
  intros g. unfold mock_outfit. destruct (mock_combination i) as [its nm].
  unfold uniform, bind, ret.
  repeat match goal with |- context [random ?x] => destruct (random x) end.
  simpl. auto.
Qed.

Lemma mock_outfits_flags (n i : nat) (occ : string) :
  always (mock_outfits_from random i n occ)
         (List.Forall (fun o => is_mock o = true
                                /\ OutfitService.occasion (outfit o) = occ
                                /\ is_weather_appropriate o = true
                                /\ top_combined_score o = None)).
Proof.
  revert i. induction n as [| n IH]; intros i; cbn [mock_outfits_from].
  - apply DrawFacts.always_ret. constructor.
  - eapply DrawFacts.always_bind; [apply mock_outfit_flags |].
    intros o Ho. eapply DrawFacts.always_bind; [apply IH |].
    intros rest Hrest. apply DrawFacts.always_ret. now constructor.
Qed.

(** X14.  For a user without a wardrobe, [generate_suggestions] returns
    the first [min(count, 3)] mock outfits (none when [count] is not
    positive), whatever the weather and however few iterations the loop is
    allowed: each is flagged as a mock and as weather appropriate, carries
    the occasion asked for and holds the items of its fixed combination. *)
Theorem empty_wardrobe_gets_mock_outfits (fuel : nat) (user_id occasion : string)
        (count : Z) (location : string) (weather_data : option Weather) (g : Rng) :
  get_user_wardrobe find_clothing_items user_id = [] ->
  exists outs g',
    generate_suggestions random randbelow find_clothing_items get_current_weather
                         fuel user_id occasion count location weather_data g
    = Some (outs, g')
    /\ List.length outs = Z.to_nat (Z.min count 3)
    /\ List.Forall
         (fun o => is_mock o = true
                   /\ OutfitService.occasion (outfit o) = occasion
                   /\ is_weather_appropriate o = true
                   /\ top_combined_score o = None)
         outs
    /\ List.map (fun o => items (outfit o)) outs
       = List.map (fun j => fst (mock_combination j)) (List.seq 0 (List.length outs)).
Proof.
  intros Hw. unfold generate_suggestions. rewrite Hw. unfold _get_mock_outfits.
  pose proof (GenerationFacts.mock_outfits_items
                random (Z.to_nat (Z.min count 3)) 0 occasion g) as Hitems.
  pose proof (mock_outfits_flags (Z.to_nat (Z.min count 3)) 0 occasion g) as Hflags.
  destruct (mock_outfits_from random 0 (Z.to_nat (Z.min count 3)) occasion g)
    as [outs g'].
  cbn [fst] in *. exists outs, g'.
  assert (Hlen : List.length outs = Z.to_nat (Z.min count 3)).
  { rewrite <- (List.length_map (fun o => items (outfit o))), Hitems.
    now rewrite List.length_map, List.length_seq. }
  split; [reflexivity |]. split; [exact Hlen |]. split; [exact Hflags |].
  now rewrite Hlen.
Qed.

End Mock.

Lemma empty_wardrobe_gets_mock_outfits_witness :
  exists outs g',
    generate_suggestions Sample.random Sample.randbelow (fun _ : string => [])
                         Sample.no_weather 0 "eve" "party" 2 "" None 0%nat
    = Some (outs, g')
    /\ List.length outs = Z.to_nat (Z.min 2 3)
    /\ List.Forall
         (fun o => is_mock o = true
                   /\ OutfitService.occasion (outfit o) = "party"
                   /\ is_weather_appropriate o = true
                   /\ top_combined_score o = None)
         outs
    /\ List.map (fun o => items (outfit o)) outs
       = List.map (fun j => fst (mock_combination j)) (List.seq 0 (List.length outs)).
Proof.
  apply (empty_wardrobe_gets_mock_outfits
           Sample.random Sample.randbelow (fun _ : string => []) Sample.no_weather
           0 "eve" "party" 2 "" None 0%nat).
  reflexivity.
Defined.

End MockFacts.

(* ------------------------------------------------------------------ *)
(** ** The candidates of the personalized service *)
(* ------------------------------------------------------------------ *)

Module CombinationFacts.
Import PersonalizedAIService.

Lemma flat_map_length_le {A B : Type} (f : A -> list B) (k : nat) (l : list A) :
  (forall x, (List.length (f x) <= k)%nat) ->
  (List.length (List.flat_map f l) <= k * List.length l)%nat.
Proof.
  intros Hf. induction l as [| x l IH]; simpl; [lia |].
  rewrite List.length_app. specialize (Hf x). lia.
Qed.

Lemma flat_map_all_nil {A B : Type} (f : A -> list B) (l : list A) :
  (forall x, f x = []) -> List.flat_map f l = [].
Proof.
  intros Hf. induction l as [| x l IH]; simpl; [reflexivity |]. now rewrite Hf, IH.
Qed.

Lemma firstn_le {A : Type} (n : nat) (l : list A) : (List.length (List.firstn n l) <= n)%nat.
Proof. rewrite List.length_firstn. lia. Qed.

Lemma in_firstn {A : Type} (n : nat) (l : list A) (x : A) :
  In x (List.firstn n l) -> In x l.
Proof. apply PyFacts.firstn_In. Qed.

(** X15.  [_create_outfit_combinations] proposes at most 90 candidates.
    Each one is a top, a bottom and a shoe of the respective buckets, of
    type "separates", or a dress and a shoe, of type "dress_outfit": no
    candidate is without shoes, and outerwear and accessories are never
    used. *)
Theorem outfit_combinations_shape (categorized : Categories)
        (weather_data : option OutfitService.Weather) (occasion : string) :
  let candidates := _create_outfit_combinations categorized weather_data occasion in
  (List.length candidates <= 90)%nat
  /\ List.Forall
       (fun o =>
          (outfit_type o = "separates"
           /\ exists top bottom shoe,
               items o = [top; bottom; shoe]
               /\ In top (tops categorized) /\ In bottom (bottoms categorized)
               /\ In shoe (shoes categorized))
          \/ (outfit_type o = "dress_outfit"
              /\ exists dress shoe,
                  items o = [dress; shoe]
                  /\ In dress (dresses categorized) /\ In shoe (shoes categorized)))
       candidates.
Proof.
  unfold _create_outfit_combinations. split.
  - rewrite PyFacts.sort_desc_length, List.length_app.
    assert (H1 : forall l : list Item,
               (List.length
                  (List.flat_map
                     (fun top =>
                        List.flat_map
                          (fun bottom =>
                             List.map
                               (fun shoe => new_outfit [top; bottom; shoe] "separates"
                                                       weather_data occasion)
                               (List.firstn 3 (shoes categorized)))
                          (List.firstn 5 (bottoms categorized)))
                     l)
                <= 15 * List.length l)%nat).
    { intros l. apply flat_map_length_le. intros top.
      etransitivity; [apply (flat_map_length_le _ 3) |].
      - intros bottom. rewrite List.length_map. apply firstn_le.
      - pose proof (firstn_le 5 (bottoms categorized)). lia. }
    assert (H2 : forall l : list Item,
               (List.length
                  (List.flat_map
                     (fun dress =>
                        List.map
                          (fun shoe => new_outfit [dress; shoe] "dress_outfit"
                                                  weather_data occasion)
                          (List.firstn 3 (shoes categorized)))
                     l)
                <= 3 * List.length l)%nat).
    { intros l. apply flat_map_length_le. intros dress.
      rewrite List.length_map. apply firstn_le. }
    specialize (H1 (List.firstn 5 (tops categorized))).
    specialize (H2 (List.firstn 5 (dresses categorized))).
    pose proof (firstn_le 5 (tops categorized)).
    pose proof (firstn_le 5 (dresses categorized)). lia.
  - apply List.Forall_forall. intros o Hin.
    eapply Permutation_in in Hin; [| apply PyFacts.sort_desc_perm].
    apply List.in_app_or in Hin. destruct Hin as [Hin | Hin].
    + left. apply List.in_flat_map in Hin. destruct Hin as (t & Ht & Hin).
      apply List.in_flat_map in Hin. destruct Hin as (b & Hb & Hin).
      apply List.in_map_iff in Hin. destruct Hin as (sh & <- & Hsh).
      split; [reflexivity |]. exists t, b, sh.
      split; [reflexivity |]. repeat split; eapply in_firstn; eassumption.
    + right. apply List.in_flat_map in Hin. destruct Hin as (d & Hd & Hin).
      apply List.in_map_iff in Hin. destruct Hin as (sh & <- & Hsh).
      split; [reflexivity |]. exists d, sh.
      split; [reflexivity |]. repeat split; eapply in_firstn; eassumption.
Qed.

(** X16.  A wardrobe in which [_categorize_items] finds no shoes gets no
    recommendation at all, whatever else it holds and whatever the
    preferences of the user. *)
Theorem no_shoes_no_recommendations (wardrobe_items : list Item)
        (weather_data : option OutfitService.Weather) (occasion : string)
        (style_preferences specific_items : list string)
        (user_preferences : option Preferences) :
  shoes (_categorize_items (selected specific_items wardrobe_items)) = [] ->
  let r := _generate_recommendations wardrobe_items weather_data occasion
                                     style_preferences specific_items user_preferences in
  outfits r = [] /\ total_combinations r = 0%nat.
Proof.
  intros Hshoes.
  assert (E : _create_outfit_combinations
                (_categorize_items (selected specific_items wardrobe_items))
                weather_data occasion = []).
  { unfold _create_outfit_combinations. rewrite Hshoes. cbn [List.firstn List.map].
    rewrite (flat_map_all_nil _ (List.firstn 5 (tops _)))
      by (intros top; now apply flat_map_all_nil).
    rewrite (flat_map_all_nil _ (List.firstn 5 (dresses _))) by reflexivity.
    reflexivity. }
  unfold _generate_recommendations. fold (selected specific_items wardrobe_items).
  rewrite E. cbn [outfits total_combinations List.map].
  destruct user_preferences as [p |]; [| split; reflexivity].
  destruct (has_favorites (Some p)); split; reflexivity.
Qed.

Lemma no_shoes_no_recommendations_witness :
  let r := _generate_recommendations
             [Sample.garment "1" "Navy Shirt" "tops" "navy";
              Sample.garment "2" "Jeans" "bottoms" "blue";
              Sample.garment "3" "Red Dress" "dresses" "red"]
             None "casual" [] [] (Some Sample.navy_lover) in
  outfits r = [] /\ total_combinations r = 0%nat.
Proof.
  apply (no_shoes_no_recommendations
           [Sample.garment "1" "Navy Shirt" "tops" "navy";
            Sample.garment "2" "Jeans" "bottoms" "blue";
            Sample.garment "3" "Red Dress" "dresses" "red"]
           None "casual" [] [] (Some Sample.navy_lover)).
  reflexivity.
Defined.

End CombinationFacts.

(* ------------------------------------------------------------------ *)
(** ** The answers of the personalized entry point *)
(* ------------------------------------------------------------------ *)

Module ServiceFacts.
Import PersonalizedAIService.

(** The service catches what its collaborators raise. *)
Lemma service_returns (w : World) (user_id : string) (location occasion : option string)
      (specific_items : list string) :
  exists r,
    PersonalizedAIService.get_personalized_recommendations
      w user_id location occasion specific_items = Py.Return r
    /\ (success r = false -> exists e, error r = Some e).
Proof.
  unfold PersonalizedAIService.get_personalized_recommendations, failure.
  destruct (get_database w); [| simpl; eauto].
  destruct (users_find_one w user_id) as [[user |] |]; [| simpl; eauto | simpl; eauto].
  destruct (or_else _ _) as [[| i its] | ex]; simpl; eauto.
  eexists. split; [reflexivity |]. simpl. discriminate.
Qed.

(** X17.  The route never answers with an exception, whatever the
    document store and the weather source do and whoever the caller is: it
    returns a response, and a response that is not a success names an error
    and carries a recommendations block without outfits. *)
Theorem route_always_answers (w : World) (current_user location occasion : option string)
        (include_items : list string) :
  exists r,
    Routes.get_personalized_recommendations w current_user location occasion include_items
    = Py.Return r
    /\ (success r = false ->
        (exists e, error r = Some e)
        /\ exists recs, recommendations r = Some recs
                        /\ outfits recs = [] /\ total_combinations recs = 0%nat).
Proof.
  unfold Routes.get_personalized_recommendations.
  destruct current_user as [uid |]; simpl.
  - destruct (service_returns w uid location occasion include_items) as (r & -> & He).
    simpl. destruct (success r) eqn:Hs; simpl.
    + eexists. split; [reflexivity |]. rewrite Hs. discriminate.
    + destruct (Py.contains "No clothing items" _ || Py.contains "wardrobe" _);
        eexists; (split; [reflexivity |]); simpl; intros _;
        (split; [eexists; reflexivity | eexists; repeat split]).
  - eexists. split; [reflexivity |]. simpl. intros _.
    split; [eexists; reflexivity | eexists; repeat split].
Qed.

(** X18.  For a known user whose wardrobe query finds at least one item,
    the route answers with a success, whether the history queries and the
    weather source return or raise: the response carries the recommendations
    of [_generate_recommendations] for the occasion asked for ("casual" when
    none is given) and for the history that could be read (none when both
    history queries raise), at most five outfits, and the style preferences
    of the user. *)
Theorem stocked_wardrobe_succeeds (w : World) (user_id : string) (user : User)
        (item : Item) (wardrobe_items : list Item) (location occasion : option string)
        (include_items : list string) :
  (exists db, get_database w = Py.Return db) ->
  users_find_one w user_id = Py.Return (Some user) ->
  or_else (clothing_items_by_oid w user_id) (clothing_items_by_str w user_id)
  = Py.Return (item :: wardrobe_items) ->
  exists r recs,
    Routes.get_personalized_recommendations w (Some user_id) location occasion include_items
    = Py.Return r
    /\ success r = true
    /\ error r = None
    /\ user_style r = style_preferences user
    /\ recommendations r = Some recs
    /\ recs = _generate_recommendations
                (item :: wardrobe_items) (weather r)
                (match occasion with
                 | Some o => if Py.truthy o then o else "casual"
                 | None => "casual"
                 end)
                (style_preferences user) include_items
                (Some (_analyze_user_history
                         (match or_else (outfit_history_by_oid w user_id)
                                        (outfit_history_by_str w user_id) with
                          | Py.Return h => h
                          | Py.Raise _ => []
                          end)
                         (item :: wardrobe_items)))
    /\ (List.length (outfits recs) <= 5)%nat
    /\ (List.length (outfits recs) <= total_combinations recs)%nat
    /\ (location = None -> weather r = None).
Proof.
  intros [db Hdb] Huser Hitems.
  unfold Routes.get_personalized_recommendations. cbn [Py.rbind].
  unfold PersonalizedAIService.get_personalized_recommendations.
  rewrite Hdb, Huser, Hitems. cbn [Py.try_except Py.rbind success negb].
  eexists _, _. split; [reflexivity |].
  cbn [success error user_style recommendations weather].
  repeat split.
  - unfold _generate_recommendations. cbn [outfits]. rewrite List.length_firstn. lia.
  - unfold _generate_recommendations. cbn [outfits total_combinations].
    rewrite List.length_firstn. lia.
  - now intros ->.
Qed.

Lemma stocked_wardrobe_succeeds_witness :
  exists r recs,
    Routes.get_personalized_recommendations
      Sample.stocked_world (Some "ada") (Some "Oslo") None []
    = Py.Return r
    /\ success r = true
    /\ error r = None
    /\ user_style r = ["minimal"]
    /\ recommendations r = Some recs
    /\ recs = _generate_recommendations
                Sample.small_wardrobe (weather r) "casual" ["minimal"] []
                (Some (_analyze_user_history [] Sample.small_wardrobe))
    /\ (List.length (outfits recs) <= 5)%nat
    /\ (List.length (outfits recs) <= total_combinations recs)%nat
    /\ (Some "Oslo" = None -> weather r = None).
Proof.
  apply (stocked_wardrobe_succeeds
           Sample.stocked_world "ada" (mkUser "ada@example.org" ["minimal"])
           (Sample.garment "1" "Navy Shirt" "tops" "navy")
           [Sample.garment "2" "Jeans" "bottoms" "blue";
            Sample.garment "3" "Red Shirt" "tops" "red";
            Sample.garment "4" "Boots" "shoes" "black"]
           (Some "Oslo") None []).
  - exists tt. reflexivity.
  - reflexivity.
  - reflexivity.
Defined.

End ServiceFacts.

(* ------------------------------------------------------------------ *)
(** ** The shape of the mined preferences *)
(* ------------------------------------------------------------------ *)

Module HistoryShapeFacts.
Import PersonalizedAIService.

(** *** Dictionaries *)

Lemma dict_update_keys {V : Type} (k : string) (f : option V -> V)
      (d : list (string * V)) :
  (In k (List.map fst d)
   /\ List.map fst (Py.dict_update String.eqb k f d) = List.map fst d)
  \/ (~ In k (List.map fst d)
      /\ List.map fst (Py.dict_update String.eqb k f d) = List.map fst d ++ [k]).
Proof.
  induction d as [| [k0 v] d IH]; simpl.
  - right. split; [tauto | reflexivity].
  - destruct (String.eqb k k0) eqn:E.
    + apply String.eqb_eq in E. subst k0. left. simpl. auto.
    + apply String.eqb_neq in E. destruct IH as [[Hin Hk] | [Hnin Hk]].
      * left. simpl. rewrite Hk. auto.
      * right. simpl. rewrite Hk. split; [| reflexivity]. intros [H | H]; congruence.
Qed.

Lemma dict_update_keys_NoDup {V : Type} (k : string) (f : option V -> V)
      (d : list (string * V)) :
  List.NoDup (List.map fst d) ->
  List.NoDup (List.map fst (Py.dict_update String.eqb k f d)).
Proof.
  intros H. destruct (dict_update_keys k f d) as [[_ ->] | [Hnin ->]]; [exact H |].
  apply List.NoDup_app; [exact H | repeat constructor; intros [] |].
  intros x Hx [<- | []]. contradiction.
Qed.

Lemma dict_update_keys_Forall {V : Type} (P : string -> Prop) (k : string)
      (f : option V -> V) (d : list (string * V)) :
  P k -> List.Forall P (List.map fst d) ->
  List.Forall P (List.map fst (Py.dict_update String.eqb k f d)).
Proof.
  intros Hk H. destruct (dict_update_keys k f d) as [[_ ->] | [_ ->]]; [exact H |].
  apply List.Forall_app. split; [exact H | now constructor].
Qed.

(** *** The colours *)

Lemma item_step_color_scores (s : Q) (r : option Z) (cats : list string) (t : Tally)
      (it : HistoryItem) :
  color_scores (snd (item_step s r (cats, t) it))
  = if color_counts (history_color it)
    then Py.dict_update String.eqb (history_color it)
           (fun o => (match o with Some v => v | None => 0 end + s)%Q) (color_scores t)
    else color_scores t.
Proof.
  unfold item_step.
  destruct (color_counts (history_color it)),
           (Py.truthy (Py.strip (Py.lower (Py.str_opt (h_category it))))),
           (Py.truthy (Py.str_opt (h_id it))); reflexivity.
Qed.

Lemma item_step_occasion_count (s : Q) (r : option Z) (cats : list string) (t : Tally)
      (it : HistoryItem) :
  occasion_count (snd (item_step s r (cats, t) it)) = occasion_count t.
Proof.
  unfold item_step.
  destruct (color_counts (history_color it)),
           (Py.truthy (Py.strip (Py.lower (Py.str_opt (h_category it))))),
           (Py.truthy (Py.str_opt (h_id it))); reflexivity.
Qed.

Lemma items_fold_color_keys (P : string -> Prop) (s : Q) (r : option Z)
      (its : list HistoryItem) (cats : list string) (t : Tally) :
  (forall it, In it its -> P (history_color it)) ->
  color_keys_ok P t ->
  color_keys_ok P (snd (List.fold_left (item_step s r) its (cats, t))).
Proof.
  revert cats t. induction its as [| it its IH]; intros cats t HP Ht; [exact Ht |].
  cbn [List.fold_left].
  destruct (item_step s r (cats, t) it) as [cats' t'] eqn:E.
  apply IH; [intros x Hx; apply HP; now right |].
  assert (Hc : color_scores t' = color_scores (snd (item_step s r (cats, t) it)))
    by now rewrite E.
  rewrite item_step_color_scores in Hc.
  destruct Ht as [Hnd Hall]. unfold color_keys_ok. rewrite Hc.
  destruct (color_counts (history_color it)) eqn:Hcc; [| split; assumption].
  split; [now apply dict_update_keys_NoDup |].
  apply dict_update_keys_Forall; [| exact Hall].
  split; [exact Hcc | apply HP; now left].
Qed.

Lemma items_fold_occasion_count (s : Q) (r : option Z) (its : list HistoryItem)
      (cats : list string) (t : Tally) :
  occasion_count (snd (List.fold_left (item_step s r) its (cats, t))) = occasion_count t.
Proof.
  revert cats t. induction its as [| it its IH]; intros cats t; [reflexivity |].
  cbn [List.fold_left].
  destruct (item_step s r (cats, t) it) as [cats' t'] eqn:E.
  rewrite IH. change t' with (snd (cats', t')). rewrite <- E.
  apply item_step_occasion_count.
Qed.

Lemma entry_step_color_keys (P : string -> Prop) (t : Tally) (e : HistoryEntry) :
  (forall it, In it (outfit_items e) -> P (history_color it)) ->
  color_keys_ok P t -> color_keys_ok P (entry_step t e).
Proof.
  intros HP Ht. unfold entry_step.
  destruct (outfit_items e) as [| it its] eqn:Hits; [exact Ht |].
  set (s := outfit_score_of _ _). set (t0 := mkTally _ _ _ _ _ _).
  pose proof (items_fold_color_keys P s (rating e) (it :: its) [] t0 HP Ht) as H.
  destruct (List.fold_left (item_step s (rating e)) (it :: its) ([], t0)) as [cats t'].
  destruct (2 <=? List.length cats)%nat; exact H.
Qed.

Lemma tally_fold_color_keys (P : string -> Prop) (h : list HistoryEntry) (t : Tally) :
  (forall e it, In e h -> In it (outfit_items e) -> P (history_color it)) ->
  color_keys_ok P t -> color_keys_ok P (List.fold_left entry_step h t).
Proof.
  revert t. induction h as [| e h IH]; intros t HP Ht; [exact Ht |].
  cbn [List.fold_left]. apply IH.
  - intros e' it He'. apply HP. now right.
  - apply entry_step_color_keys; [| exact Ht]. intros it. apply HP. now left.
Qed.

(** X19.  The favourite colours mined from a history are at most ten,
    pairwise distinct, and each one is the colour (in lower case, stripped)
    of an item of the history; the empty colour, "none" and "unknown" are
    never among them. *)
Theorem favorite_colors_shape (outfit_history : list HistoryEntry)
        (wardrobe_items : list Item) :
  let favorites := favorite_colors (_analyze_user_history outfit_history wardrobe_items) in
  (List.length favorites <= 10)%nat
  /\ List.NoDup favorites
  /\ List.Forall
       (fun c => c <> "" /\ c <> "none" /\ c <> "unknown"
                 /\ exists outfit item,
                      In outfit outfit_history /\ In item (outfit_items outfit)
                      /\ history_color item = c)
       favorites.
Proof.
  destruct outfit_history as [| e0 h0] eqn:Eh;
    [simpl; repeat split; [lia | constructor | constructor] |].
  rewrite <- Eh. clear Eh e0 h0.
  assert (Hk : color_keys_ok (worn_color outfit_history) (tally_history outfit_history)).
  { apply tally_fold_color_keys.
    - intros e it He Hit. exists e, it. auto.
    - split; constructor. }
  destruct Hk as [Hnd Hall].
  assert (E : favorite_colors (_analyze_user_history outfit_history wardrobe_items)
              = List.firstn 10 (List.map fst (Py.sort_desc snd
                                  (color_scores (tally_history outfit_history))))).
  { destruct outfit_history; [reflexivity |].
    unfold _analyze_user_history. cbn [favorite_colors]. now rewrite List.firstn_map. }
  cbn zeta. rewrite E.
  assert (Hperm : Permutation
                    (List.map fst (Py.sort_desc snd
                                     (color_scores (tally_history outfit_history))))
                    (List.map fst (color_scores (tally_history outfit_history)))).
  { apply Permutation_map, PyFacts.sort_desc_perm. }
  split; [rewrite List.length_firstn; lia |].
  split.
  - apply PyFacts.firstn_NoDup. eapply Permutation_NoDup; [apply Permutation_sym, Hperm |].
    exact Hnd.
  - apply List.Forall_forall. intros c Hc. apply PyFacts.firstn_In in Hc.
    eapply Permutation_in in Hc; [| exact Hperm].
    rewrite List.Forall_forall in Hall. destruct (Hall c Hc) as [Hcc Hworn].
    unfold color_counts, Py.mem in Hcc. cbn [List.existsb] in Hcc.
    apply andb_true_iff in Hcc. destruct Hcc as [_ Hcc].
    apply negb_true_iff in Hcc.
    repeat (apply orb_false_iff in Hcc; destruct Hcc as [? Hcc]).
    repeat split; try (now apply String.eqb_neq). exact Hworn.
Qed.

(** *** Entries without items *)

Lemma entry_step_skips (t : Tally) (e : HistoryEntry) :
  has_items e = false -> entry_step t e = t.
Proof.
  unfold has_items, entry_step. destruct (outfit_items e); [reflexivity | discriminate].
Qed.

Lemma tally_with_items (h : list HistoryEntry) (t : Tally) :
  List.fold_left entry_step h t = List.fold_left entry_step (with_items h) t.
Proof.
  revert t. induction h as [| e h IH]; intros t; [reflexivity |].
  unfold with_items. cbn [List.fold_left List.filter].
  destruct (has_items e) eqn:E.
  - cbn [List.fold_left]. apply IH.
  - rewrite (entry_step_skips t e E). apply IH.
Qed.

(** X20.  History entries without items count for nothing: the mined
    preferences are those of the history with these entries left out, and a
    history made of such entries only gives the empty preferences. *)
Theorem entries_without_items_ignored (outfit_history : list HistoryEntry)
        (wardrobe_items : list Item) :
  _analyze_user_history outfit_history wardrobe_items
  = _analyze_user_history (with_items outfit_history) wardrobe_items
  /\ (with_items outfit_history = [] ->
      _analyze_user_history outfit_history wardrobe_items = empty_preferences).
Proof.
  assert (Ht : tally_history outfit_history = tally_history (with_items outfit_history)).
  { apply tally_with_items. }
  assert (Hnil : with_items outfit_history = [] ->
                 _analyze_user_history outfit_history wardrobe_items = empty_preferences).
  { intros E. destruct outfit_history as [| e h]; [reflexivity |].
    unfold _analyze_user_history. rewrite Ht, E. reflexivity. }
  split; [| exact Hnil].
  destruct (with_items outfit_history) as [| x l] eqn:E.
  - now rewrite Hnil.
  - destruct outfit_history as [| e h]; [discriminate |].
    unfold _analyze_user_history. rewrite Ht. reflexivity.
Qed.

(** *** The occasions *)

Lemma fold_add (l : list Z) (a : Z) :
  List.fold_left Z.add l a = (a + List.fold_left Z.add l 0)%Z.
Proof.
  revert a. induction l as [| x l IH]; intros a; cbn [List.fold_left]; [lia |].
  rewrite (IH (a + x)%Z), (IH (0 + x)%Z). lia.
Qed.

Lemma dict_update_total {K : Type} (eqb : K -> K -> bool) (k : K) (d : list (K * Z)) :
  List.fold_left Z.add
    (List.map snd
       (Py.dict_update eqb k (fun o => (match o with Some v => v | None => 0 end + 1)%Z) d))
    0%Z
  = (List.fold_left Z.add (List.map snd d) 0 + 1)%Z.
Proof.
  induction d as [| [k0 v] d IH]; simpl; [reflexivity |].
  destruct (eqb k k0); simpl.
  - rewrite fold_add, (fold_add _ v). lia.
  - rewrite fold_add, IH, (fold_add _ v). lia.
Qed.

Lemma dict_update_positive {K : Type} (eqb : K -> K -> bool) (k : K) (d : list (K * Z)) :
  List.Forall (fun kv => 0 < snd kv)%Z d ->
  List.Forall (fun kv => 0 < snd kv)%Z
    (Py.dict_update eqb k (fun o => (match o with Some v => v | None => 0 end + 1)%Z) d).
Proof.
  induction 1 as [| [k0 v] d Hv Hd IH]; simpl.
  - repeat constructor.
  - destruct (eqb k k0); constructor; simpl in *; try assumption; lia.
Qed.

Lemma entry_step_occasion_count (t : Tally) (e : HistoryEntry) :
  occasion_count (entry_step t e)
  = if has_items e
    then Py.dict_update opt_eqb (occasion e)
           (fun o => (match o with Some v => v | None => 0 end + 1)%Z) (occasion_count t)
    else occasion_count t.
Proof.
  unfold entry_step, has_items.
  destruct (outfit_items e) as [| it its]; [reflexivity |].
  set (s := outfit_score_of _ _). set (t0 := mkTally _ _ _ _ _ _).
  pose proof (items_fold_occasion_count s (rating e) (it :: its) [] t0) as H.
  destruct (List.fold_left (item_step s (rating e)) (it :: its) ([], t0)) as [cats t'].
  destruct (2 <=? List.length cats)%nat; exact H.
Qed.

Lemma tally_fold_occasions (h : list HistoryEntry) (t : Tally) :
  List.Forall (fun kv => 0 < snd kv)%Z (occasion_count t) ->
  List.fold_left Z.add (List.map snd (occasion_count (List.fold_left entry_step h t))) 0%Z
  = (List.fold_left Z.add (List.map snd (occasion_count t)) 0
     + Z.of_nat (List.length (with_items h)))%Z
  /\ List.Forall (fun kv => 0 < snd kv)%Z
                 (occasion_count (List.fold_left entry_step h t)).
Proof.
  revert t. induction h as [| e h IH]; intros t Ht.
  - simpl. split; [lia | exact Ht].
  - unfold with_items. cbn [List.fold_left List.filter].
    assert (Hpos : List.Forall (fun kv => 0 < snd kv)%Z (occasion_count (entry_step t e))).
    { rewrite entry_step_occasion_count.
      destruct (has_items e); [now apply dict_update_positive | exact Ht]. }
    destruct (IH _ Hpos) as [Hsum Hall]. split; [| exact Hall].
    rewrite Hsum, entry_step_occasion_count. unfold with_items.
    destruct (has_items e).
    + rewrite dict_update_total. simpl List.length. lia.
    + lia.
Qed.

Lemma sum_of_fractions {K : Type} (T : Q) (d : list (K * Z)) :
  (Py.sum (List.map (fun kv => inject_Z (snd kv) / T) d)
   == inject_Z (List.fold_left Z.add (List.map snd d) 0%Z) / T)%Q.
Proof.
  induction d as [| [k v] d IH].
  - unfold Py.sum. cbn [List.map List.fold_left].
    change (inject_Z 0) with 0%Q. unfold Qdiv. ring.
  - cbn [List.map snd]. rewrite HistoryFacts.sum_cons, IH.
    cbn [List.fold_left]. rewrite (fold_add _ (0 + v)%Z).
    change (0 + v)%Z with v. rewrite inject_Z_plus. unfold Qdiv. ring.
Qed.

(** With quotients that do not round, the occasion preferences are
    positive fractions that add up to 1. *)
Lemma occasion_preferences_fractions (outfit_history : list HistoryEntry)
      (wardrobe_items : list Item) :
  with_items outfit_history <> [] ->
  let preferences :=
    occasion_preferences (_analyze_user_history outfit_history wardrobe_items) in
  (Py.sum (List.map snd preferences) == 1)%Q
  /\ List.Forall (fun kv => 0 < snd kv)%Q preferences.
Proof.
  intros Hne.
  destruct (tally_fold_occasions outfit_history empty_tally) as [Hsum Hpos];
    [constructor |].
  fold (tally_history outfit_history) in Hsum, Hpos.
  cbn [empty_tally occasion_count List.map List.fold_left] in Hsum.
  assert (Hlen : (0 < Z.of_nat (List.length (with_items outfit_history)))%Z).
  { destruct (with_items outfit_history); [congruence | simpl List.length; lia]. }
  destruct outfit_history as [| e h]; [now destruct Hne |].
  unfold _analyze_user_history. cbn [occasion_preferences].
  set (total := List.fold_left Z.add _ 0%Z) in *.
  assert (Htot : (0 <? total)%Z = true) by (apply Z.ltb_lt; lia).
  cbn zeta. rewrite Htot. cbn iota.
  assert (HT : (0 < inject_Z total)%Q) by (unfold Qlt; simpl; lia).
  split.
  - rewrite List.map_map.
    rewrite (List.map_ext _ (fun kv => inject_Z (snd kv) / inject_Z total)%Q)
      by (intros [k v]; reflexivity).
    rewrite sum_of_fractions. fold total.
    unfold Qdiv. apply Qmult_inv_r. intros E. rewrite E in HT. now apply Qlt_irrefl in HT.
  - apply List.Forall_map. eapply List.Forall_impl; [| exact Hpos].
    intros [k v] Hv. cbn [snd] in *.
    apply Qlt_shift_div_l; [exact HT |].
    rewrite Qmult_0_l. unfold Qlt. simpl. lia.
Qed.

Lemma sum_nonneg_bound (xs : list Q) (x : Q) :
  List.Forall (fun y => 0 < y)%Q xs -> In x xs -> (x <= Py.sum xs)%Q.
Proof.
  induction 1 as [| y ys Hy Hys IH]; intros Hin; [destruct Hin |].
  rewrite HistoryFacts.sum_cons.
  assert (H0 : (0 <= Py.sum ys)%Q).
  { clear IH Hin. induction Hys as [| z zs Hz _ IHz].
    - unfold Py.sum. simpl. apply Qle_refl.
    - rewrite HistoryFacts.sum_cons. lra. }
  destruct Hin as [<- | Hin]; [lra |].
  specialize (IH Hin). lra.
Qed.

(** X21.  When at least one entry of the history has items, the occasion
    preferences are fractions above 0 and at most 1 that add up to 1, up
    to the rounding of the floating-point quotients, for which
    [Py.float_slack] leaves room. *)
Theorem occasion_preferences_distribution (outfit_history : list HistoryEntry)
        (wardrobe_items : list Item) :
  with_items outfit_history <> [] ->
  let preferences :=
    occasion_preferences (_analyze_user_history outfit_history wardrobe_items) in
  (Qabs (Py.sum (List.map snd preferences) - 1) <= Py.float_slack)%Q
  /\ List.Forall (fun kv => 0 < snd kv <= 1)%Q preferences.
Proof.
  intros Hne preferences.
  destruct (occasion_preferences_fractions outfit_history wardrobe_items Hne)
    as [Hsum Hpos].
  fold preferences in Hsum, Hpos. split.
  - assert (E : (Py.sum (List.map snd preferences) - 1 == 0)%Q) by lra.
    rewrite E. unfold Py.float_slack, Qle. simpl. lia.
  - apply List.Forall_forall. intros kv Hin.
    pose proof Hpos as Hpos'. rewrite List.Forall_forall in Hpos'.
    split; [now apply Hpos' |].
    rewrite <- Hsum. apply sum_nonneg_bound.
    + apply List.Forall_map. exact Hpos.
    + now apply List.in_map.
Qed.

Lemma occasion_preferences_distribution_witness :
  let preferences :=
    occasion_preferences (_analyze_user_history Sample.red_twice_then_blue []) in
  (Qabs (Py.sum (List.map snd preferences) - 1) <= Py.float_slack)%Q
  /\ List.Forall (fun kv => 0 < snd kv <= 1)%Q preferences.
Proof.
  apply (occasion_preferences_distribution Sample.red_twice_then_blue []).
  vm_compute. discriminate.
Defined.

End HistoryShapeFacts.

(* ------------------------------------------------------------------ *)
(** ** Further properties of the similarity search *)
(* ------------------------------------------------------------------ *)

Module SearchFacts.
Import Similarity.

Section Search.
Variable similarity_of : list Q -> list Q -> Py.result pyfloat.

Lemma firstn_slice {A : Type} (k1 k2 : Z) (xs : list A) :
  (0 <= k1 <= k2)%Z ->
  Py.slice_to k1 xs = List.firstn (Z.to_nat k1) (Py.slice_to k2 xs).
Proof.
  intros H. rewrite !PyFacts.slice_to_nonneg by lia.
  rewrite List.firstn_firstn. f_equal. lia.
Qed.

Lemma search_prefix (q : list Q) (its : list Item) (k1 k2 : Z) (m : Q) :
  (0 <= k1 <= k2)%Z ->
  exists long,
    find_similar_items_with similarity_of q its k2 m = Py.Return long
    /\ find_similar_items_with similarity_of q its k1 m
       = Py.Return (List.firstn (Z.to_nat k1) long).
Proof.
  intros H. unfold find_similar_items_with.
  destruct (scan similarity_of q its m []) as [sims | ex]; simpl.
  - eexists. split; [reflexivity |]. f_equal. now apply firstn_slice.
  - exists []. split; [reflexivity |]. now rewrite List.firstn_nil.
Qed.

Lemma scan_skips_bare_items (q : list Q) (its : list Item) (m : Q)
      (acc : list SimilarItem) :
  scan similarity_of q its m acc
  = scan similarity_of q (List.filter has_embedding its) m acc.
Proof.
  revert acc. induction its as [| it its IH]; intros acc; [reflexivity |].
  cbn [List.filter]. unfold has_embedding at 1.
  destruct (embedding it) as [e |] eqn:He.
  - cbn [scan]. rewrite He.
    destruct (similarity_of q e) as [[s |] | ex]; simpl; [| apply IH | reflexivity].
    destruct (Qle_bool m s); apply IH.
  - cbn [scan]. rewrite He. apply IH.
Qed.

Lemma search_skips_bare_items (q : list Q) (its : list Item) (k : Z) (m : Q) :
  find_similar_items_with similarity_of q its k m
  = find_similar_items_with similarity_of q (List.filter has_embedding its) k m.
Proof.
  unfold find_similar_items_with. now rewrite scan_skips_bare_items.
Qed.

End Search.

(** X22.  Asking either similarity search for fewer results gives a
    prefix of the longer answer: for [0 <= k1 <= k2] the result for
    [top_k = k1] is the first [k1] entries of the result for [top_k = k2]. *)
Theorem fewer_results_are_a_prefix (linalg_norm : list Q -> Q) (query_embedding : list Q)
        (wardrobe_items : list Item) (k1 k2 : Z) (min_similarity : Q) :
  (0 <= k1 <= k2)%Z ->
  (exists long,
      FashionAIService.find_similar_items query_embedding wardrobe_items k2 min_similarity
      = Py.Return long
      /\ FashionAIService.find_similar_items query_embedding wardrobe_items k1 min_similarity
         = Py.Return (List.firstn (Z.to_nat k1) long))
  /\ (exists long,
        CLIPService.find_similar_items linalg_norm query_embedding wardrobe_items k2
                                       min_similarity
        = Py.Return long
        /\ CLIPService.find_similar_items linalg_norm query_embedding wardrobe_items k1
                                          min_similarity
           = Py.Return (List.firstn (Z.to_nat k1) long)).
Proof.
  intros H. split.
  - apply (search_prefix FashionAIService.similarity _ _ _ _ _ H).
  - unfold CLIPService.find_similar_items. now apply search_prefix.
Qed.

Lemma fewer_results_are_a_prefix_witness :
  (exists long,
      FashionAIService.find_similar_items
        [1; 0]%Q [Sample.north; Sample.unseen; Sample.east] 2 0
      = Py.Return long
      /\ FashionAIService.find_similar_items
           [1; 0]%Q [Sample.north; Sample.unseen; Sample.east] 1 0
         = Py.Return (List.firstn (Z.to_nat 1) long))
  /\ (exists long,
        CLIPService.find_similar_items
          (fun _ => 1%Q) [1; 0]%Q [Sample.north; Sample.unseen; Sample.east] 2 0
        = Py.Return long
        /\ CLIPService.find_similar_items
             (fun _ => 1%Q) [1; 0]%Q [Sample.north; Sample.unseen; Sample.east] 1 0
           = Py.Return (List.firstn (Z.to_nat 1) long)).
Proof.
  apply (fewer_results_are_a_prefix
           (fun _ => 1%Q) [1; 0]%Q [Sample.north; Sample.unseen; Sample.east] 1 2 0).
  lia.
Defined.

(** X23.  Wardrobe items without an embedding play no part in either
    similarity search: leaving them out of the wardrobe changes nothing. *)
Theorem items_without_embedding_ignored (linalg_norm : list Q -> Q)
        (query_embedding : list Q) (wardrobe_items : list Item) (top_k : Z)
        (min_similarity : Q) :
  FashionAIService.find_similar_items query_embedding wardrobe_items top_k min_similarity
  = FashionAIService.find_similar_items
      query_embedding (List.filter has_embedding wardrobe_items) top_k min_similarity
  /\ CLIPService.find_similar_items linalg_norm query_embedding wardrobe_items top_k
                                    min_similarity
     = CLIPService.find_similar_items
         linalg_norm query_embedding (List.filter has_embedding wardrobe_items) top_k
         min_similarity.
Proof.
  split.
  - apply (search_skips_bare_items FashionAIService.similarity).
  - unfold CLIPService.find_similar_items. apply search_skips_bare_items.
Qed.

End SearchFacts.

(* ------------------------------------------------------------------ *)
(** ** [generate_outfit_combinations] *)
(* ------------------------------------------------------------------ *)

Module WardrobeCombinationFacts.
Import OutfitService.

Section Loop.
Context {Rng : Type}.
Variable random : Rng -> Q * Rng.
Variable randbelow : Z -> Rng -> Z * Rng.

Lemma combinations_loop_ok (P : Outfit -> Prop) (categorized : Categorized)
      (occasion : string) (n : nat) (combinations : list Outfit) :
  (forall o, created_from categorized occasion o ->
             _is_outfit_valid o occasion = true -> P o) ->
  List.Forall P combinations ->
  always (combinations_loop random randbelow categorized occasion n combinations)
         (fun r => List.Forall P r
                   /\ (List.length r <= List.length combinations + n)%nat).
Proof.
  intros HP. revert combinations.
  induction n as [| n IH]; intros combinations Hc; cbn [combinations_loop].
  - apply DrawFacts.always_ret. split; [exact Hc | lia].
  - eapply DrawFacts.always_bind; [apply DrawFacts.create_outfit_ok |].
    intros outfit Ho.
    eapply DrawFacts.always_weaken; [apply IH |].
    + destruct outfit as [o |]; [| exact Hc].
      destruct (_is_outfit_valid o occasion) eqn:Hv; [| exact Hc].
      apply List.Forall_app. split; [exact Hc |].
      constructor; [| constructor]. apply HP; [now apply Ho | exact Hv].
    + intros r [Hr Hl]. split; [exact Hr |].
      destruct outfit as [o |]; [| lia].
      destruct (_is_outfit_valid o occasion); [| lia].
      rewrite List.length_app in Hl. simpl in Hl. lia.
Qed.

(** X24.  [generate_outfit_combinations] returns at most
    [min(max_combinations, 10)] outfits (none when [max_combinations] is not
    positive); each one passed [_is_outfit_valid], carries the occasion asked
    for and has between two and six items, all of them items of the wardrobe
    it was given. *)
Theorem generated_combinations_valid (wardrobe_items : list Item) (occasion : string)
        (max_combinations : Z) (g : Rng) :
  let combinations :=
    fst (generate_outfit_combinations random randbelow wardrobe_items occasion
                                      max_combinations g) in
  (Z.of_nat (List.length combinations) <= Z.max 0 (Z.min max_combinations 10))%Z
  /\ List.Forall
       (fun o =>
          _is_outfit_valid o occasion = true
          /\ OutfitService.occasion o = occasion
          /\ (2 <= List.length (items o) <= 6)%nat
          /\ List.Forall (fun x => In x wardrobe_items) (items o))
       combinations.
Proof.
  unfold generate_outfit_combinations.
  pose proof (combinations_loop_ok
                (fun o =>
                   _is_outfit_valid o occasion = true
                   /\ OutfitService.occasion o = occasion
                   /\ (2 <= List.length (items o) <= 6)%nat
                   /\ List.Forall (fun x => In x wardrobe_items) (items o))
                (_categorize_items wardrobe_items) occasion
                (Z.to_nat (Z.min max_combinations 10)) []) as H.
  cbn zeta. destruct (H) with (g := g) as [Hall Hlen].
  - intros o (Hlen & Hfrom & Hocc) Hv. repeat split; try assumption; try lia.
    eapply List.Forall_impl; [| exact Hfrom]. intros x Hx.
    eapply Permutation_in; [| exact Hx].
    apply (PartitionFacts.outfit_fold_partition wardrobe_items empty_categorized).
  - constructor.
  - split; [| exact Hall]. simpl List.length in Hlen. lia.
Qed.

End Loop.

(** On the sample closet the ten attempts give five outfits, among them
    one three times: unlike [generate_suggestions], this function keeps
    duplicates. *)
Example generate_outfit_combinations_sample :
  List.map (fun o => signature (items o))
           (fst (generate_outfit_combinations Sample.random Sample.randbelow Sample.closet
                                              "casual" 50 0%nat))
  = [["3"; "4"; "6"]; ["3"; "4"; "6"]; ["1"; "2"; "4"; "6"];
     ["3"; "4"; "6"]; ["1"; "2"; "4"; "6"]].
Proof. vm_compute. reflexivity. Qed.

End WardrobeCombinationFacts.

(* ------------------------------------------------------------------ *)
(** ** Mined preferences and the personalized score *)
(* ------------------------------------------------------------------ *)

Module PersonalizedScoreFacts.
Import PersonalizedAIService.

(** *** Dictionaries *)

Lemma dict_update_values {K V : Type} (eqb : K -> K -> bool) (P : V -> Prop) (k : K)
      (f : option V -> V) (d : list (K * V)) :
  P (f None) -> (forall v, P v -> P (f (Some v))) ->
  List.Forall (fun kv => P (snd kv)) d ->
  List.Forall (fun kv => P (snd kv)) (Py.dict_update eqb k f d).
Proof.
  intros Hn Hs. induction 1 as [| [k0 v] d Hv Hd IH]; simpl.
  - repeat constructor. exact Hn.
  - destruct (eqb k k0); constructor; simpl in *; auto.
Qed.

Lemma dict_get_value {K V : Type} (eqb : K -> K -> bool) (P : V -> Prop) (k : K)
      (d : list (K * V)) (v : V) :
  List.Forall (fun kv => P (snd kv)) d -> Py.dict_get eqb k d = Some v -> P v.
Proof.
  induction 1 as [| [k0 v0] d Hv Hd IH]; simpl; [discriminate |].
  destruct (eqb k k0); [now intros [= <-] | exact IH].
Qed.

(** *** The ratings kept per colour *)

Lemma item_step_color_ratings (s : Q) (r : option Z) (cats : list string) (t : Tally)
      (it : HistoryItem) :
  t_color_ratings (snd (item_step s r (cats, t) it))
  = if color_counts (history_color it) && rating_truthy r
    then Py.dict_update String.eqb (history_color it)
           (fun o => match o with Some v => v | None => [] end
                     ++ match r with Some x => [x] | None => [] end)
           (t_color_ratings t)
    else t_color_ratings t.
Proof.
  unfold item_step.
  destruct (color_counts (history_color it)), (rating_truthy r),
           (Py.truthy (Py.strip (Py.lower (Py.str_opt (h_category it))))),
           (Py.truthy (Py.str_opt (h_id it))); reflexivity.
Qed.

Lemma items_fold_color_ratings (s : Q) (r : option Z) (its : list HistoryItem)
      (cats : list string) (t : Tally) :
  (forall x, r = Some x -> 0 <= x)%Z ->
  List.Forall (fun kv => List.Forall (fun x => 1 <= x)%Z (snd kv)) (t_color_ratings t) ->
  List.Forall (fun kv => List.Forall (fun x => 1 <= x)%Z (snd kv))
              (t_color_ratings (snd (List.fold_left (item_step s r) its (cats, t)))).
Proof.
  intros Hr. revert cats t. induction its as [| it its IH]; intros cats t Ht; [exact Ht |].
  cbn [List.fold_left].
  destruct (item_step s r (cats, t) it) as [cats' t'] eqn:E.
  apply IH.
  assert (Hc : t_color_ratings t' = t_color_ratings (snd (item_step s r (cats, t) it)))
    by now rewrite E.
  rewrite Hc, item_step_color_ratings.
  destruct (color_counts (history_color it) && rating_truthy r) eqn:Hb; [| exact Ht].
  apply andb_true_iff in Hb. destruct Hb as [_ Hb].
  destruct r as [x |]; [| discriminate]. simpl in Hb.
  apply negb_true_iff, Z.eqb_neq in Hb. specialize (Hr x eq_refl).
  apply (dict_update_values String.eqb (List.Forall (fun x => 1 <= x)%Z)).
  - simpl. constructor; [lia | constructor].
  - intros v Hv. apply List.Forall_app. split; [exact Hv |].
    constructor; [lia | constructor].
  - exact Ht.
Qed.

Lemma entry_step_color_ratings (t : Tally) (e : HistoryEntry) :
  (forall x, rating e = Some x -> 0 <= x)%Z ->
  List.Forall (fun kv => List.Forall (fun x => 1 <= x)%Z (snd kv)) (t_color_ratings t) ->
  List.Forall (fun kv => List.Forall (fun x => 1 <= x)%Z (snd kv))
              (t_color_ratings (entry_step t e)).
Proof.
  intros Hr Ht. unfold entry_step.
  destruct (outfit_items e) as [| it its]; [exact Ht |].
  set (s := outfit_score_of _ _). set (t0 := mkTally _ _ _ _ _ _).
  pose proof (items_fold_color_ratings s (rating e) (it :: its) [] t0 Hr Ht) as H.
  destruct (List.fold_left (item_step s (rating e)) (it :: its) ([], t0)) as [cats t'].
  destruct (2 <=? List.length cats)%nat; exact H.
Qed.

Lemma tally_fold_color_ratings (h : list HistoryEntry) (t : Tally) :
  (forall e x, In e h -> rating e = Some x -> 0 <= x)%Z ->
  List.Forall (fun kv => List.Forall (fun x => 1 <= x)%Z (snd kv)) (t_color_ratings t) ->
  List.Forall (fun kv => List.Forall (fun x => 1 <= x)%Z (snd kv))
              (t_color_ratings (List.fold_left entry_step h t)).
Proof.
  revert t. induction h as [| e h IH]; intros t Hr Ht; [exact Ht |].
  cbn [List.fold_left]. apply IH.
  - intros e' x He'. apply Hr. now right.
  - apply entry_step_color_ratings; [| exact Ht]. intros x. apply Hr. now left.
Qed.

(** *** Averages *)

Lemma sum_at_least (lo : Q) (xs : list Q) :
  List.Forall (fun x => lo <= x)%Q xs ->
  (lo * inject_Z (Z.of_nat (List.length xs)) <= Py.sum xs)%Q.
Proof.
  induction 1 as [| x xs Hx _ IH].
  - unfold Py.sum. cbn [List.length List.fold_left].
    change (inject_Z (Z.of_nat 0)) with 0%Q. lra.
  - rewrite HistoryFacts.sum_cons.
    replace (Z.of_nat (List.length (x :: xs))) with (Z.of_nat (List.length xs) + 1)%Z
      by (simpl List.length; lia).
    rewrite inject_Z_plus. change (inject_Z 1) with 1%Q.
    assert (E : (lo * (inject_Z (Z.of_nat (List.length xs)) + 1)
                 == lo * inject_Z (Z.of_nat (List.length xs)) + lo)%Q) by ring.
    rewrite E. lra.
Qed.

Lemma average_at_least (lo : Q) (xs : list Q) :
  xs <> [] ->
  List.Forall (fun x => lo <= x)%Q xs ->
  (lo <= Py.sum xs / inject_Z (Z.of_nat (List.length xs)))%Q.
Proof.
  intros Hne H. apply Qle_shift_div_l; [| now apply sum_at_least].
  destruct xs; [congruence |]. unfold Qlt. simpl. lia.
Qed.

Lemma average_ratings_at_least_one (h : list HistoryEntry) (w : list Item) :
  (forall e x, In e h -> rating e = Some x -> 0 <= x)%Z ->
  List.Forall (fun kv => 1 <= snd kv)%Q (average_ratings (_analyze_user_history h w)).
Proof.
  intros Hr. destruct h as [| e0 h0] eqn:Eh; [constructor |]. rewrite <- Eh in *.
  assert (Ht : List.Forall (fun kv => List.Forall (fun x => 1 <= x)%Z (snd kv))
                           (t_color_ratings (tally_history h))).
  { apply tally_fold_color_ratings; [exact Hr | constructor]. }
  assert (E : average_ratings (_analyze_user_history h w)
              = List.map (fun '(color, ratings) =>
                            (color, (Py.sum (List.map inject_Z ratings)
                                     / inject_Z (Z.of_nat (List.length ratings)))%Q))
                         (List.filter (fun '(_, ratings) =>
                                         match ratings with [] => false | _ => true end)
                                      (t_color_ratings (tally_history h)))).
  { rewrite Eh. reflexivity. }
  rewrite E. apply List.Forall_map. apply List.Forall_forall.
  intros [c rs] Hin. apply List.filter_In in Hin. destruct Hin as [Hin Hne].
  rewrite List.Forall_forall in Ht. specialize (Ht _ Hin). cbn [snd] in *.
  rewrite <- (List.length_map inject_Z).
  apply average_at_least.
  - destruct rs; [discriminate | discriminate].
  - apply List.Forall_map. eapply List.Forall_impl; [| exact Ht].
    intros x Hx. change 1%Q with (inject_Z 1). rewrite <- Zle_Qle. exact Hx.
Qed.

Lemma occasion_preferences_positive (h : list HistoryEntry) (w : list Item) :
  List.Forall (fun kv => 0 <= snd kv)%Q
              (occasion_preferences (_analyze_user_history h w)).
Proof.
  destruct h as [| e0 h0] eqn:Eh; [constructor |]. rewrite <- Eh in *.
  destruct (HistoryShapeFacts.tally_fold_occasions h empty_tally) as [_ Hpos];
    [constructor |].
  fold (tally_history h) in Hpos.
  assert (E : occasion_preferences (_analyze_user_history h w)
              = let total :=
                  List.fold_left Z.add
                    (List.map snd (occasion_count (tally_history h))) 0%Z in
                if (0 <? total)%Z then
                  List.map (fun '(occ, count) =>
                              (occ, (inject_Z count / inject_Z total)%Q))
                           (occasion_count (tally_history h))
                else []).
  { rewrite Eh. reflexivity. }
  rewrite E. cbn zeta.
  destruct (0 <? _)%Z eqn:Htot; [| constructor].
  apply Z.ltb_lt in Htot.
  apply List.Forall_map. eapply List.Forall_impl; [| exact Hpos].
  intros [k v] Hv. cbn [snd] in *.
  apply Qle_shift_div_l; [unfold Qlt; simpl; lia |].
  rewrite Qmult_0_l. unfold Qle. simpl. lia.
Qed.

(** *** The score *)

Lemma ratio_nonneg (n d : nat) : (0 <= ratio n d)%Q.
Proof.
  unfold ratio, Qdiv. apply Qmult_le_0_compat; [unfold Qle; simpl; lia |].
  apply Qinv_le_0_compat. unfold Qle. simpl. lia.
Qed.

Lemma clamp_at_least (lo hi x b : Q) : (b <= x)%Q -> (b <= hi)%Q -> (b <= Py.clamp lo hi x)%Q.
Proof.
  intros Hx Hhi. unfold Py.clamp.
  destruct (Qle_bool lo x) eqn:E1.
  - destruct (Qle_bool x hi); assumption.
  - assert (Hlo : (b <= lo)%Q).
    { destruct (Qlt_le_dec x lo) as [H | H]; [lra |].
      apply Qle_bool_iff in H. congruence. }
    destruct (Qle_bool lo hi); assumption.
Qed.

Lemma score_at_least_base (o : Outfit) (p : Preferences) (occasion : string) :
  List.Forall (fun kv => 0 <= snd kv)%Q (occasion_preferences p) ->
  List.Forall (fun kv => 1 <= snd kv)%Q (average_ratings p) ->
  (50 <= _calculate_personalized_score o p occasion)%Q.
Proof.
  intros Hocc Havg. unfold _calculate_personalized_score.
  destruct (items o) as [| i0 its] eqn:Ei; [unfold Qle; simpl; lia |].
  set (items := i0 :: its).
  set (s1 := match favorite_colors p with [] => _ | _ => _ end).
  assert (H1 : (50 <= s1)%Q).
  { unfold s1. destruct (favorite_colors p); [lra |].
    destruct (lowered color items); [lra |].
    match goal with |- (_ <= _ + ratio ?n ?d * 30)%Q => pose proof (ratio_nonneg n d) end.
    lra. }
  set (s2 := match preferred_combinations p with [] => _ | _ => _ end).
  assert (H2 : (50 <= s2)%Q).
  { unfold s2. destruct (preferred_combinations p); [exact H1 |].
    destruct (_ && _); lra. }
  set (s3 := match most_worn_items p with [] => _ | _ => _ end).
  assert (H3 : (50 <= s3)%Q).
  { unfold s3. destruct (most_worn_items p); [exact H2 |].
    match goal with |- (_ <= _ + ratio ?n ?d * 20)%Q => pose proof (ratio_nonneg n d) end.
    lra. }
  set (s4 := match Py.dict_get opt_eqb _ _ with Some _ => _ | None => _ end).
  assert (H4 : (50 <= s4)%Q).
  { unfold s4.
    destruct (Py.dict_get opt_eqb (Some (Py.lower occasion)) (occasion_preferences p))
      as [weight |] eqn:Eg; [| exact H3].
    pose proof (dict_get_value opt_eqb (fun v => 0 <= v)%Q _ _ _ Hocc Eg). simpl in *. lra. }
  set (ratings := List.flat_map _ (lowered color items)).
  assert (Hr : List.Forall (fun r => 1 <= r)%Q ratings).
  { unfold ratings. apply List.Forall_forall. intros r Hin.
    apply List.in_flat_map in Hin. destruct Hin as (c & _ & Hin).
    destruct (Py.dict_get String.eqb c (average_ratings p)) as [v |] eqn:Eg; [| destruct Hin].
    destruct Hin as [<- | []].
    apply (dict_get_value String.eqb (fun v => 1 <= v)%Q _ _ _ Havg Eg). }
  apply clamp_at_least; [| unfold Qle; simpl; lia].
  destruct (average_ratings p); [exact H4 |].
  destruct ratings as [| r rs] eqn:Er; [exact H4 |].
  pose proof (average_at_least 1 (r :: rs)) as Ha.
  specialize (Ha ltac:(discriminate) Hr).
  set (avg := (Py.sum (r :: rs) / _)%Q) in *.
  assert (H5 : (0 <= (avg - 1) / 4 * 15)%Q).
  { unfold Qdiv. apply Qmult_le_0_compat; [| unfold Qle; simpl; lia].
    apply Qmult_le_0_compat; [lra | unfold Qle; simpl; lia]. }
  lra.
Qed.

(** X25.  Preferences mined from a history without negative ratings
    never cost an outfit points: the personalized score that
    [_calculate_personalized_score] derives from them lies between the base
    score 50 and 100, for every outfit and occasion. *)
Theorem mined_preferences_never_penalize (outfit_history : list HistoryEntry)
        (wardrobe_items : list Item) (outfit : Outfit) (occasion : string) :
  (forall e x, In e outfit_history -> rating e = Some x -> (0 <= x)%Z) ->
  (50 <= _calculate_personalized_score
           outfit (_analyze_user_history outfit_history wardrobe_items) occasion
   <= 100)%Q.
Proof.
  intros Hr. split.
  - apply score_at_least_base.
    + apply occasion_preferences_positive.
    + now apply average_ratings_at_least_one.
  - apply RerankFacts.personalized_score_bounds.
Qed.

Lemma mined_preferences_never_penalize_witness :
  (50 <= _calculate_personalized_score
           (new_outfit Sample.small_wardrobe "separates" None "casual")
           (_analyze_user_history Sample.red_twice_then_blue []) "casual"
   <= 100)%Q.
Proof.
  apply (mined_preferences_never_penalize
           Sample.red_twice_then_blue []
           (new_outfit Sample.small_wardrobe "separates" None "casual") "casual").
  intros e x [<- | [<- | []]] [= <-]; lia.
Defined.

End PersonalizedScoreFacts.

(* ------------------------------------------------------------------ *)
(** ** The weather service *)
(* ------------------------------------------------------------------ *)

Module WeatherFacts.
Import WeatherService.

(** On a temperature that is a number the loop over the table gives the
    category read off the thresholds 0, 10, 20 and 30. *)
Lemma category_by_thresholds (temp_c : Q) :
  get_temperature_category (Degrees temp_c)
  = OutfitService.get_temperature_category temp_c.
Proof.
  unfold get_temperature_category, temperature_categories,
    OutfitService.get_temperature_category, first_category, within, at_least, below,
    Py.Qlt_bool.
  cbn [fst snd].
  destruct (Qle_bool 0 temp_c), (Qle_bool 10 temp_c), (Qle_bool 20 temp_c),
           (Qle_bool 30 temp_c); reflexivity.
Qed.

Lemma category_of_number (temp_c : Q) :
  In (get_temperature_category (Degrees temp_c))
     ["freezing"; "cold"; "cool"; "warm"; "hot"].
Proof.
  rewrite category_by_thresholds. unfold OutfitService.get_temperature_category.
  repeat match goal with |- context [if ?b then _ else _] => destruct b end;
    simpl; tauto.
Qed.

(** The six answers of [get_temperature_category]. *)
Lemma category_is_known (temp_c : reading) :
  In (get_temperature_category temp_c)
     ["freezing"; "cold"; "cool"; "warm"; "hot"; "moderate"].
Proof.
  destruct temp_c as [q | | |]; try (vm_compute; tauto).
  pose proof (category_of_number q) as H. simpl in *. tauto.
Qed.

(** The temperatures without a category of their own. *)
Lemma category_moderate (temp_c : reading) :
  get_temperature_category temp_c = "moderate"
  <-> temp_c = PlusInfinity \/ temp_c = NotANumber.
Proof.
  split.
  - destruct temp_c as [q | | |]; auto.
    + intros E. pose proof (category_of_number q) as H. rewrite E in H.
      simpl in H. intuition discriminate.
    + vm_compute. discriminate.
  - intros [-> | ->]; reflexivity.
Qed.

(** X26.  On a temperature that is a number the loop of
    [get_temperature_category] over the table of bounds gives the category
    read off the thresholds 0, 10, 20 and 30, one of the five categories of
    the table.  [-inf] is freezing.  The answer "moderate" that follows the
    loop is given for [inf] and [nan], and for no other temperature. *)
Theorem temperature_category_total (temp_c : reading) :
  get_temperature_category temp_c
  = match temp_c with
    | Degrees q =>
        if Py.Qlt_bool q 0 then "freezing"
        else if Py.Qlt_bool q 10 then "cold"
        else if Py.Qlt_bool q 20 then "cool"
        else if Py.Qlt_bool q 30 then "warm"
        else "hot"
    | MinusInfinity => "freezing"
    | PlusInfinity | NotANumber => "moderate"
    end
  /\ match temp_c with
     | Degrees q =>
         get_temperature_category temp_c = OutfitService.get_temperature_category q
     | _ => True
     end
  /\ (get_temperature_category temp_c = "moderate"
      <-> temp_c = PlusInfinity \/ temp_c = NotANumber).
Proof.
  split; [| split].
  - destruct temp_c as [q | | |]; try reflexivity. apply category_by_thresholds.
  - destruct temp_c as [q | | |]; try exact I. apply category_by_thresholds.
  - apply category_moderate.
Qed.

Lemma temperature_category_total_witness :
  get_temperature_category NotANumber = "moderate".
Proof.
  apply (temperature_category_total NotANumber). now right.
Defined.

Lemma by_category_complete (category : string) :
  In category ["freezing"; "cold"; "cool"; "warm"; "hot"] ->
  let b := by_category category in
  layers b <> "" /\ outerwear b <> "" /\ bottom b <> "" /\ shoes b <> ""
  /\ accessories b <> "".
Proof.
  intros [<- | [<- | [<- | [<- | [<- | []]]]]]; repeat split; discriminate.
Qed.

(** The adjustments for the condition go by the order of their [if]s. *)
Lemma dress_recommendation_adjusted (weather : Weather) :
  let r := get_dress_recommendation weather in
  let base := by_category (get_temperature_category (temperature_or_default weather)) in
  let condition := Py.lower (condition weather) in
  layers r = layers base
  /\ bottom r = bottom base
  /\ outerwear r
     = (if Py.contains "wind" condition then "Wind-resistant jacket" else outerwear base)
  /\ shoes r
     = (if Py.contains "snow" condition then "Waterproof snow boots with good traction"
        else if Py.contains "rain" condition then "Waterproof shoes or boots"
        else shoes base)
  /\ accessories r
     = (if Py.contains "sun" condition then "Sunglasses, hat, sunscreen essential"
        else if Py.contains "wind" condition then "Scarf to protect face, secure hat"
        else if Py.contains "snow" condition
             then "Winter gloves, waterproof gloves, thermal hat"
        else if Py.contains "rain" condition then "Umbrella, raincoat, waterproof bag"
        else accessories base).
Proof.
  unfold get_dress_recommendation.
  set (c := Py.lower (condition weather)).
  set (b := by_category (get_temperature_category (temperature_or_default weather))).
  cbv zeta.
  destruct (Py.contains "rain" c), (Py.contains "snow" c), (Py.contains "wind" c),
           (Py.contains "sun" c);
    cbn [set_accessories set_shoes set_outerwear layers outerwear bottom shoes accessories];
    repeat split.
Qed.

Lemma dress_recommendation_base (weather : Weather) :
  get_dress_recommendation (mkWeather (temperature weather) "")
  = by_category (get_temperature_category (temperature_or_default weather)).
Proof. reflexivity. Qed.

(** X27.  In [get_dress_recommendation] layers and bottom go by the
    temperature alone; of the adjustments for the condition the later one
    wins: wind sets the outerwear, snow before rain the shoes, and sun
    before wind before snow before rain the accessories.  When the
    temperature has one of the five categories of the table, none of the
    five fields is left empty.  When it has none, which is so for [inf] and
    [nan], the temperature fills no field: layers and bottom are empty, and
    so is every field that the condition does not set. *)
Theorem dress_recommendation_complete (weather : Weather) :
  let r := get_dress_recommendation weather in
  let base := get_dress_recommendation (mkWeather (temperature weather) "") in
  let condition := Py.lower (condition weather) in
  let category := get_temperature_category (temperature_or_default weather) in
  (category <> "moderate" ->
   layers r <> "" /\ outerwear r <> "" /\ bottom r <> "" /\ shoes r <> ""
   /\ accessories r <> "")
  /\ (category = "moderate" -> base = mkDressRecommendation "" "" "" "" "")
  /\ layers r = layers base
  /\ bottom r = bottom base
  /\ outerwear r
     = (if Py.contains "wind" condition then "Wind-resistant jacket" else outerwear base)
  /\ shoes r
     = (if Py.contains "snow" condition then "Waterproof snow boots with good traction"
        else if Py.contains "rain" condition then "Waterproof shoes or boots"
        else shoes base)
  /\ accessories r
     = (if Py.contains "sun" condition then "Sunglasses, hat, sunscreen essential"
        else if Py.contains "wind" condition then "Scarf to protect face, secure hat"
        else if Py.contains "snow" condition
             then "Winter gloves, waterproof gloves, thermal hat"
        else if Py.contains "rain" condition then "Umbrella, raincoat, waterproof bag"
        else accessories base).
Proof.
  cbv zeta. rewrite dress_recommendation_base.
  pose proof (dress_recommendation_adjusted weather) as Hadj. cbv zeta in Hadj.
  destruct Hadj as (Hl & Hb & Ho & Hs & Ha).
  set (category := get_temperature_category (temperature_or_default weather)) in *.
  split; [| split; [| repeat split; assumption]].
  - intros Hcat.
    assert (Hin : In category ["freezing"; "cold"; "cool"; "warm"; "hot"]).
    { pose proof (category_is_known (temperature_or_default weather)) as H.
      fold category in H. simpl in *. intuition congruence. }
    destruct (by_category_complete category Hin) as (B1 & B2 & B3 & B4 & B5).
    rewrite Hl, Hb, Ho, Hs, Ha.
    repeat split; try assumption;
      repeat match goal with |- context [if ?b then _ else _] => destruct b end;
      try assumption; discriminate.
  - intros ->. reflexivity.
Qed.

Lemma dress_recommendation_complete_witness :
  (let r := get_dress_recommendation (mkWeather (Some (Degrees 25)) "Sunny") in
   layers r <> "" /\ outerwear r <> "" /\ bottom r <> "" /\ shoes r <> ""
   /\ accessories r <> "")
  /\ get_dress_recommendation (mkWeather (Some PlusInfinity) "")
     = mkDressRecommendation "" "" "" "" "".
Proof.
  split.
  - apply (dress_recommendation_complete (mkWeather (Some (Degrees 25)) "Sunny")).
    vm_compute. discriminate.
  - apply (dress_recommendation_complete (mkWeather (Some PlusInfinity) "Windy")).
    reflexivity.
Defined.

(** The recommendation for an infinite temperature in the rain. *)
Example dress_recommendation_without_category :
  get_dress_recommendation (mkWeather (Some PlusInfinity) "Light Rain")
  = mkDressRecommendation "" "" "" "Waterproof shoes or boots"
                          "Umbrella, raincoat, waterproof bag".
Proof. vm_compute. reflexivity. Qed.

End WeatherFacts.

(* ------------------------------------------------------------------ *)
(** ** The clothing recommendations of the AI service *)
(* ------------------------------------------------------------------ *)

Module ClothingAdviceFacts.
Import ClothingAdvice.

(** *** Removing duplicates *)

Lemma dedup_In (x : string) (xs : list string) : In x (Py.dedup xs) <-> In x xs.
Proof.
  induction xs as [| y ys IH]; simpl; [tauto |].
  rewrite List.filter_In, IH. split.
  - intros [H | [H _]]; auto.
  - intros [H | H]; [now left |].
    destruct (String.eqb y x) eqn:E.
    + apply String.eqb_eq in E. now left.
    + right. split; [exact H | reflexivity].
Qed.

Lemma dedup_NoDup (xs : list string) : List.NoDup (Py.dedup xs).
Proof.
  induction xs as [| y ys IH]; simpl; constructor.
  - rewrite List.filter_In. intros [_ H]. rewrite String.eqb_refl in H. discriminate.
  - now apply List.NoDup_filter.
Qed.

Lemma dedup_nonempty (xs : list string) : xs <> [] -> Py.dedup xs <> [].
Proof. destruct xs; [congruence | discriminate]. Qed.

Lemma app_nonempty {A : Type} (xs ys : list A) : xs <> [] -> xs ++ ys <> [].
Proof. destruct xs; [congruence | discriminate]. Qed.

(** *** What each step keeps *)

Lemma by_temperature_complete (t : Q) : complete (by_temperature t).
Proof.
  unfold by_temperature, complete.
  repeat match goal with |- context [if ?b then _ else _] => destruct b end;
    repeat split; discriminate.
Qed.

Lemma rain_adjustment_complete (w : WeatherInfo) (r : Recommendations) :
  complete r -> complete (rain_adjustment w r).
Proof.
  unfold rain_adjustment, complete. intros (H1 & H2 & H3 & H4 & H5 & H6).
  destruct (wet w); [| auto 10]. cbn [layers accessories footwear materials colors tips].
  repeat split; try assumption; try discriminate; try (now apply app_nonempty).
  destruct (Py.mem "Umbrella" (accessories r)); [assumption | now apply app_nonempty].
Qed.

Lemma snow_adjustment_complete (w : WeatherInfo) (r : Recommendations) :
  complete r -> complete (snow_adjustment w r).
Proof.
  unfold snow_adjustment, complete. intros (H1 & H2 & H3 & H4 & H5 & H6).
  destruct (snowy w); [| auto 10]. cbn [layers accessories footwear materials colors tips].
  repeat split; try assumption; try discriminate; now apply app_nonempty.
Qed.

Lemma thunderstorm_adjustment_complete (w : WeatherInfo) (r : Recommendations) :
  complete r -> complete (thunderstorm_adjustment w r).
Proof.
  unfold thunderstorm_adjustment, complete. intros (H1 & H2 & H3 & H4 & H5 & H6).
  destruct (Py.contains _ _); [| auto 10].
  cbn [layers accessories footwear materials colors tips].
  repeat split; try assumption; now apply app_nonempty.
Qed.

Lemma wind_adjustment_complete (w : WeatherInfo) (r : Recommendations) :
  complete r -> complete (wind_adjustment w r).
Proof.
  unfold wind_adjustment, complete. intros (H1 & H2 & H3 & H4 & H5 & H6).
  destruct (Py.Qlt_bool _ _); [| auto 10].
  cbn [layers accessories footwear materials colors tips].
  repeat split; try assumption; now apply app_nonempty.
Qed.

Lemma humidity_adjustment_complete (w : WeatherInfo) (r : Recommendations) :
  complete r -> complete (humidity_adjustment w r).
Proof.
  unfold humidity_adjustment, complete. intros (H1 & H2 & H3 & H4 & H5 & H6).
  destruct (_ && _); [| auto 10].
  cbn [layers accessories footwear materials colors tips].
  repeat split; try assumption; now apply app_nonempty.
Qed.

Lemma sun_adjustment_complete (w : WeatherInfo) (r : Recommendations) :
  complete r -> complete (sun_adjustment w r).
Proof.
  unfold sun_adjustment, complete. intros (H1 & H2 & H3 & H4 & H5 & H6). cbv zeta.
  destruct (_ || _); [| auto 10].
  cbn [layers accessories footwear materials colors tips].
  repeat split; try assumption.
  - destruct (_ && _); [now apply app_nonempty | assumption].
  - destruct (Py.Qlt_bool _ _); [now apply app_nonempty | assumption].
Qed.

(** Layers and colours pass through every adjustment. *)
Lemma adjustments_keep_layers_and_colors (w : WeatherInfo) (r : Recommendations) :
  (layers (rain_adjustment w r) = layers r /\ colors (rain_adjustment w r) = colors r)
  /\ (layers (snow_adjustment w r) = layers r /\ colors (snow_adjustment w r) = colors r)
  /\ (layers (thunderstorm_adjustment w r) = layers r
      /\ colors (thunderstorm_adjustment w r) = colors r)
  /\ (layers (wind_adjustment w r) = layers r /\ colors (wind_adjustment w r) = colors r)
  /\ (layers (humidity_adjustment w r) = layers r
      /\ colors (humidity_adjustment w r) = colors r)
  /\ (layers (sun_adjustment w r) = layers r /\ colors (sun_adjustment w r) = colors r).
Proof.
  unfold rain_adjustment, snow_adjustment, thunderstorm_adjustment, wind_adjustment,
    humidity_adjustment, sun_adjustment. cbv zeta.
  repeat split;
    match goal with |- context [if ?c then _ else _] => destruct c end; reflexivity.
Qed.

(** The footwear: set by rain and by snow, kept by the other steps. *)
Lemma adjustments_footwear (w : WeatherInfo) (r : Recommendations) :
  footwear (rain_adjustment w r)
  = (if wet w then ["Waterproof shoes"; "Rain boots"; "Water-resistant sneakers"]
     else footwear r)
  /\ footwear (snow_adjustment w r)
     = (if snowy w then ["Insulated winter boots"; "Waterproof snow boots"]
        else footwear r)
  /\ footwear (thunderstorm_adjustment w r) = footwear r
  /\ footwear (wind_adjustment w r) = footwear r
  /\ footwear (humidity_adjustment w r) = footwear r
  /\ footwear (sun_adjustment w r) = footwear r.
Proof.
  unfold rain_adjustment, snow_adjustment, thunderstorm_adjustment, wind_adjustment,
    humidity_adjustment, sun_adjustment. cbv zeta.
  repeat split;
    match goal with |- context [if ?c then _ else _] => destruct c end; reflexivity.
Qed.

(** The umbrella: added by rain, and by no other step. *)
Lemma adjustments_umbrella (w : WeatherInfo) (r : Recommendations) :
  (In "Umbrella" (accessories (rain_adjustment w r))
   <-> wet w = true \/ In "Umbrella" (accessories r))
  /\ (In "Umbrella" (accessories (snow_adjustment w r)) <-> In "Umbrella" (accessories r))
  /\ accessories (thunderstorm_adjustment w r) = accessories r
  /\ accessories (wind_adjustment w r) = accessories r
  /\ accessories (humidity_adjustment w r) = accessories r
  /\ (In "Umbrella" (accessories (sun_adjustment w r)) <-> In "Umbrella" (accessories r)).
Proof.
  split; [| split; [| split; [| split; [| split]]]].
  - unfold rain_adjustment. destruct (wet w); [| intuition discriminate].
    cbn [accessories]. destruct (Py.mem "Umbrella" (accessories r)) eqn:E.
    + apply List.existsb_exists in E. destruct E as (u & Hu & Eu).
      apply String.eqb_eq in Eu. subst u. tauto.
    + rewrite List.in_app_iff. simpl. tauto.
  - unfold snow_adjustment. destruct (snowy w); [| tauto].
    cbn [accessories]. rewrite List.in_app_iff. simpl. intuition discriminate.
  - unfold thunderstorm_adjustment. now destruct (Py.contains _ _).
  - unfold wind_adjustment. now destruct (Py.Qlt_bool _ _).
  - unfold humidity_adjustment. now destruct (_ && _).
  - unfold sun_adjustment. cbv zeta. destruct (_ || _); [| tauto].
    cbn [accessories]. destruct (_ && _); [| tauto].
    rewrite List.in_app_iff. simpl. intuition discriminate.
Qed.

(** The fields before duplicates are removed. *)
Lemma adjusted_fields (w : WeatherInfo) :
  let r := sun_adjustment w (humidity_adjustment w (wind_adjustment w
             (thunderstorm_adjustment w (snow_adjustment w (rain_adjustment w
                (by_temperature (effective_temp w))))))) in
  layers r = layers (by_temperature (effective_temp w))
  /\ colors r = colors (by_temperature (effective_temp w))
  /\ footwear r
     = (if snowy w then ["Insulated winter boots"; "Waterproof snow boots"]
        else if wet w then ["Waterproof shoes"; "Rain boots"; "Water-resistant sneakers"]
        else footwear (by_temperature (effective_temp w)))
  /\ (In "Umbrella" (accessories r) <->
      wet w = true \/ In "Umbrella" (accessories (by_temperature (effective_temp w)))).
Proof.
  cbv zeta. set (b := by_temperature (effective_temp w)).
  set (r1 := rain_adjustment w b). set (r2 := snow_adjustment w r1).
  set (r3 := thunderstorm_adjustment w r2). set (r4 := wind_adjustment w r3).
  set (r5 := humidity_adjustment w r4).
  destruct (adjustments_keep_layers_and_colors w b) as ((L1 & K1) & _).
  destruct (adjustments_keep_layers_and_colors w r1) as (_ & (L2 & K2) & _).
  destruct (adjustments_keep_layers_and_colors w r2) as (_ & _ & (L3 & K3) & _).
  destruct (adjustments_keep_layers_and_colors w r3) as (_ & _ & _ & (L4 & K4) & _).
  destruct (adjustments_keep_layers_and_colors w r4) as (_ & _ & _ & _ & (L5 & K5) & _).
  destruct (adjustments_keep_layers_and_colors w r5) as (_ & _ & _ & _ & _ & (L6 & K6)).
  destruct (adjustments_footwear w b) as (F1 & _).
  destruct (adjustments_footwear w r1) as (_ & F2 & _).
  destruct (adjustments_footwear w r2) as (_ & _ & F3 & _).
  destruct (adjustments_footwear w r3) as (_ & _ & _ & F4 & _).
  destruct (adjustments_footwear w r4) as (_ & _ & _ & _ & F5 & _).
  destruct (adjustments_footwear w r5) as (_ & _ & _ & _ & _ & F6).
  destruct (adjustments_umbrella w b) as (U1 & _).
  destruct (adjustments_umbrella w r1) as (_ & U2 & _).
  destruct (adjustments_umbrella w r2) as (_ & _ & U3 & _).
  destruct (adjustments_umbrella w r3) as (_ & _ & _ & U4 & _).
  destruct (adjustments_umbrella w r4) as (_ & _ & _ & _ & U5 & _).
  destruct (adjustments_umbrella w r5) as (_ & _ & _ & _ & _ & U6).
  subst r5 r4 r3 r2 r1.
  split; [congruence |]. split; [congruence |]. split.
  - rewrite F6, F5, F4, F3, F2, F1. reflexivity.
  - rewrite U6, U5, U4, U3, U2, U1. reflexivity.
Qed.

(** X28.  The clothing recommendations of the AI service never hold a
    duplicate and never leave a list empty.  Layers and colours go by the
    felt temperature alone; the footwear is the snow footwear when it snows,
    else the rain footwear when it is wet, else the footwear for the
    temperature; and an umbrella is recommended exactly when it is wet. *)
Theorem clothing_recommendations_shape (weather : WeatherInfo) :
  let r := generate_clothing_recommendations weather in
  let base := by_temperature (effective_temp weather) in
  (List.NoDup (layers r) /\ List.NoDup (accessories r) /\ List.NoDup (footwear r)
   /\ List.NoDup (materials r) /\ List.NoDup (colors r) /\ List.NoDup (tips r))
  /\ (layers r <> [] /\ accessories r <> [] /\ footwear r <> []
      /\ materials r <> [] /\ colors r <> [] /\ tips r <> [])
  /\ layers r = layers base
  /\ colors r = colors base
  /\ footwear r
     = (if snowy weather then ["Insulated winter boots"; "Waterproof snow boots"]
        else if wet weather
             then ["Waterproof shoes"; "Rain boots"; "Water-resistant sneakers"]
        else footwear base)
  /\ (In "Umbrella" (accessories r) <-> wet weather = true).
Proof.
  cbv zeta. unfold generate_clothing_recommendations. cbv zeta.
  destruct (adjusted_fields weather) as (Hl & Hc & Hf & Hu). cbv zeta in Hl, Hc, Hf, Hu.
  assert (Hcomplete :
            complete (sun_adjustment weather (humidity_adjustment weather
              (wind_adjustment weather (thunderstorm_adjustment weather
                 (snow_adjustment weather (rain_adjustment weather
                    (by_temperature (effective_temp weather))))))))).
  { apply sun_adjustment_complete, humidity_adjustment_complete, wind_adjustment_complete,
      thunderstorm_adjustment_complete, snow_adjustment_complete,
      rain_adjustment_complete, by_temperature_complete. }
  set (r := sun_adjustment _ _) in *.
  unfold remove_duplicates. cbn [layers accessories footwear materials colors tips].
  destruct Hcomplete as (C1 & C2 & C3 & C4 & C5 & C6).
  split; [repeat split; apply dedup_NoDup |].
  split; [repeat split; now apply dedup_nonempty |].
  rewrite Hl, Hc, Hf, dedup_In, Hu.
  split; [| split; [| split]].
  - unfold by_temperature.
    repeat match goal with |- context [if ?b then _ else _] => destruct b end; reflexivity.
  - unfold by_temperature.
    repeat match goal with |- context [if ?b then _ else _] => destruct b end; reflexivity.
  - destruct (snowy weather); [reflexivity |]. destruct (wet weather); [reflexivity |].
    unfold by_temperature.
    repeat match goal with |- context [if ?b then _ else _] => destruct b end; reflexivity.
  - split; [| now left]. intros [H | H]; [exact H |]. exfalso. revert H.
    unfold by_temperature.
    repeat match goal with |- context [if ?b then _ else _] => destruct b end;
      simpl; intuition discriminate.
Qed.

End ClothingAdviceFacts.

(* ------------------------------------------------------------------ *)
(** ** Similarities one by one and in a batch *)
(* ------------------------------------------------------------------ *)

Module BatchFacts.
Import Similarity.
Import CLIPService.

(** The dot product does not depend on the order of its arguments. *)
Lemma np_dot_sym (a b : list Q) :
  match np_dot a b, np_dot b a with
  | Py.Return x, Py.Return y => (x == y)%Q
  | Py.Raise _, Py.Raise _ => True
  | _, _ => False
  end.
Proof.
  revert b. induction a as [| x a IH]; intros [| y b]; simpl; try reflexivity; try exact I.
  specialize (IH b).
  destruct (np_dot a b), (np_dot b a); simpl; try exact IH. rewrite IH. ring.
Qed.

Section Batch.
Variable linalg_norm : list Q -> Q.

Lemma normalize_length (e : list Q) :
  List.length (normalize linalg_norm e) = List.length e.
Proof. unfold normalize. apply List.length_map. Qed.

(** A row of the length of the query gives the float that
    [compute_similarity] gives. *)
Lemma row_similarity_aligned (q row : list Q) :
  List.length row = List.length q ->
  exists s, row_similarity linalg_norm q row = Py.Return s
            /\ same_float s (compute_similarity linalg_norm q row).
Proof.
  intros Hlen. unfold row_similarity, compute_similarity.
  pose proof (np_dot_sym (normalize linalg_norm row) (normalize linalg_norm q)) as Hsym.
  destruct (SimilarityFacts.np_dot_aligned (normalize linalg_norm row)
                                           (normalize linalg_norm q))
    as (d & Hd & _); [now rewrite !normalize_length |].
  rewrite Hd in *. simpl.
  destruct (np_dot (normalize linalg_norm q) (normalize linalg_norm row)) as [d' | ex];
    [| destruct Hsym].
  eexists. split; [reflexivity |].
  destruct row as [| r0 row], q as [| q0 q]; try discriminate; [exact Hsym |].
  rewrite orb_comm. destruct (_ || _); [exact I | exact Hsym].
Qed.

Lemma row_similarity_mismatch (q row : list Q) :
  List.length row <> List.length q ->
  (exists e, row_similarity linalg_norm q row = Py.Raise e)
  /\ compute_similarity linalg_norm q row = Fin 0.
Proof.
  intros Hlen. unfold row_similarity, compute_similarity.
  destruct (SimilarityFacts.np_dot_mismatch (normalize linalg_norm row)
                                            (normalize linalg_norm q))
    as [e He]; [now rewrite !normalize_length |].
  destruct (SimilarityFacts.np_dot_mismatch (normalize linalg_norm q)
                                            (normalize linalg_norm row))
    as [e' He']; [rewrite !normalize_length; congruence |].
  rewrite He, He'. simpl. eauto.
Qed.

Lemma matrix_dot_aligned (q : list Q) (rows : list (list Q)) :
  (forall row, In row rows -> List.length row = List.length q) ->
  exists out, matrix_dot linalg_norm q rows = Py.Return out
              /\ List.Forall2 (fun s row => same_float s (compute_similarity linalg_norm q row))
                              out rows.
Proof.
  induction rows as [| row rows IH]; intros Hrows; cbn [matrix_dot].
  - exists []. split; [reflexivity | constructor].
  - destruct (row_similarity_aligned q row) as (s & -> & Hs); [apply Hrows; now left |].
    destruct IH as (out & -> & Hout); [intros r Hr; apply Hrows; now right |].
    simpl. eexists. split; [reflexivity |]. now constructor.
Qed.

Lemma np_stack_same_length (d : nat) (arrays : list (list Q)) :
  arrays <> [] ->
  (forall a, In a arrays -> List.length a = d) ->
  np_stack arrays = Py.Return arrays.
Proof.
  intros Hne Hlen. unfold np_stack. destruct arrays as [| first rest]; [congruence |].
  assert (E : List.forallb (fun a => (List.length a =? List.length first)%nat)
                           (first :: rest) = true).
  { apply List.forallb_forall. intros a Ha. apply Nat.eqb_eq.
    rewrite (Hlen a Ha), (Hlen first); [reflexivity | now left]. }
  now rewrite E.
Qed.

(** X29.  When the item embeddings all have one length,
    [batch_compute_similarity] returns one score for each of them, and each
    score is the score that [compute_similarity] gives for the query and
    that embedding, be it a number, [nan] for a vector of norm zero, or the
    0.0 of a query of another length. *)
Theorem batch_agrees_with_single (query_embedding : list Q)
        (item_embeddings : list (list Q)) (d : nat) :
  (forall e, In e item_embeddings -> List.length e = d) ->
  List.Forall2
    (fun s e => same_float s (compute_similarity linalg_norm query_embedding e))
    (batch_compute_similarity linalg_norm query_embedding item_embeddings)
    item_embeddings.
Proof.
  intros Hlen. unfold batch_compute_similarity.
  destruct item_embeddings as [| first rest] eqn:E; [constructor |].
  rewrite <- E in *. assert (Hne : item_embeddings <> []) by (rewrite E; discriminate).
  rewrite (np_stack_same_length d item_embeddings Hne Hlen). cbn [Py.rbind].
  destruct (Nat.eq_dec d (List.length query_embedding)) as [Hd | Hd].
  - destruct (matrix_dot_aligned query_embedding item_embeddings) as (out & -> & Hout);
      [intros row Hrow; rewrite (Hlen row Hrow); exact Hd | exact Hout].
  - assert (Hraise : exists e, matrix_dot linalg_norm query_embedding item_embeddings
                               = Py.Raise e).
    { rewrite E. cbn [matrix_dot].
      destruct (row_similarity_mismatch query_embedding first) as [[e ->] _];
        [rewrite (Hlen first); [exact Hd | rewrite E; now left] |].
      simpl. eauto. }
    destruct Hraise as [e ->].
    clear E Hne. induction item_embeddings as [| row rows IH]; simpl; constructor.
    + destruct (row_similarity_mismatch query_embedding row) as [_ ->];
        [rewrite (Hlen row); [exact Hd | now left] |]. simpl. reflexivity.
    + apply IH. intros r Hr. apply Hlen. now right.
Qed.

End Batch.

Lemma batch_agrees_with_single_witness :
  List.Forall2
    (fun s e => same_float s (compute_similarity (fun _ => 1%Q) [1; 0]%Q e))
    (batch_compute_similarity (fun _ => 1%Q) [1; 0]%Q [[1; 0]%Q; [0; 1]%Q])
    [[1; 0]%Q; [0; 1]%Q].
Proof.
  apply (batch_agrees_with_single (fun _ => 1%Q) [1; 0]%Q [[1; 0]%Q; [0; 1]%Q] 2).
  intros e [<- | [<- | []]]; reflexivity.
Defined.

End BatchFacts.

(* ------------------------------------------------------------------ *)
(** ** The weather tips *)
(* ------------------------------------------------------------------ *)

Module WeatherTipsFacts.
Import WeatherService.

(** X30.  [get_weather_tips] gives three tips for each of its rules that
    applies (cold, warm, rain, sun, wind).  The rules for cold and for warm
    weather never apply together, so there are at most twelve tips; no tip
    is given twice. *)
Theorem weather_tips_by_rule (weather : Weather) :
  let category :=
    WeatherService.get_temperature_category
      (match temperature weather with Some t => t | None => Degrees 20%Q end) in
  let condition := Py.lower (condition weather) in
  let cold := Py.mem category ["cold"; "freezing"] in
  let warm := Py.mem category ["warm"; "hot"] in
  let tips := get_weather_tips weather in
  List.length tips
  = (3 * (Nat.b2n cold + Nat.b2n warm + Nat.b2n (Py.contains "rain" condition)
          + Nat.b2n (Py.contains "sun" condition)
          + Nat.b2n (Py.contains "wind" condition)))%nat
  /\ cold && warm = false
  /\ (List.length tips <= 12)%nat
  /\ List.NoDup tips.
Proof.
  cbv zeta. unfold get_weather_tips. cbv zeta.
  fold (temperature_or_default weather).
  pose proof (WeatherFacts.category_is_known (temperature_or_default weather)) as Hc.
  set (category := WeatherService.get_temperature_category _) in *.
  set (c := Py.lower (condition weather)).
  destruct Hc as [<- | [<- | [<- | [<- | [<- | [<- | []]]]]]];
    destruct (Py.contains "rain" c), (Py.contains "sun" c), (Py.contains "wind" c);
    (split; [reflexivity |]); (split; [reflexivity |]); (split; [simpl; lia |]);
    match goal with
    | |- List.NoDup ?l =>
        replace l with (Py.dedup l) by (vm_compute; reflexivity);
        apply ClothingAdviceFacts.dedup_NoDup
    end.
Qed.

End WeatherTipsFacts.
